(** * YuE front end: request-to-invocation translation and output discovery

    A shallow embedding of [api_server.py] (the FastAPI handlers
    [generate_music] and [get_output], the pydantic model
    [InferenceRequest]) and of [gradio_ui.py] ([run_inference]), with the
    Python and operating-system services they call: truthiness, [str],
    [pathlib], [tempfile], [subprocess.run], a file system and the route
    that leads to [get_output]. *)

From Stdlib Require Import ZArith String List Ascii Strings.Byte PrimFloat
  SpecFloat FloatOps DecimalString Lia.
From stdpp Require Import base option list strings gmap.

Local Open Scope Z_scope.

(** ** Python values *)

(** Newline, as written [\n] in the source's string literals. *)
Definition nl : string := String "010"%char EmptyString.

(** [str(n)] for a Python [int]. *)
Definition str_int (z : Z) : string := NilZero.string_of_int (Z.to_int z).

(** A Python number held by a field annotated [float]: pydantic coerces
    what the caller supplies to a [float], but leaves a declared default
    such as [0] or [30] the [int] it is written as. *)
Inductive PyNum :=
| PyInt (z : Z)
| PyFloat (f : float).

(** Truthiness of an [Optional[str]]: [None] and [""] are falsy. *)
Definition truthy (o : option string) : bool :=
  match o with
  | Some s => negb (String.eqb s "")
  | None => false
  end.

(** [sep.join(l)]. *)
Definition join (sep : string) (l : list string) : string := String.concat sep l.

(** [b] occurs in [s] as a contiguous piece. *)
Definition contains (s b : string) : Prop := ∃ pre post, s = pre +:+ b +:+ post.

(** [s.endswith(suf)]. *)
Definition endswith (s suf : string) : bool :=
  (String.length suf <=? String.length s)%nat &&
  String.eqb (substring (String.length s - String.length suf) (String.length suf) s) suf.

(** Exceptions: the built-in ones by class name and message ([str(e)] is
    the message), and FastAPI's [HTTPException]. *)
Inductive exn :=
| Exception (cls msg : string)
| HTTPException (status_code : Z) (detail : string).

Definition str_exn (e : exn) : string :=
  match e with
  | Exception _ msg => msg
  | HTTPException _ detail => detail
  end.

(** ** pathlib *)

(** [s.split("/")]. *)
Fixpoint split_slash (s : string) (cur : string) : list string :=
  match s with
  | EmptyString => [cur]
  | String c s' =>
      if Ascii.eqb c "/"%char then cur :: split_slash s' ""
      else split_slash s' (cur +:+ String c "")
  end.

(** A [PurePosixPath]: its root ([""] when relative, ["/"], or ["//"] when
    the text starts with exactly two slashes) and its components. Empty
    and ["."] components are dropped on parsing; [".."] is kept. *)
Record Path := mkPath { root : string; parts : list string }.

Definition parse_root (s : string) : string :=
  match s with
  | String "/" (String "/" (String "/" _)) => "/"
  | String "/" (String "/" _) => "//"
  | String "/" _ => "/"
  | _ => ""
  end.

Definition component (c : string) : bool :=
  negb (String.eqb c "") && negb (String.eqb c ".").

Definition Path_of (s : string) : Path :=
  mkPath (parse_root s) (filter (λ c, component c = true) (split_slash s "")).

(** [p / s]: an absolute right operand replaces the left one. *)
Definition Path_div (p : Path) (s : string) : Path :=
  let q := Path_of s in
  if String.eqb (root q) "" then mkPath (root p) (parts p ++ parts q) else q.

(** [str(p)]. *)
Definition Path_str (p : Path) : string :=
  match root p, parts p with
  | EmptyString, [] => "."
  | r, ps => r +:+ join "/" ps
  end.

(** [p.name]. *)
Definition Path_name (p : Path) : string := List.last (parts p) "".

(** ** File system *)

(** A file with its modification time and text, a directory, or a
    symbolic link that leads nowhere. Every call the source makes follows
    links, so a link that resolves is entered as the file or directory it
    leads to; a dangling one is an entry of its directory (a scan lists
    it, its name is taken) of which [os.stat] fails. *)
Inductive inode :=
| File (st_mtime : Z) (data : string)
| Dir (st_mtime : Z)
| Dangling.

Definition mtime (n : inode) : Z :=
  match n with File t _ => t | Dir t => t | Dangling => 0 end.

(** The file system: canonical absolute paths (component lists) with their
    inodes, kept in the order in which a directory scan yields them. The
    root directory [[]] always exists. *)
Definition fsmap := list (list string * inode).

Fixpoint fs_get (fs : fsmap) (k : list string) : option inode :=
  match fs with
  | [] => None
  | (k', n) :: fs' => if decide (k' = k) then Some n else fs_get fs' k
  end.

Definition node_at (fs : fsmap) (k : list string) : option inode :=
  match k with
  | [] => Some (default (Dir 0) (fs_get fs []))
  | _ => fs_get fs k
  end.

Definition is_dir (fs : fsmap) (k : list string) : bool :=
  match node_at fs k with Some (Dir _) => true | _ => false end.

(** Path resolution as the kernel does it: every component is looked up in
    a directory that exists (a dangling link is none), and [".."] steps to
    the parent (the root is its own parent). *)
Fixpoint resolve (fs : fsmap) (cur : list string) (ps : list string)
  : option (list string) :=
  match ps with
  | [] => Some cur
  | p :: ps' =>
      if is_dir fs cur then
        if String.eqb p ".." then resolve fs (removelast cur) ps'
        else resolve fs (cur ++ [p]) ps'
      else None
  end.

(** Entries of directory [d], in scan order. *)
Definition child_of (d : list string) (e : list string * inode)
  : option (string * inode) :=
  match e with
  | (k, n) =>
      if decide (removelast k = d) then
        match last k with Some name => Some (name, n) | None => None end
      else None
  end.

Definition scandir (fs : fsmap) (d : list string) : list (string * inode) :=
  omap (child_of d) fs.

(** ** The process and its surroundings *)

(** What running a child process leads to: it cannot be started, or it
    runs to completion with an exit code, the bytes it wrote to its two
    captured streams and the file system it leaves behind. *)
Inductive outcome :=
| LaunchFailed (msg : string)
| Exited (code : Z) (out err : list byte) (fs' : fsmap).

(** What the server process did to its surroundings, kept as a record of
    events so that statements can speak about it: a temporary file created
    (the name handed out and the place it is at), a child process run. *)
Inductive event :=
| Created (name : string) (k : list string)
| Ran (cmd : list string).

Record World := mkWorld {
  fs : fsmap;
  cwd : list string;           (* working directory of the server *)
  tempdir : string;            (* tempfile.gettempdir() *)
  rand : nat → string;         (* the random name source of tempfile *)
  rand_pos : nat;              (* how many names were drawn from it *)
  now : Z;                     (* clock, for the mtime of a new file *)
  trace : list event;          (* what was done so far, oldest first *)
  tasks : list (list string);  (* work queued on the BackgroundTasks *)
}.

Definition set_fs (f : fsmap) (w : World) : World :=
  mkWorld f (cwd w) (tempdir w) (rand w) (rand_pos w) (now w) (trace w) (tasks w).

Definition draw (w : World) : World :=
  mkWorld (fs w) (cwd w) (tempdir w) (rand w) (S (rand_pos w)) (now w) (trace w) (tasks w).

Definition log (e : event) (w : World) : World :=
  mkWorld (fs w) (cwd w) (tempdir w) (rand w) (rand_pos w) (now w) (trace w ++ [e]) (tasks w).

(** The place a path leads to: relative paths start at the working
    directory. *)
Definition locate (w : World) (p : Path) : option (list string) :=
  resolve (fs w) (if String.eqb (root p) "" then cwd w else []) (parts p).

(** [os.stat] of a path, [None] where it fails: nothing is there, or a
    link that leads nowhere. *)
Definition stat (w : World) (p : Path) : option inode :=
  match locate w p with
  | Some k =>
      match node_at (fs w) k with
      | Some Dangling => None
      | n => n
      end
  | None => None
  end.

(** ** Computations: state and exceptions *)

Inductive res (A : Type) :=
| Ok (a : A)
| Raise (e : exn).
Arguments Ok {A} a.
Arguments Raise {A} e.

Definition M (A : Type) : Type := World → res A * World.

Definition ret {A} (a : A) : M A := λ w, (Ok a, w).

Definition raise {A} (e : exn) : M A := λ w, (Raise e, w).

Definition bind {A B} (m : M A) (k : A → M B) : M B :=
  λ w, match m w with
       | (Ok a, w') => k a w'
       | (Raise e, w') => (Raise e, w')
       end.

(** [try: m  except Exception as e: h e]. *)
Definition try_except {A} (m : M A) (h : exn → M A) : M A :=
  λ w, match m w with
       | (Ok a, w') => (Ok a, w')
       | (Raise e, w') => h e w'
       end.

Notation "'let*' x ':=' m 'in' k" := (bind m (λ x, k))
  (at level 10, x name, m at level 100, k at level 200).

(** A value or an exception that is already there. *)
Definition lift {A} (r : res A) : M A := λ w, (r, w).

(** [Path.exists()]. *)
Definition Path_exists (p : Path) : M bool :=
  λ w, (Ok (bool_decide (is_Some (stat w p))), w).

(** ** tempfile *)

(** The number of names tried (10000 where the platform gives no other). *)
Definition TMP_MAX : nat := 100 * 100.

(** [os.path.join(a, b)] for a relative [b]. *)
Definition os_path_join (a b : string) : string :=
  if String.eqb a "" || endswith a "/" then a +:+ b else a +:+ "/" +:+ b.

(** The name search of [tempfile]: draw ["tmp" + random + suffix] until a
    name is free in [dir], at most [n] times. *)
Fixpoint mkstemp_inner (n : nat) (dir : list string) (suffix : string) (w : World)
  : option string * World :=
  match n with
  | O => (None, w)
  | S n' =>
      let name := "tmp" +:+ rand w (rand_pos w) +:+ suffix in
      match node_at (fs w) (dir ++ [name]) with
      | None => (Some name, draw w)
      | Some _ => mkstemp_inner n' dir suffix (draw w)
      end
  end.

(** [with tempfile.NamedTemporaryFile(mode='w', suffix=suffix, delete=False) as f:
        f.write(text)]
    and the value of [f.name]: the file is created under a fresh name in
    the temporary directory, holds [text] once the block is left, and is
    not removed. *)
Definition NamedTemporaryFile_write (suffix text : string) : M string :=
  λ w,
    match locate w (Path_of (tempdir w)) with
    | None =>
        (Raise (Exception "FileNotFoundError" "No usable temporary directory found"), w)
    | Some dir =>
        if is_dir (fs w) dir then
          match mkstemp_inner TMP_MAX dir suffix w with
          | (Some name, w1) =>
              let path := os_path_join (tempdir w) name in
              (Ok path,
               log (Created path (dir ++ [name]))
                 (set_fs (fs w1 ++ [(dir ++ [name], File (now w1) text)]) w1))
          | (None, w1) =>
              (Raise (Exception "FileExistsError" "No usable temporary file name found"), w1)
          end
        else
          (Raise (Exception "NotADirectoryError" "No usable temporary directory found"), w)
    end.

(** ** subprocess *)

Record CompletedProcess := mkCompleted {
  returncode : Z;
  stdout : string;
  stderr : string;
}.

(** The external programs, by argument list, working directory and the
    file system they find. *)
Definition program := list string → string → fsmap → outcome.

(** Universal newlines: [data.replace("\r\n", "\n").replace("\r", "\n")]. *)
Fixpoint translate_newlines (s : string) : string :=
  match s with
  | String "013" (String "010" s') => String "010" (translate_newlines s')
  | String "013" s' => String "010" (translate_newlines s')
  | String c s' => String c (translate_newlines s')
  | EmptyString => EmptyString
  end.

Section Subprocess.
(** [bytes.decode] with the encoding of the locale and [errors='strict']:
    the text, or the [UnicodeDecodeError] it raises. *)
Variable decode : list byte → res string.

(** What [text=True] makes of a captured stream. *)
Definition text_of (data : list byte) : res string :=
  match decode data with
  | Ok s => Ok (translate_newlines s)
  | Raise e => Raise e
  end.

(** [subprocess.run(cmd, capture_output=True, text=True, cwd=dir)]: without
    [check=True] a non-zero exit code is returned like any other. A child
    that cannot be started raises; so does, once the child has run,
    captured output that is no text in the encoding of the locale, the
    standard output being decoded first. *)
Definition subprocess_run (child : program) (cmd : list string) (dir : string)
  : M CompletedProcess :=
  λ w,
    match child cmd dir (fs w) with
    | LaunchFailed msg => (Raise (Exception "OSError" msg), w)
    | Exited rc out err fs' =>
        let w' := log (Ran cmd) (set_fs fs' w) in
        match text_of out with
        | Ok o =>
            match text_of err with
            | Ok e => (Ok (mkCompleted rc o e), w')
            | Raise x => (Raise x, w')
            end
        | Raise x => (Raise x, w')
        end
    end.
End Subprocess.

(** ** Module globals, read from the environment on import

    [api_server.py] lines 31-35 and [gradio_ui.py] lines 16-20 are the
    same five assignments. *)

Definition getenv (environ : gmap string string) (k d : string) : string :=
  default d (environ !! k).

Definition INFERENCE_SCRIPT : string := "/app/inference/infer.py".

Section Globals.
Variable environ : gmap string string.

Definition STAGE1_MODEL : string :=
  getenv environ "STAGE1_MODEL" "m-a-p/YuE-s1-7B-anneal-en-icl".
Definition STAGE2_MODEL : string :=
  getenv environ "STAGE2_MODEL" "m-a-p/YuE-s2-1B-general".
Definition CUDA_IDX : string := getenv environ "CUDA_IDX" "0".
Definition OUTPUT_DIR : string := getenv environ "OUTPUT_DIR" "/app/output".
End Globals.

(** ** Pieces of command building that both files spell out alike *)

Section Render.
(** [str(x)] for a [float]: Python's shortest round-tripping decimal. *)
Variable float_repr : float → string.

Definition str_num (x : PyNum) : string :=
  match x with
  | PyInt z => str_int z
  | PyFloat f => float_repr f
  end.

(** [if v: cmd.extend([flag, v])]. *)
Definition path_args (flag : string) (v : option string) : list string :=
  if truthy v then [flag; default "" v] else [].

(** [if t is not None: cmd.extend([flag, str(t)])]. *)
Definition time_args (flag : string) (t : option PyNum) : list string :=
  match t with
  | Some x => [flag; str_num x]
  | None => []
  end.

(** The block under [# Handle audio prompts] ([api_server.py] 113-130,
    [gradio_ui.py] 79-96). *)
Definition audio_prompt_args
    (use_dual_tracks_prompt : bool)
    (vocal_track_prompt_path instrumental_track_prompt_path : option string)
    (use_audio_prompt : bool) (audio_prompt_path : option string)
    (prompt_start_time prompt_end_time : option PyNum) : list string :=
  if use_dual_tracks_prompt then
    ["--use_dual_tracks_prompt"]
      ++ path_args "--vocal_track_prompt_path" vocal_track_prompt_path
      ++ path_args "--instrumental_track_prompt_path" instrumental_track_prompt_path
      ++ time_args "--prompt_start_time" prompt_start_time
      ++ time_args "--prompt_end_time" prompt_end_time
  else if use_audio_prompt then
    ["--use_audio_prompt"]
      ++ path_args "--audio_prompt_path" audio_prompt_path
      ++ time_args "--prompt_start_time" prompt_start_time
      ++ time_args "--prompt_end_time" prompt_end_time
  else [].

(** The list literal that opens both command builders. *)
Definition base_cmd (cuda_idx stage1_model stage2_model : string)
    (run_n_segments stage2_batch_size : Z) (output_dir : string)
    (max_new_tokens : Z) (repetition_penalty : PyNum) : list string :=
  [ "python"; INFERENCE_SCRIPT;
    "--cuda_idx"; cuda_idx;
    "--stage1_model"; stage1_model;
    "--stage2_model"; stage2_model;
    "--run_n_segments"; str_int run_n_segments;
    "--stage2_batch_size"; str_int stage2_batch_size;
    "--output_dir"; output_dir;
    "--max_new_tokens"; str_int max_new_tokens;
    "--repetition_penalty"; str_num repetition_penalty ].

(** [with tempfile.NamedTemporaryFile(...) as f: f.write(text);
    cmd.extend([flag, f.name])]. *)
Definition staged_args (flag text : string) : M (list string) :=
  let* name := NamedTemporaryFile_write ".txt" text in
  ret [flag; name].
End Render.

(** ** api_server.py *)

Module api_server.

(** [class InferenceRequest(BaseModel)], lines 37-52. *)
Record InferenceRequest := mkRequest {
  genre_txt : option string;
  lyrics_txt : option string;
  genre_file : option string;
  lyrics_file : option string;
  run_n_segments : Z;
  stage2_batch_size : Z;
  max_new_tokens : Z;
  repetition_penalty : PyNum;
  use_audio_prompt : bool;
  audio_prompt_path : option string;
  prompt_start_time : PyNum;
  prompt_end_time : PyNum;
  use_dual_tracks_prompt : bool;
  vocal_track_prompt_path : option string;
  instrumental_track_prompt_path : option string;
}.

(** The fields a caller supplies, each of the declared type or left out
    ([None]; for an [Optional[str]] also an explicit null). A number
    supplied for a [float] field arrives as a [float]. *)
Record fields := mkFields {
  f_genre_txt : option string;
  f_lyrics_txt : option string;
  f_genre_file : option string;
  f_lyrics_file : option string;
  f_run_n_segments : option Z;
  f_stage2_batch_size : option Z;
  f_max_new_tokens : option Z;
  f_repetition_penalty : option float;
  f_use_audio_prompt : option bool;
  f_audio_prompt_path : option string;
  f_prompt_start_time : option float;
  f_prompt_end_time : option float;
  f_use_dual_tracks_prompt : option bool;
  f_vocal_track_prompt_path : option string;
  f_instrumental_track_prompt_path : option string;
}.

Definition supplied (d : PyNum) (o : option float) : PyNum :=
  match o with Some f => PyFloat f | None => d end.

(** Construction of the model from supplied fields: the class declares
    types and defaults and no validator, so every field is taken as it
    is and a missing one gets its default ([1.1] is the double
    [0x1.199999999999ap+0]). *)
Definition InferenceRequest_init (raw : fields) : InferenceRequest :=
  {| genre_txt := f_genre_txt raw;
     lyrics_txt := f_lyrics_txt raw;
     genre_file := f_genre_file raw;
     lyrics_file := f_lyrics_file raw;
     run_n_segments := default 2 (f_run_n_segments raw);
     stage2_batch_size := default 4 (f_stage2_batch_size raw);
     max_new_tokens := default 3000 (f_max_new_tokens raw);
     repetition_penalty :=
       supplied (PyFloat 0x1.199999999999ap+0%float) (f_repetition_penalty raw);
     use_audio_prompt := default false (f_use_audio_prompt raw);
     audio_prompt_path := f_audio_prompt_path raw;
     prompt_start_time := supplied (PyInt 0) (f_prompt_start_time raw);
     prompt_end_time := supplied (PyInt 30) (f_prompt_end_time raw);
     use_dual_tracks_prompt := default false (f_use_dual_tracks_prompt raw);
     vocal_track_prompt_path := f_vocal_track_prompt_path raw;
     instrumental_track_prompt_path := f_instrumental_track_prompt_path raw |}.

(** [s[len(prefix):]] when [s] starts with [prefix]. *)
Fixpoint strip_prefix (prefix s : string) : option string :=
  match prefix, s with
  | EmptyString, _ => Some s
  | String a prefix', String b s' =>
      if Ascii.eqb a b then strip_prefix prefix' s' else None
  | String _ _, EmptyString => None
  end.

(** The route [/api/output/{filename}]: the path parameter is one segment
    of the request path as the server hands it on (percent-decoded), that
    is [[^/]+], and the whole path has to match. *)
Definition output_route (path : string) : option string :=
  match strip_prefix "/api/output/" path with
  | Some filename =>
      if negb (String.eqb filename "")
         && negb (existsb (Ascii.eqb "/"%char) (list_ascii_of_string filename))
      then Some filename else None
  | None => None
  end.

(** What a handler returns. *)
Inductive reply :=
| Json (d : gmap string string)
| FileResponse (p : Path).

(** What goes back over the wire. *)
Inductive content :=
| JsonBody (d : gmap string string)
| FileBody (data : string)
| TextBody (s : string).

Record http := mkHttp { status : Z; body : content }.

Section Handlers.
Variable environ : gmap string string.
Variable float_repr : float → string.

(** Lines 96-103 and 104-110: a file reference first, else non-empty
    text through a temporary file, else nothing. *)
Definition text_args (flag : string) (file text : option string)
  : M (list string) :=
  if truthy file then ret [flag; default "" file]
  else if truthy text then staged_args flag (default "" text)
  else ret [].

(** Lines 83-130 of [generate_music]: the command. *)
Definition build_cmd (request : InferenceRequest) : M (list string) :=
  let cmd :=
    base_cmd float_repr (CUDA_IDX environ) (STAGE1_MODEL environ)
      (STAGE2_MODEL environ) (run_n_segments request)
      (stage2_batch_size request) (OUTPUT_DIR environ)
      (max_new_tokens request) (repetition_penalty request) in
  let* genre := text_args "--genre_txt" (genre_file request) (genre_txt request) in
  let cmd := cmd ++ genre in
  let* lyrics := text_args "--lyrics_txt" (lyrics_file request) (lyrics_txt request) in
  let cmd := cmd ++ lyrics in
  ret (cmd ++ audio_prompt_args float_repr
         (use_dual_tracks_prompt request)
         (vocal_track_prompt_path request)
         (instrumental_track_prompt_path request)
         (use_audio_prompt request)
         (audio_prompt_path request)
         (Some (prompt_start_time request))
         (Some (prompt_end_time request))).

(** [generate_music], lines 73-142. The command is built and dropped;
    [background_tasks] is not used; the placeholder is returned. *)
Definition generate_music (request : InferenceRequest) : M reply :=
  try_except
    (let* cmd := build_cmd request in
     ret (Json
       (<["status" := "accepted"]>
        (<["message" := "Music generation started"]>
        (<["output_dir" := OUTPUT_DIR environ]>
        (<["note" := "This is a placeholder. Actual implementation should run inference asynchronously and return results."]>
         ∅))))))
    (λ e, raise (HTTPException 500 ("Error during inference: " +:+ str_exn e))).

(** [get_output], lines 144-150. *)
Definition get_output (filename : string) : M reply :=
  let file_path := Path_div (Path_of (OUTPUT_DIR environ)) filename in
  let* found := Path_exists file_path in
  if negb found then raise (HTTPException 404 "File not found")
  else ret (FileResponse file_path).

(** FastAPI around a handler: a returned dict is a 200 JSON body, a
    [FileResponse] sends the file's content (and fails unless the path
    is a regular file), an [HTTPException] becomes its status code. *)
Definition fastapi (handler : M reply) : World → http * World :=
  λ w,
    match handler w with
    | (Ok (Json d), w') => (mkHttp 200 (JsonBody d), w')
    | (Ok (FileResponse p), w') =>
        match stat w' p with
        | Some (File _ data) => (mkHttp 200 (FileBody data), w')
        | _ => (mkHttp 500 (TextBody "Internal Server Error"), w')
        end
    | (Raise (HTTPException code detail), w') =>
        (mkHttp code (JsonBody (<["detail" := detail]> ∅)), w')
    | (Raise (Exception _ _), w') =>
        (mkHttp 500 (TextBody "Internal Server Error"), w')
    end.

(** What the rest of the application answers to a request that the route
    of [get_output] does not take: its other routes, the router's own
    redirect and 404, the page mounted at [/]. *)
Variable elsewhere : string → World → http * World.

(** [@app.get("/api/output/{filename}")], line 144: [GET path] as the
    application routes it. *)
Definition app_get (path : string) : World → http * World :=
  match output_route path with
  | Some filename => fastapi (get_output filename)
  | None => elsewhere path
  end.
End Handlers.

End api_server.

(** ** gradio_ui.py *)

Module gradio_ui.

(** The parameters of [run_inference], lines 32-49 ([progress] only
    reports to the page and is left out). *)
Record params := mkParams {
  genre_txt : string;
  lyrics_txt : string;
  run_n_segments : Z;
  stage2_batch_size : Z;
  max_new_tokens : Z;
  repetition_penalty : PyNum;
  use_audio_prompt : bool;
  audio_prompt_path : option string;
  prompt_start_time : option PyNum;
  prompt_end_time : option PyNum;
  use_dual_tracks_prompt : bool;
  vocal_track_prompt_path : option string;
  instrumental_track_prompt_path : option string;
  stage1_model : string;
  stage2_model : string;
}.

(** [max(l, key=...)] on a non-empty list whose keys are all there: the
    first element whose key no later one exceeds. *)
Fixpoint max_by {A} (key : A → Z) (best : A) (l : list A) : A :=
  match l with
  | [] => best
  | x :: l' => max_by key (if key best <? key x then x else best) l'
  end.

(** [max(l, key=...)] with a key that can raise: the keys are taken in
    list order, and the first exception ends the search. *)
Fixpoint max_key {A} (key : A → res Z) (best : A) (kbest : Z) (l : list A)
  : res A :=
  match l with
  | [] => Ok best
  | x :: l' =>
      match key x with
      | Ok k => if kbest <? k then max_key key x k l' else max_key key best kbest l'
      | Raise e => Raise e
      end
  end.

Definition py_max {A} (key : A → res Z) (first : A) (others : list A) : res A :=
  match key first with
  | Ok k => max_key key first k others
  | Raise e => Raise e
  end.

(** [p.stat().st_mtime] of a listed entry: [stat] follows links and
    raises for one that leads nowhere. *)
Definition st_mtime_of (e : Path * inode) : res Z :=
  match e.2 with
  | Dangling =>
      Raise (Exception "FileNotFoundError"
               ("[Errno 2] No such file or directory: '" +:+ Path_str e.1 +:+ "'"))
  | n => Ok (mtime n)
  end.

(** [list(p.glob("*" + suffix))]: the entries of the directory whose
    name ends in [suffix], in scan order, each with the node it is
    (nothing changes the directory between the scan and the [stat]);
    nothing when [p] is not a directory. *)
Definition globbed (p : Path) (suffix : string) (w : World) : list (Path * inode) :=
  match locate w p with
  | Some d =>
      if is_dir (fs w) d then
        omap (λ e : string * inode,
                if endswith e.1 suffix
                then Some (mkPath (root p) (parts p ++ [e.1]), e.2)
                else None)
             (scandir (fs w) d)
      else []
  | None => []
  end.

Definition glob_suffix (p : Path) (suffix : string) : M (list (Path * inode)) :=
  λ w, (Ok (globbed p suffix w), w).

Section Handlers.
Variable environ : gmap string string.
Variable float_repr : float → string.
Variable decode : list byte → res string.
Variable child : program.

(** [if text: with tempfile... cmd.extend([flag, f.name])], lines 68-76. *)
Definition text_args (flag text : string) : M (list string) :=
  if negb (String.eqb text "") then staged_args flag text else ret [].

(** Lines 55-96 of [run_inference]: the command. *)
Definition build_cmd (a : params) : M (list string) :=
  let cmd :=
    base_cmd float_repr (CUDA_IDX environ) (stage1_model a) (stage2_model a)
      (run_n_segments a) (stage2_batch_size a) (OUTPUT_DIR environ)
      (max_new_tokens a) (repetition_penalty a) in
  let* genre := text_args "--genre_txt" (genre_txt a) in
  let cmd := cmd ++ genre in
  let* lyrics := text_args "--lyrics_txt" (lyrics_txt a) in
  let cmd := cmd ++ lyrics in
  ret (cmd ++ audio_prompt_args float_repr
         (use_dual_tracks_prompt a)
         (vocal_track_prompt_path a)
         (instrumental_track_prompt_path a)
         (use_audio_prompt a)
         (audio_prompt_path a)
         (prompt_start_time a)
         (prompt_end_time a)).

(** Lines 114-128: the newest audio file of the output directory. *)
Definition find_output (result : CompletedProcess) : M (option string * string) :=
  let output_path := Path_of (OUTPUT_DIR environ) in
  let* found := Path_exists output_path in
  if negb found then
    ret (None, "Output directory " +:+ OUTPUT_DIR environ +:+ " does not exist.")
  else
    let* mp3 := glob_suffix output_path ".mp3" in
    let* wav := glob_suffix output_path ".wav" in
    let audio_files := mp3 ++ wav in
    match audio_files with
    | first :: others =>
        let* latest := lift (py_max st_mtime_of first others) in
        let latest_file := latest.1 in
        ret (Some (Path_str latest_file),
             "✅ Success! Generated "
               +:+ str_int (Z.of_nat (length audio_files))
               +:+ " file(s)." +:+ nl +:+ "Latest: " +:+ Path_name latest_file
               +:+ nl +:+ nl +:+ "Output directory: " +:+ OUTPUT_DIR environ)
    | [] =>
        ret (None, "Generation completed but no audio files found in "
               +:+ OUTPUT_DIR environ +:+ "." +:+ nl +:+ nl
               +:+ "Command output: " +:+ stdout result)
    end.

(** [run_inference], lines 32-131. *)
Definition run_inference (a : params) : M (option string * string) :=
  try_except
    (let* cmd := build_cmd a in
     let* result := subprocess_run decode child cmd "/app" in
     if negb (returncode result =? 0) then
       ret (None, "Error: " +:+ stderr result +:+ nl +:+ nl
                    +:+ "Command: " +:+ join " " cmd)
     else find_output result)
    (λ e, ret (None, "Exception: " +:+ str_exn e)).
End Handlers.

End gradio_ui.

(** ** Reading a composed command

    The argument grammar of the inference program: the flags below take
    the next argument as their value, whatever it looks like; every other
    argument stands alone. *)

Definition value_flags : list string :=
  [ "--cuda_idx"; "--stage1_model"; "--stage2_model"; "--run_n_segments";
    "--stage2_batch_size"; "--output_dir"; "--max_new_tokens";
    "--repetition_penalty"; "--genre_txt"; "--lyrics_txt";
    "--vocal_track_prompt_path"; "--instrumental_track_prompt_path";
    "--audio_prompt_path"; "--prompt_start_time"; "--prompt_end_time" ].

Definition takes_value (a : string) : bool := existsb (String.eqb a) value_flags.

Fixpoint read_args (l : list string) : list (string * option string) :=
  match l with
  | [] => []
  | a :: rest =>
      if takes_value a then
        match rest with
        | v :: rest' => (a, Some v) :: read_args rest'
        | [] => [(a, None)]
        end
      else (a, None) :: read_args rest
  end.

(** The command has [flag], alone or with a value. *)
Definition has_flag (flag : string) (cmd : list string) : Prop :=
  flag ∈ (read_args cmd).*1.

(** The command has the pair [flag value]. *)
Definition has_pair (flag value : string) (cmd : list string) : Prop :=
  (flag, Some value) ∈ read_args cmd.

(** ** Notions the statements use *)

Definition dual_flag : string := "--use_dual_tracks_prompt".
Definition single_flag : string := "--use_audio_prompt".

(** The name [tempfile] tries at the [i]-th draw. *)
Definition candidate (w : World) (i : nat) : string :=
  "tmp" +:+ rand w i +:+ ".txt".

(** The temporary directory is there and the next two names drawn are
    free and differ: enough to stage both text fields. *)
Definition tmp_ready (w : World) : bool :=
  match locate w (Path_of (tempdir w)) with
  | Some dir =>
      is_dir (fs w) dir
      && bool_decide (node_at (fs w) (dir ++ [candidate w (rand_pos w)]) = None)
      && bool_decide (node_at (fs w) (dir ++ [candidate w (S (rand_pos w))]) = None)
      && negb (String.eqb (candidate w (rand_pos w)) (candidate w (S (rand_pos w))))
  | None => false
  end.

(** Every temporary file the process created is still a file. *)
Definition temps_alive (w : World) : Prop :=
  ∀ name k, Created name k ∈ trace w → ∃ t d, node_at (fs w) k = Some (File t d).

(** A child process that removes and alters nothing it finds. *)
Definition keeps_files (child : program) : Prop :=
  ∀ cmd dir f rc out err f',
    child cmd dir f = Exited rc out err f' →
    ∀ k n, node_at f k = Some n → node_at f' k = Some n.

(** Two worlds that differ at most in how many names were drawn. *)
Definition same_but_drawn (w w1 : World) : Prop :=
  fs w1 = fs w ∧ cwd w1 = cwd w ∧ tempdir w1 = tempdir w ∧ rand w1 = rand w
  ∧ now w1 = now w ∧ trace w1 = trace w ∧ tasks w1 = tasks w.

(** Staging of one text field, with or without a file reference, then the
    other, between a fixed opening and the prompt arguments. *)
Definition compose (base : list string)
    (gfile gtext lfile ltext : option string) (prompt : list string)
  : M (list string) :=
  let* genre := api_server.text_args "--genre_txt" gfile gtext in
  let* lyrics := api_server.text_args "--lyrics_txt" lfile ltext in
  ret (((base ++ genre) ++ lyrics) ++ prompt).

(** What [text_args] yields and does, case by case. *)
Definition text_outcome (flag : string) (file text : option string)
    (w : World) (g : list string) (w' : World) : Prop :=
  (truthy file = true ∧ g = [flag; default "" file] ∧ w' = w)
  ∨ (truthy file = false ∧ truthy text = true ∧
     ∃ path, g = [flag; path]
             ∧ NamedTemporaryFile_write ".txt" (default "" text) w = (Ok path, w'))
  ∨ (truthy file = false ∧ truthy text = false ∧ g = [] ∧ w' = w).

(** The temporary directory is there and the next name drawn is free. *)
Definition tmp_ready1 (w : World) : Prop :=
  ∃ dir, locate w (Path_of (tempdir w)) = Some dir
         ∧ is_dir (fs w) dir = true
         ∧ node_at (fs w) (dir ++ [candidate w (rand_pos w)]) = None.

(** No flag of [l] is left waiting for its value. *)
Fixpoint closed (l : list string) : bool :=
  match l with
  | [] => true
  | a :: rest =>
      if takes_value a then
        match rest with
        | _ :: rest' => closed rest'
        | [] => false
        end
      else closed rest
  end.

Definition text_items (g : list string) : list (string * option string) :=
  match g with
  | [flag; v] => [(flag, Some v)]
  | _ => []
  end.

(** The prompt block, read. *)
Definition path_item (flag : string) (v : option string)
  : list (string * option string) :=
  if truthy v then [(flag, Some (default "" v))] else [].

Definition time_item (float_repr : float → string) (flag : string) (t : option PyNum)
  : list (string * option string) :=
  match t with
  | Some x => [(flag, Some (str_num float_repr x))]
  | None => []
  end.

Definition prompt_items (float_repr : float → string)
    (dual : bool) (vocal inst : option string)
    (single : bool) (audio : option string) (t0 t1 : option PyNum)
  : list (string * option string) :=
  if dual then
    [(dual_flag, None)]
      ++ path_item "--vocal_track_prompt_path" vocal
      ++ path_item "--instrumental_track_prompt_path" inst
      ++ time_item float_repr "--prompt_start_time" t0
      ++ time_item float_repr "--prompt_end_time" t1
  else if single then
    [(single_flag, None)]
      ++ path_item "--audio_prompt_path" audio
      ++ time_item float_repr "--prompt_start_time" t0
      ++ time_item float_repr "--prompt_end_time" t1
  else [].

(** Membership in a written-out list. *)
Ltac is_in := repeat first [ apply list_elem_of_here | apply list_elem_of_further ].

(** Membership in a written-out list of strings, as a boolean. *)
Definition mem (x : string) (l : list string) : bool := existsb (String.eqb x) l.

Definition has_time (t : option PyNum) : bool :=
  match t with Some _ => true | None => false end.

(** The arguments at flag position, in order, for a command built with or
    without a genre file, a lyrics file and each piece of the prompt. *)
Definition cmd_flags (genre lyrics dual vocal inst single audio t0 t1 : bool)
  : list string :=
  [ "python"; INFERENCE_SCRIPT; "--cuda_idx"; "--stage1_model"; "--stage2_model";
    "--run_n_segments"; "--stage2_batch_size"; "--output_dir"; "--max_new_tokens";
    "--repetition_penalty" ]
  ++ (if genre then ["--genre_txt"] else [])
  ++ (if lyrics then ["--lyrics_txt"] else [])
  ++ (if dual then
        [dual_flag]
          ++ (if vocal then ["--vocal_track_prompt_path"] else [])
          ++ (if inst then ["--instrumental_track_prompt_path"] else [])
          ++ (if t0 then ["--prompt_start_time"] else [])
          ++ (if t1 then ["--prompt_end_time"] else [])
      else if single then
        [single_flag]
          ++ (if audio then ["--audio_prompt_path"] else [])
          ++ (if t0 then ["--prompt_start_time"] else [])
          ++ (if t1 then ["--prompt_end_time"] else [])
      else []).

(** At most one mode flag, and the dual-track one when both are asked for. *)
Definition exclusive_modes (dual single : bool) (cmd : list string) : Prop :=
  ¬ (has_flag dual_flag cmd ∧ has_flag single_flag cmd)
  ∧ (dual = true → single = true →
     has_flag dual_flag cmd ∧ ¬ has_flag single_flag cmd).

(** A path flag is there with its path, or not at all. *)
Definition path_flag (flag : string) (v : option string) (cmd : list string) : Prop :=
  if truthy v then has_pair flag (default "" v) cmd else ¬ has_flag flag cmd.

(** A time flag carries [str] of the time that is set. *)
Definition time_flag (float_repr : float → string) (flag : string)
    (t : option PyNum) (cmd : list string) : Prop :=
  match t with
  | Some x => has_pair flag (str_num float_repr x) cmd
  | None => ¬ has_flag flag cmd
  end.

(** In each mode the mode flag is emitted whatever the paths are, and each
    path flag follows its own path. *)
Definition prompt_follows (float_repr : float → string)
    (dual : bool) (vocal inst : option string) (single : bool)
    (audio : option string) (t0 t1 : option PyNum) (cmd : list string) : Prop :=
  (dual = true →
     has_flag dual_flag cmd
     ∧ path_flag "--vocal_track_prompt_path" vocal cmd
     ∧ path_flag "--instrumental_track_prompt_path" inst cmd
     ∧ ¬ has_flag "--audio_prompt_path" cmd
     ∧ time_flag float_repr "--prompt_start_time" t0 cmd
     ∧ time_flag float_repr "--prompt_end_time" t1 cmd)
  ∧ (dual = false → single = true →
     has_flag single_flag cmd
     ∧ path_flag "--audio_prompt_path" audio cmd
     ∧ ¬ has_flag "--vocal_track_prompt_path" cmd
     ∧ ¬ has_flag "--instrumental_track_prompt_path" cmd
     ∧ time_flag float_repr "--prompt_start_time" t0 cmd
     ∧ time_flag float_repr "--prompt_end_time" t1 cmd).

(** Scenario B as the design states it: dual-track, vocal track
    ["/a.wav"], no instrumental track, and the time pairs written [5] and
    [20]. *)
Definition scenario_B (cmd : list string) : Prop :=
  has_flag dual_flag cmd
  ∧ has_pair "--vocal_track_prompt_path" "/a.wav" cmd
  ∧ ¬ has_flag "--instrumental_track_prompt_path" cmd
  ∧ has_pair "--prompt_start_time" "5" cmd
  ∧ has_pair "--prompt_end_time" "20" cmd.

(** ** Sample surroundings for the examples *)

(** A random name source that repeats its first name once. *)
Definition sample_names (n : nat) : string :=
  match n with
  | 0%nat | 1%nat => "aaaaaaaa"
  | 2%nat => "bbbbbbbb"
  | _ => "cccccccc"
  end.

Definition sample_fs : fsmap :=
  [ (["tmp"], Dir 0); (["app"], Dir 0); (["app"; "output"], Dir 0) ].

(** A fresh server: [/tmp] and [/app/output] exist, nothing was done yet. *)
Definition world0 : World := mkWorld sample_fs [] "/tmp" sample_names 1 1000 [] [].

(** The same, with the name source at its repeated name. *)
Definition world_rep : World := mkWorld sample_fs [] "/tmp" sample_names 0 1000 [] [].

(** Python's [str] on the few floats the examples use. *)
Definition sample_repr (f : float) : string :=
  if (f =? 0x1.199999999999ap+0)%float then "1.1"
  else if (f =? 5)%float then "5.0"
  else if (f =? 20)%float then "20.0"
  else if (f =? 0.5)%float then "0.5"
  else if (f =? -1)%float then "-1.0"
  else if (f =? -2)%float then "-2.0"
  else "0.0".

(** Two hexadecimal digits, as [%02x] writes them. *)
Definition hex_digit (n : nat) : ascii :=
  match n with
  | 0 => "0" | 1 => "1" | 2 => "2" | 3 => "3" | 4 => "4" | 5 => "5"
  | 6 => "6" | 7 => "7" | 8 => "8" | 9 => "9" | 10 => "a" | 11 => "b"
  | 12 => "c" | 13 => "d" | 14 => "e" | _ => "f"
  end%nat%char.

Definition hex2 (b : byte) : string :=
  String (hex_digit (Byte.to_nat b / 16)) (String (hex_digit (Byte.to_nat b mod 16)) "").

(** [data.decode('ascii')], the codec of a server whose locale is ASCII:
    the first byte from 128 on raises. *)
Fixpoint ascii_decode_from (i : Z) (data : list byte) : res string :=
  match data with
  | [] => Ok ""
  | b :: data' =>
      if (Byte.to_nat b <? 128)%nat then
        match ascii_decode_from (i + 1) data' with
        | Ok s => Ok (String (ascii_of_byte b) s)
        | Raise e => Raise e
        end
      else
        Raise (Exception "UnicodeDecodeError"
                 ("'ascii' codec can't decode byte 0x" +:+ hex2 b
                    +:+ " in position " +:+ str_int i
                    +:+ ": ordinal not in range(128)"))
  end.

Definition ascii_decode (data : list byte) : res string := ascii_decode_from 0 data.

(** How one text field shows in the command and in what was staged: a file
    reference is passed as it is and nothing is staged; else non-empty
    text is staged in one temporary file, which holds the text and whose
    path is passed; else the flag is left out. *)
Definition field_rule (flag : string) (file text : option string)
    (cmd : list string) (w' : World) (staged : list event) : Prop :=
  if truthy file then has_pair flag (default "" file) cmd ∧ staged = []
  else if truthy text then
    ∃ path k t, has_pair flag path cmd ∧ staged = [Created path k]
                ∧ node_at (fs w') k = Some (File t (default "" text))
  else ¬ has_flag flag cmd ∧ staged = [].

(** A child that fails the way scenario C has it. *)
Definition oom_child : program :=
  λ _ _ f, Exited 1 [] (list_byte_of_string "CUDA OOM") f.

(** A child that fails after writing a byte that is no text. *)
Definition garbled_child : program := λ _ _ f, Exited 1 [] [xff] f.

Definition sample_params : gradio_ui.params :=
  gradio_ui.mkParams "pop" "" 2 4 3000 (PyFloat 0x1.199999999999ap+0)
    false None (Some (PyInt 0)) (Some (PyInt 30)) false None None
    "m-a-p/YuE-s1-7B-anneal-en-icl" "m-a-p/YuE-s2-1B-general".

(** The world a child leaves behind. *)
Definition after_run (cmd : list string) (f2 : fsmap) (w1 : World) : World :=
  log (Ran cmd) (set_fs f2 w1).

(** The audio files [find_output] looks at: the [.mp3] entries of the
    output directory, then its [.wav] entries. *)
Definition audio_files (environ : gmap string string) (w : World)
  : list (Path * inode) :=
  gradio_ui.globbed (Path_of (OUTPUT_DIR environ)) ".mp3" w
  ++ gradio_ui.globbed (Path_of (OUTPUT_DIR environ)) ".wav" w.

(** The design's reading of "latest": greatest modification time, ties
    broken by lexical path order, smallest path first or greatest first. *)
Definition newest_lexical (smallest_first : bool) (files : list (Path * inode))
    (p : string) : Prop :=
  ∃ e, e ∈ files ∧ Path_str e.1 = p
       ∧ (∀ q, q ∈ files → mtime q.2 ≤ mtime e.2)
       ∧ (∀ q, q ∈ files → mtime q.2 = mtime e.2 →
            if smallest_first then String.leb p (Path_str q.1) = true
            else String.leb (Path_str q.1) p = true).

(** A child that leaves three audio files of one and the same age. *)
Definition tie_child : program :=
  λ _ _ f,
    Exited 0 (list_byte_of_string "done") []
      (f ++ [ (["app"; "output"; "a.wav"], File 100 "");
              (["app"; "output"; "b.mp3"], File 100 "");
              (["app"; "output"; "c.wav"], File 100 "") ]).

(** Nothing that was in the file system is gone or altered. *)
Definition fs_kept (w w' : World) : Prop :=
  ∀ k n, node_at (fs w) k = Some n → node_at (fs w') k = Some n.

(** All that happened between [w] and [w'] is the staging of files. *)
Definition only_staged (w w' : World) : Prop :=
  fs_kept w w' ∧ tasks w' = tasks w
  ∧ (∀ cmd, Ran cmd ∈ trace w' → Ran cmd ∈ trace w)
  ∧ (temps_alive w → temps_alive w').

(** A request with genre text ["pop"] and defaults otherwise. *)
Definition pop_request : api_server.InferenceRequest :=
  api_server.InferenceRequest_init
    (api_server.mkFields (Some "pop") None None None None None None None
       None None None None None None None).

(** The field is staged from free text. *)
Definition staged (file text : option string) : bool :=
  negb (truthy file) && truthy text.

(** Two commands with the same flags in the same order and the same value
    for each flag, but for the text flags that are staged. *)
Definition same_but_staged (staged_genre staged_lyrics : bool)
    (c1 c2 : list string) : Prop :=
  (read_args c1).*1 = (read_args c2).*1
  ∧ ∀ flag v,
      (flag = "--genre_txt" → staged_genre = false) →
      (flag = "--lyrics_txt" → staged_lyrics = false) →
      (has_pair flag v c1 ↔ has_pair flag v c2).

(** The value of [flag] is, in each of two commands, the name of a
    temporary file that was not there before its composition ([wa] to
    [wa'], [wb] to [wb']) and that this composition created, and the two
    names differ. *)
Definition staged_afresh (flag : string) (wa wa' wb wb' : World)
    (c1 c2 : list string) : Prop :=
  ∃ pa pb ka kb,
    has_pair flag pa c1 ∧ has_pair flag pb c2 ∧ pa ≠ pb
    ∧ node_at (fs wa) ka = None ∧ Created pa ka ∈ trace wa'
    ∧ node_at (fs wb) kb = None ∧ Created pb kb ∈ trace wb'.

(** The bounds of the design (its sections 3 and 4.1), on the fields as
    supplied or defaulted: segments, batch size and token budget at least
    1, repetition penalty at least 1.0, start time at least 0, end time
    after start time. *)
Definition in_bounds (raw : api_server.fields) : bool :=
  (1 <=? default 2 (api_server.f_run_n_segments raw))
  && (1 <=? default 4 (api_server.f_stage2_batch_size raw))
  && (1 <=? default 3000 (api_server.f_max_new_tokens raw))
  && (1 <=? default 0x1.199999999999ap+0 (api_server.f_repetition_penalty raw))%float
  && (0 <=? default 0 (api_server.f_prompt_start_time raw))%float
  && (default 0 (api_server.f_prompt_start_time raw)
      <? default 30 (api_server.f_prompt_end_time raw))%float.

(** Fields that break every one of these bounds. *)
Definition unbounded_fields : api_server.fields :=
  api_server.mkFields None None None None (Some 0) (Some 0) (Some 0)
    (Some 0.5%float) (Some true) None (Some (-1)%float) (Some (-2)%float)
    None None None.


(** The router's own answer where no route matches. *)
Definition not_found (path : string) (w : World) : api_server.http * World :=
  (api_server.mkHttp 404 (api_server.JsonBody (<["detail" := "Not Found"]> ∅)), w).

(** A request that asks for both prompt modes. *)
Definition both_modes_request : api_server.InferenceRequest :=
  api_server.InferenceRequest_init
    (api_server.mkFields None None None None None None None None
       (Some true) (Some "/s.wav") None None (Some true) (Some "/a.wav") None).

(** Scenario B as the builders compose it: the times are floats,
    rendered by [str]. *)
Definition scenario_B_built (float_repr : float → string) (cmd : list string) : Prop :=
  has_flag dual_flag cmd
  ∧ has_pair "--vocal_track_prompt_path" "/a.wav" cmd
  ∧ ¬ has_flag "--instrumental_track_prompt_path" cmd
  ∧ has_pair "--prompt_start_time" (float_repr 5%float) cmd
  ∧ has_pair "--prompt_end_time" (float_repr 20%float) cmd.

(** Scenario B, as the fields of a request. *)
Definition scenario_B_fields : api_server.fields :=
  api_server.mkFields None None None None None None None None
    None None (Some 5%float) (Some 20%float) (Some true) (Some "/a.wav") None.

(** ** gradio_ui.py: the page around [run_inference] *)

Module gradio_page.

(** What an audio widget hands over: a path or nothing, or a tuple whose
    first item is the path. *)
Inductive audio_value :=
| AudioPath (p : option string)
| AudioTuple (items : list (option string)).

(** The arguments of [generate_wrapper], lines 358-363, as the widgets
    give them. *)
Record inputs := mkInputs {
  genre : option string;
  lyrics : option string;
  segments : PyNum;
  batch_size : PyNum;
  max_tokens : PyNum;
  rep_penalty : PyNum;
  use_audio : bool;
  audio_path : audio_value;
  start_time : option PyNum;
  end_time : option PyNum;
  use_dual : bool;
  vocal_path : audio_value;
  inst_path : audio_value;
  s1_model : string;
  s2_model : string;
}.

(** [int(x)] of a number: a float is cut towards zero; infinities and
    NaN raise. *)
Definition py_int (x : PyNum) : res Z :=
  match x with
  | PyInt z => Ok z
  | PyFloat f =>
      match Prim2SF f with
      | S754_zero _ => Ok 0
      | S754_infinity _ =>
          Raise (Exception "OverflowError" "cannot convert float infinity to integer")
      | S754_nan =>
          Raise (Exception "ValueError" "cannot convert float NaN to integer")
      | S754_finite s m e =>
          let magnitude := if 0 <=? e then Z.pos m * 2 ^ e else Z.pos m / 2 ^ (- e) in
          Ok (if s then - magnitude else magnitude)
      end
  end.

(** [float(x)] of a number: an integer is rounded to the nearest double,
    and raises when it is too large for one. *)
Definition py_float (x : PyNum) : res float :=
  match x with
  | PyFloat f => Ok f
  | PyInt z =>
      match binary_normalize prec emax z 0 false with
      | S754_infinity _ =>
          Raise (Exception "OverflowError" "int too large to convert to float")
      | sf => Ok (SF2Prim sf)
      end
  end.

(** Truthiness of a number widget's value: [None] and zero are falsy. *)
Definition truthy_num (o : option PyNum) : bool :=
  match o with
  | None => false
  | Some (PyInt z) => negb (z =? 0)
  | Some (PyFloat f) => negb (f =? 0)%float
  end.

(** Lines 366-379, for one audio widget:
    [v[0] if use and v[0] else None] for a tuple,
    [v if use and v else None] otherwise. *)
Definition file_path_of (use : bool) (v : audio_value) : res (option string) :=
  match v with
  | AudioTuple items =>
      if use then
        match items with
        | first :: _ => Ok (if truthy first then first else None)
        | [] => Raise (Exception "IndexError" "tuple index out of range")
        end
      else Ok None
  | AudioPath p => Ok (if use && truthy p then p else None)
  end.

(** [float(t) if t else d]. *)
Definition time_or (t : option PyNum) (d : float) : res float :=
  if truthy_num t then
    match t with Some x => py_float x | None => Ok d end
  else Ok d.

Definition res_bind {A B} (r : res A) (k : A → res B) : res B :=
  match r with Ok a => k a | Raise e => Raise e end.

(** The arguments [generate_wrapper] calls [run_inference] with, lines
    366-396, evaluated in the order they are written. *)
Definition wrapper_args (u : inputs) : res gradio_ui.params :=
  res_bind (file_path_of (use_audio u) (audio_path u)) (λ audio_file_path,
  res_bind (file_path_of (use_dual u) (vocal_path u)) (λ vocal_file_path,
  res_bind (file_path_of (use_dual u) (inst_path u)) (λ inst_file_path,
  res_bind (py_int (segments u)) (λ n,
  res_bind (py_int (batch_size u)) (λ b,
  res_bind (py_int (max_tokens u)) (λ t,
  res_bind (py_float (rep_penalty u)) (λ p,
  res_bind (time_or (start_time u) 0) (λ t0,
  res_bind (time_or (end_time u) 30) (λ t1,
  Ok (gradio_ui.mkParams
        (default "" (genre u)) (default "" (lyrics u))
        n b t (PyFloat p)
        (use_audio u) audio_file_path
        (Some (PyFloat t0)) (Some (PyFloat t1))
        (use_dual u) vocal_file_path inst_file_path
        (s1_model u) (s2_model u))))))))))).

(** [generate_wrapper], lines 358-400: it has no handler of its own, so
    what preparing the arguments raises goes to the caller. *)
Definition generate_wrapper (environ : gmap string string)
    (float_repr : float → string) (decode : list byte → res string)
    (child : program) (u : inputs)
  : M (option string * string) :=
  match wrapper_args u with
  | Ok a => gradio_ui.run_inference environ float_repr decode child a
  | Raise e => raise e
  end.

(** [add_tags], lines 167-171. *)
Definition add_tags (selected_tags : option (list string))
    (current_text : option string) : option string :=
  match selected_tags with
  | Some (tag :: tags) =>
      let new_tags := join " " (tag :: tags) in
      if truthy current_text
      then Some (default "" current_text +:+ " " +:+ new_tags)
      else Some new_tags
  | _ => current_text
  end.

(** Which of the five prompt widgets are shown: the reference audio, the
    two tracks, the two times. *)
Record visible := mkVisible {
  audio_prompt : bool;
  vocal_track : bool;
  instrumental_track : bool;
  prompt_start_time : bool;
  prompt_end_time : bool;
}.

(** [toggle_audio_prompt], lines 277-284. *)
Definition toggle_audio_prompt (use_single use_dual : bool) : visible :=
  mkVisible use_single use_dual use_dual (use_single || use_dual)
    (use_single || use_dual).

(** The two check boxes and what is shown; all off at the start (lines
    234-274). *)
Record page := mkPage {
  use_audio_prompt : bool;
  use_dual_tracks_prompt : bool;
  shown : visible;
}.

Definition start_page : page :=
  mkPage false false (mkVisible false false false false false).

(** The user sets one of the two check boxes. *)
Inductive change :=
| SetSingle (x : bool)
| SetDual (x : bool).

(** The two [change] handlers, lines 286-296: each looks at its own check
    box only and leaves the other check box as it is. *)
Definition on_change (c : change) (g : page) : page :=
  match c with
  | SetSingle x => mkPage x (use_dual_tracks_prompt g) (toggle_audio_prompt x false)
  | SetDual x => mkPage (use_audio_prompt g) x (toggle_audio_prompt false x)
  end.

Definition after_changes (cs : list change) : page :=
  foldl (λ g c, on_change c g) start_page cs.

End gradio_page.

(** A name that is one component of a path. *)
Definition plain_name (s : string) : bool :=
  negb (existsb (Ascii.eqb "/"%char) (list_ascii_of_string s))
  && component s && negb (String.eqb s "..").

(** The seven flags of the prompt block. *)
Definition prompt_flag_names : list string :=
  [ dual_flag; single_flag; "--vocal_track_prompt_path";
    "--instrumental_track_prompt_path"; "--audio_prompt_path";
    "--prompt_start_time"; "--prompt_end_time" ].

(** A request without a mode whose paths and times are all set. *)
Definition stray_paths_request : api_server.InferenceRequest :=
  api_server.InferenceRequest_init
    (api_server.mkFields None None None None None None None None
       None (Some "/s.wav") (Some 5%float) (Some 20%float)
       None (Some "/a.wav") (Some "/b.wav")).

(** A request with genre text and lyrics text and no file reference. *)
Definition two_texts_request : api_server.InferenceRequest :=
  api_server.InferenceRequest_init
    (api_server.mkFields (Some "pop upbeat") (Some "[verse] hello") None None
       None None None None None None None None None None None).

(** The temporary directory is missing, or is no directory. *)
Definition tempdir_missing (w : World) : bool :=
  match locate w (Path_of (tempdir w)) with
  | Some dir => negb (is_dir (fs w) dir)
  | None => true
  end.

(** A server that has lost its temporary directory. *)
Definition world_no_tmp : World :=
  mkWorld [ (["app"], Dir 0); (["app"; "output"], Dir 0) ] [] "/tmp"
    sample_names 1 1000 [] [].

(** The commands of the child processes run, oldest first. *)
Definition runs (tr : list event) : list (list string) :=
  omap (λ e, match e with Ran cmd => Some cmd | Created _ _ => None end) tr.



(** A server holding one generated song. *)
Definition world_song : World :=
  mkWorld (sample_fs ++ [ (["app"; "output"; "song.mp3"], File 500 "ID3") ])
    [] "/tmp" sample_names 1 1000 [] [].

(** [str] of a float, on the floats the page examples use. *)
Definition page_repr (f : float) : string :=
  if (f =? 30)%float then "30.0" else sample_repr f.

(** The page as filled in for a reference track that starts at second 5,
    with the end time set to zero. *)
Definition sample_inputs : gradio_page.inputs :=
  gradio_page.mkInputs (Some "pop") None (PyInt 2) (PyInt 4) (PyInt 3000)
    (PyFloat 0x1.199999999999ap+0)
    true (gradio_page.AudioPath (Some "/ref.wav")) (Some (PyInt 5)) (Some (PyInt 0))
    false (gradio_page.AudioPath None) (gradio_page.AudioPath None)
    "m-a-p/YuE-s1-7B-anneal-en-icl" "m-a-p/YuE-s2-1B-general".

(** Scenario B, as filled in on the page. *)
Definition scenario_B_inputs : gradio_page.inputs :=
  gradio_page.mkInputs None None (PyInt 2) (PyInt 4) (PyInt 3000)
    (PyFloat 0x1.199999999999ap+0)
    false (gradio_page.AudioPath None) (Some (PyInt 5)) (Some (PyInt 20))
    true (gradio_page.AudioPath (Some "/a.wav")) (gradio_page.AudioPath None)
    "m-a-p/YuE-s1-7B-anneal-en-icl" "m-a-p/YuE-s2-1B-general".

(** A child that succeeds and leaves a song, but writes a byte that is no
    text to its standard output. *)
Definition noisy_child : program :=
  λ _ _ f, Exited 0 [xff] [] (f ++ [ (["app"; "output"; "song.mp3"], File 500 "ID3") ]).

(** The page invariant: what is shown agrees with one mode at most. *)
Definition page_ok (g : gradio_page.page) : Prop :=
  let v := gradio_page.shown g in
  ¬ (gradio_page.audio_prompt v = true ∧ gradio_page.vocal_track v = true)
  ∧ gradio_page.vocal_track v = gradio_page.instrumental_track v
  ∧ gradio_page.prompt_start_time v
    = gradio_page.audio_prompt v || gradio_page.vocal_track v
  ∧ gradio_page.prompt_end_time v
    = gradio_page.audio_prompt v || gradio_page.vocal_track v
  ∧ (gradio_page.audio_prompt v = true → gradio_page.use_audio_prompt g = true)
  ∧ (gradio_page.vocal_track v = true → gradio_page.use_dual_tracks_prompt g = true).

(** * Proofs *)

(** ** The file system and tempfile *)

Lemma fs_get_snoc (f : fsmap) k n c :
  fs_get (f ++ [(k, n)]) c =
  match fs_get f c with
  | Some x => Some x
  | None => if decide (k = c) then Some n else None
  end.
Proof.
  induction f as [|[k' n'] f IH]; simpl; [done|].
  by destruct (decide (k' = c)).
Qed.

Lemma node_at_root (f : fsmap) : ∃ n, node_at f [] = Some n.
Proof. by eexists. Qed.

Lemma node_at_snoc (f : fsmap) k n c :
  node_at f k = None →
  node_at (f ++ [(k, n)]) c =
  match node_at f c with
  | Some x => Some x
  | None => if decide (k = c) then Some n else None
  end.
Proof.
  intros Hk. destruct k as [|a k]; [done|].
  destruct c as [|b c]; simpl.
  - rewrite fs_get_snoc. by destruct (fs_get f []).
  - apply fs_get_snoc.
Qed.

Lemma node_at_snoc_old (f : fsmap) k n c x :
  node_at f k = None → node_at f c = Some x → node_at (f ++ [(k, n)]) c = Some x.
Proof. intros Hk Hc. by rewrite node_at_snoc, Hc. Qed.

Lemma node_at_snoc_new (f : fsmap) k n :
  node_at f k = None → node_at (f ++ [(k, n)]) k = Some n.
Proof. intros Hk. rewrite node_at_snoc, Hk by done. by rewrite decide_True. Qed.

Lemma is_dir_snoc_file (f : fsmap) k t d c :
  node_at f k = None → is_dir (f ++ [(k, File t d)]) c = is_dir f c.
Proof.
  intros Hk. unfold is_dir. rewrite node_at_snoc by done.
  destruct (node_at f c) eqn:E; [done|].
  by destruct (decide (k = c)).
Qed.

Lemma resolve_snoc_file (f : fsmap) k t d ps :
  node_at f k = None →
  ∀ cur, resolve (f ++ [(k, File t d)]) cur ps = resolve f cur ps.
Proof.
  intros Hk. induction ps as [|p ps IH]; intros cur; simpl; [done|].
  rewrite is_dir_snoc_file by done.
  destruct (is_dir f cur); [|done].
  destruct (String.eqb p ".."); apply IH.
Qed.

Lemma same_but_drawn_refl w : same_but_drawn w w.
Proof. by repeat split. Qed.

Lemma same_but_drawn_draw w w1 : same_but_drawn (draw w) w1 → same_but_drawn w w1.
Proof. done. Qed.

Lemma mkstemp_inner_same n dir suffix w r w1 :
  mkstemp_inner n dir suffix w = (r, w1) → same_but_drawn w w1.
Proof.
  revert w. induction n as [|n IH]; intros w; simpl.
  - intros [= <- <-]. apply same_but_drawn_refl.
  - destruct (node_at (fs w) _).
    + intros H. by apply same_but_drawn_draw, IH.
    + intros [= <- <-]. by apply same_but_drawn_draw, same_but_drawn_refl.
Qed.

Lemma mkstemp_inner_free n dir suffix w name w1 :
  mkstemp_inner n dir suffix w = (Some name, w1) →
  node_at (fs w) (dir ++ [name]) = None.
Proof.
  revert w. induction n as [|n IH]; intros w; simpl; [done|].
  destruct (node_at (fs w) _) eqn:E.
  - intros H. by apply IH in H.
  - by intros [= <- <-].
Qed.

Lemma TMP_MAX_succ : TMP_MAX = S (Nat.pred TMP_MAX).
Proof. by vm_compute. Qed.

Lemma mkstemp_inner_first n dir suffix w :
  node_at (fs w) (dir ++ ["tmp" +:+ rand w (rand_pos w) +:+ suffix]) = None →
  mkstemp_inner (S n) dir suffix w
  = (Some ("tmp" +:+ rand w (rand_pos w) +:+ suffix), draw w).
Proof. intros H. simpl. by rewrite H. Qed.

(** What a successful staging did. *)
Lemma NamedTemporaryFile_write_ok suffix text w path w' :
  NamedTemporaryFile_write suffix text w = (Ok path, w') →
  ∃ dir name,
    locate w (Path_of (tempdir w)) = Some dir
    ∧ node_at (fs w) (dir ++ [name]) = None
    ∧ path = os_path_join (tempdir w) name
    ∧ fs w' = fs w ++ [(dir ++ [name], File (now w) text)]
    ∧ trace w' = trace w ++ [Created path (dir ++ [name])]
    ∧ tasks w' = tasks w ∧ cwd w' = cwd w ∧ tempdir w' = tempdir w
    ∧ rand w' = rand w ∧ now w' = now w.
Proof.
  unfold NamedTemporaryFile_write.
  destruct (locate w _) as [dir|] eqn:Hl; [|done].
  destruct (is_dir (fs w) dir); [|done].
  destruct (mkstemp_inner _ _ _ _) as [[name|] w1] eqn:Hm; [|done].
  intros [= <- <-]. exists dir, name.
  pose proof (mkstemp_inner_free _ _ _ _ _ _ Hm) as Hfree.
  destruct (mkstemp_inner_same _ _ _ _ _ _ Hm) as (Hf & Hc & Ht & Hr & Hn & Htr & Hta).
  simpl. rewrite Hf, Hn, Htr. by repeat split.
Qed.

(** A failed staging left things as they were. *)
Lemma NamedTemporaryFile_write_raise suffix text w e w' :
  NamedTemporaryFile_write suffix text w = (Raise e, w') → same_but_drawn w w'.
Proof.
  unfold NamedTemporaryFile_write.
  destruct (locate w _) as [dir|] eqn:Hl; [|intros [= <- <-]; apply same_but_drawn_refl].
  destruct (is_dir (fs w) dir); [|intros [= <- <-]; apply same_but_drawn_refl].
  destruct (mkstemp_inner _ _ _ _) as [[name|] w1] eqn:Hm; [done|].
  intros [= <- <-]. by eapply mkstemp_inner_same.
Qed.

Lemma temps_alive_staged suffix text w path w' :
  NamedTemporaryFile_write suffix text w = (Ok path, w') →
  temps_alive w → temps_alive w'.
Proof.
  intros H Hw. apply NamedTemporaryFile_write_ok in H
    as (dir & name & _ & Hfree & _ & Hf & Htr & _).
  intros nm k. rewrite Htr, Hf, elem_of_app, list_elem_of_singleton.
  intros [Hin|[= -> ->]].
  - destruct (Hw _ _ Hin) as (t & d & Hk). exists t, d.
    by apply node_at_snoc_old.
  - eexists _, _. by apply node_at_snoc_new.
Qed.

Lemma temps_alive_same w w' : same_but_drawn w w' → temps_alive w → temps_alive w'.
Proof.
  intros (Hf & _ & _ & _ & _ & Htr & _) Hw nm k. rewrite Htr, Hf. apply Hw.
Qed.

(** ** The two command builders have one shape *)

Lemma api_build_cmd_compose environ float_repr (r : api_server.InferenceRequest) :
  api_server.build_cmd environ float_repr r
  = compose
      (base_cmd float_repr (CUDA_IDX environ) (STAGE1_MODEL environ)
         (STAGE2_MODEL environ) (api_server.run_n_segments r)
         (api_server.stage2_batch_size r) (OUTPUT_DIR environ)
         (api_server.max_new_tokens r) (api_server.repetition_penalty r))
      (api_server.genre_file r) (api_server.genre_txt r)
      (api_server.lyrics_file r) (api_server.lyrics_txt r)
      (audio_prompt_args float_repr
         (api_server.use_dual_tracks_prompt r)
         (api_server.vocal_track_prompt_path r)
         (api_server.instrumental_track_prompt_path r)
         (api_server.use_audio_prompt r)
         (api_server.audio_prompt_path r)
         (Some (api_server.prompt_start_time r))
         (Some (api_server.prompt_end_time r))).
Proof. reflexivity. Qed.

Lemma ui_build_cmd_compose environ float_repr (a : gradio_ui.params) :
  gradio_ui.build_cmd environ float_repr a
  = compose
      (base_cmd float_repr (CUDA_IDX environ) (gradio_ui.stage1_model a)
         (gradio_ui.stage2_model a) (gradio_ui.run_n_segments a)
         (gradio_ui.stage2_batch_size a) (OUTPUT_DIR environ)
         (gradio_ui.max_new_tokens a) (gradio_ui.repetition_penalty a))
      None (Some (gradio_ui.genre_txt a))
      None (Some (gradio_ui.lyrics_txt a))
      (audio_prompt_args float_repr
         (gradio_ui.use_dual_tracks_prompt a)
         (gradio_ui.vocal_track_prompt_path a)
         (gradio_ui.instrumental_track_prompt_path a)
         (gradio_ui.use_audio_prompt a)
         (gradio_ui.audio_prompt_path a)
         (gradio_ui.prompt_start_time a)
         (gradio_ui.prompt_end_time a)).
Proof. reflexivity. Qed.

Lemma text_args_ok flag file text w g w' :
  api_server.text_args flag file text w = (Ok g, w') →
  text_outcome flag file text w g w'.
Proof.
  unfold api_server.text_args, text_outcome.
  destruct (truthy file).
  - intros [= <- <-]. by left.
  - destruct (truthy text).
    + unfold staged_args, bind, ret.
      destruct (NamedTemporaryFile_write _ _ _) as [[path|e] w1] eqn:E; [|done].
      intros [= <- <-]. right; left. eauto.
    + intros [= <- <-]. by right; right.
Qed.

Lemma text_args_raise flag file text w e w' :
  api_server.text_args flag file text w = (Raise e, w') → same_but_drawn w w'.
Proof.
  unfold api_server.text_args.
  destruct (truthy file); [done|].
  destruct (truthy text); [|done].
  unfold staged_args, bind, ret.
  destruct (NamedTemporaryFile_write _ _ _) as [[path|e'] w1] eqn:E; [done|].
  intros [= <- <-]. by eapply NamedTemporaryFile_write_raise.
Qed.

Lemma compose_ok base gf gt lf lt prompt w cmd w' :
  compose base gf gt lf lt prompt w = (Ok cmd, w') →
  ∃ g l w1,
    text_outcome "--genre_txt" gf gt w g w1
    ∧ text_outcome "--lyrics_txt" lf lt w1 l w'
    ∧ cmd = ((base ++ g) ++ l) ++ prompt.
Proof.
  unfold compose, bind, ret.
  destruct (api_server.text_args "--genre_txt" _ _ _) as [[g|e] w1] eqn:Eg; [|done].
  destruct (api_server.text_args "--lyrics_txt" _ _ _) as [[l|e] w2] eqn:El; [|done].
  intros [= <- <-]. exists g, l, w1.
  split_and!; [by apply text_args_ok..|done].
Qed.

Lemma text_outcome_alive flag file text w g w' :
  text_outcome flag file text w g w' → temps_alive w → temps_alive w'.
Proof.
  intros [(_ & _ & ->)|[(_ & _ & path & _ & H)|(_ & _ & _ & ->)]]; [done| |done].
  by eapply temps_alive_staged.
Qed.

Lemma text_args_alive flag file text w :
  temps_alive w → temps_alive (api_server.text_args flag file text w).2.
Proof.
  intros Hw. destruct (api_server.text_args _ _ _ _) as [[g|e] w'] eqn:E; simpl.
  - eapply text_outcome_alive; [by apply text_args_ok|done].
  - eapply temps_alive_same; [by eapply text_args_raise|done].
Qed.

Lemma compose_alive base gf gt lf lt prompt w :
  temps_alive w → temps_alive (compose base gf gt lf lt prompt w).2.
Proof.
  intros Hw. unfold compose, bind, ret.
  pose proof (text_args_alive "--genre_txt" gf gt w Hw) as H1.
  destruct (api_server.text_args "--genre_txt" _ _ _) as [[g|e] w1]; [|done].
  pose proof (text_args_alive "--lyrics_txt" lf lt w1 H1) as H2.
  by destruct (api_server.text_args "--lyrics_txt" _ _ _) as [[l|e] w2].
Qed.

(** ** Staging succeeds where the temporary directory is ready *)

Lemma tmp_ready_1 w : tmp_ready w = true → tmp_ready1 w.
Proof.
  unfold tmp_ready, tmp_ready1.
  destruct (locate w _) as [dir|]; [|done].
  rewrite !andb_true_iff, !bool_decide_eq_true. intros [[[? ?] ?] ?]. eauto.
Qed.

Lemma staging_ready1 text w :
  tmp_ready1 w →
  NamedTemporaryFile_write ".txt" text w
  = (Ok (os_path_join (tempdir w) (candidate w (rand_pos w))),
     log (Created (os_path_join (tempdir w) (candidate w (rand_pos w)))
            (default [] (locate w (Path_of (tempdir w))) ++ [candidate w (rand_pos w)]))
       (set_fs (fs w ++ [(default [] (locate w (Path_of (tempdir w)))
                            ++ [candidate w (rand_pos w)], File (now w) text)])
          (draw w))).
Proof.
  intros (dir & Hl & Hd & Hfree). unfold NamedTemporaryFile_write.
  rewrite Hl, Hd, TMP_MAX_succ, mkstemp_inner_first by done. done.
Qed.

Lemma staging_ready2 text w path w1 :
  tmp_ready w = true →
  NamedTemporaryFile_write ".txt" text w = (Ok path, w1) →
  tmp_ready1 w1.
Proof.
  intros Hr. pose proof (tmp_ready_1 _ Hr) as H1.
  rewrite (staging_ready1 text w H1). intros [= _ <-].
  unfold tmp_ready in Hr.
  destruct (locate w (Path_of (tempdir w))) as [dir|] eqn:Hl; [|done].
  apply andb_true_iff in Hr as [Hr Hne]. apply andb_true_iff in Hr as [Hr Hf1].
  apply andb_true_iff in Hr as [Hd Hf0].
  apply bool_decide_eq_true in Hf0, Hf1. apply negb_true_iff, String.eqb_neq in Hne.
  exists dir. unfold locate in *. simpl. split_and!.
  - rewrite resolve_snoc_file by done. apply Hl.
  - by rewrite is_dir_snoc_file.
  - change (candidate _ (S _)) with (candidate w (S (rand_pos w))).
    rewrite node_at_snoc, Hf1 by done.
    rewrite decide_False; [done|]. intros Heq. by simplify_list_eq.
Qed.

Lemma text_args_total flag file text w :
  tmp_ready1 w → ∃ g w', api_server.text_args flag file text w = (Ok g, w').
Proof.
  intros Hr. unfold api_server.text_args.
  destruct (truthy file); [by eexists _, _|].
  destruct (truthy text); [|by eexists _, _].
  unfold staged_args, bind, ret. rewrite staging_ready1 by done. by eexists _, _.
Qed.

Lemma text_outcome_ready1 flag file text w g w' :
  tmp_ready w = true → text_outcome flag file text w g w' → tmp_ready1 w'.
Proof.
  intros Hr [(_ & _ & ->)|[(_ & _ & path & _ & H)|(_ & _ & _ & ->)]].
  - by apply tmp_ready_1.
  - by eapply staging_ready2.
  - by apply tmp_ready_1.
Qed.

Lemma compose_total base gf gt lf lt prompt w :
  tmp_ready w = true → ∃ cmd w', compose base gf gt lf lt prompt w = (Ok cmd, w').
Proof.
  intros Hr. unfold compose, bind, ret.
  destruct (text_args_total "--genre_txt" gf gt w (tmp_ready_1 _ Hr)) as (g & w1 & Hg).
  rewrite Hg.
  pose proof (text_outcome_ready1 _ _ _ _ _ _ Hr (text_args_ok _ _ _ _ _ _ Hg)) as H1.
  destruct (text_args_total "--lyrics_txt" lf lt w1 H1) as (l & w2 & Hl).
  rewrite Hl. by eexists _, _.
Qed.

Lemma text_args_unstaged flag file text w :
  truthy file = true ∨ truthy text = false →
  api_server.text_args flag file text w
  = (Ok (if truthy file then [flag; default "" file] else []), w).
Proof.
  unfold api_server.text_args. intros [H|H].
  - by rewrite H.
  - rewrite H. by destruct (truthy file).
Qed.

(** Without text to stage the command is built in any world, which it
    leaves as it is. *)
Lemma compose_unstaged base gf gt lf lt prompt w :
  (truthy gf = true ∨ truthy gt = false) →
  (truthy lf = true ∨ truthy lt = false) →
  compose base gf gt lf lt prompt w
  = (Ok (((base ++ (if truthy gf then ["--genre_txt"; default "" gf] else []))
            ++ (if truthy lf then ["--lyrics_txt"; default "" lf] else []))
           ++ prompt), w).
Proof.
  intros Hg Hl. unfold compose, bind, ret.
  by rewrite (text_args_unstaged _ _ _ _ Hg), (text_args_unstaged _ _ _ _ Hl).
Qed.

(** ** Reading what the builders emit *)

Lemma read_args_app_aux n : ∀ l1 l2,
  (length l1 ≤ n)%nat → closed l1 = true →
  read_args (l1 ++ l2) = read_args l1 ++ read_args l2.
Proof.
  induction n as [|n IH]; intros l1 l2 Hn Hc.
  - destruct l1; [done|simpl in Hn; lia].
  - destruct l1 as [|a l1]; [done|]. simpl in *.
    destruct (takes_value a).
    + destruct l1 as [|v l1]; [done|]. simpl in *.
      rewrite IH; [done|lia|done].
    + rewrite IH; [done|lia|done].
Qed.

Lemma read_args_app l1 l2 :
  closed l1 = true → read_args (l1 ++ l2) = read_args l1 ++ read_args l2.
Proof. by apply (read_args_app_aux (length l1)). Qed.

Lemma closed_base float_repr c s1 s2 n b o t p :
  closed (base_cmd float_repr c s1 s2 n b o t p) = true.
Proof. reflexivity. Qed.

Lemma read_base float_repr c s1 s2 n b o t p :
  read_args (base_cmd float_repr c s1 s2 n b o t p)
  = [ ("python", None); (INFERENCE_SCRIPT, None);
      ("--cuda_idx", Some c); ("--stage1_model", Some s1);
      ("--stage2_model", Some s2); ("--run_n_segments", Some (str_int n));
      ("--stage2_batch_size", Some (str_int b)); ("--output_dir", Some o);
      ("--max_new_tokens", Some (str_int t));
      ("--repetition_penalty", Some (str_num float_repr p)) ].
Proof. reflexivity. Qed.

Lemma text_outcome_shape flag file text w g w' :
  text_outcome flag file text w g w' → g = [] ∨ ∃ v, g = [flag; v].
Proof.
  intros [(_ & -> & _)|[(_ & _ & path & -> & _)|(_ & _ & -> & _)]]; eauto.
Qed.

Lemma read_text flag g :
  takes_value flag = true → (g = [] ∨ ∃ v, g = [flag; v]) →
  closed g = true ∧ read_args g = text_items g.
Proof.
  intros Hf [->|[v ->]]; [done|]. simpl. by rewrite Hf.
Qed.

Lemma compose_read base gf gt lf lt prompt w cmd w' :
  closed base = true →
  compose base gf gt lf lt prompt w = (Ok cmd, w') →
  ∃ g l w1,
    text_outcome "--genre_txt" gf gt w g w1
    ∧ text_outcome "--lyrics_txt" lf lt w1 l w'
    ∧ read_args cmd
      = read_args base ++ text_items g ++ text_items l ++ read_args prompt.
Proof.
  intros Hb (g & l & w1 & Hg & Hl & ->)%compose_ok.
  exists g, l, w1. split_and!; [done..|].
  destruct (read_text "--genre_txt" g eq_refl (text_outcome_shape _ _ _ _ _ _ Hg))
    as [Hcg Hrg].
  destruct (read_text "--lyrics_txt" l eq_refl (text_outcome_shape _ _ _ _ _ _ Hl))
    as [Hcl Hrl].
  rewrite <- !app_assoc.
  by rewrite !read_args_app, Hrg, Hrl.
Qed.

Lemma read_prompt float_repr dual vocal inst single audio t0 t1 :
  read_args (audio_prompt_args float_repr dual vocal inst single audio t0 t1)
  = prompt_items float_repr dual vocal inst single audio t0 t1.
Proof.
  unfold audio_prompt_args, prompt_items, path_args, path_item, time_args, time_item.
  destruct dual, single, (truthy vocal), (truthy inst), (truthy audio), t0, t1;
    reflexivity.
Qed.

Lemma mem_elem_of x l : x ∈ l ↔ mem x l = true.
Proof.
  unfold mem. rewrite existsb_exists. split.
  - intros H. exists x. split; [by apply list_elem_of_In|apply String.eqb_refl].
  - intros (y & Hy & ->%String.eqb_eq). by apply list_elem_of_In.
Qed.

Lemma text_items_flags flag file text w g w' :
  text_outcome flag file text w g w' →
  (text_items g).*1 = if truthy file || truthy text then [flag] else [].
Proof.
  intros [(-> & -> & _)|[(-> & -> & path & -> & _)|(-> & -> & -> & _)]]; done.
Qed.

Lemma prompt_items_flags float_repr dual vocal inst single audio t0 t1 :
  (prompt_items float_repr dual vocal inst single audio t0 t1).*1
  = (if dual then
        [dual_flag]
          ++ (if truthy vocal then ["--vocal_track_prompt_path"] else [])
          ++ (if truthy inst then ["--instrumental_track_prompt_path"] else [])
          ++ (if has_time t0 then ["--prompt_start_time"] else [])
          ++ (if has_time t1 then ["--prompt_end_time"] else [])
      else if single then
        [single_flag]
          ++ (if truthy audio then ["--audio_prompt_path"] else [])
          ++ (if has_time t0 then ["--prompt_start_time"] else [])
          ++ (if has_time t1 then ["--prompt_end_time"] else [])
      else []).
Proof.
  unfold prompt_items, path_item, time_item.
  destruct dual, single, (truthy vocal), (truthy inst), (truthy audio), t0, t1;
    reflexivity.
Qed.

(** The items of a built command, and its flags. *)
Lemma compose_items float_repr c s1 s2 n b o t p gf gt lf lt
    dual vocal inst single audio t0 t1 w cmd w' :
  compose (base_cmd float_repr c s1 s2 n b o t p) gf gt lf lt
    (audio_prompt_args float_repr dual vocal inst single audio t0 t1) w
  = (Ok cmd, w') →
  ∃ g l w1,
    text_outcome "--genre_txt" gf gt w g w1
    ∧ text_outcome "--lyrics_txt" lf lt w1 l w'
    ∧ read_args cmd
      = read_args (base_cmd float_repr c s1 s2 n b o t p)
          ++ text_items g ++ text_items l
          ++ prompt_items float_repr dual vocal inst single audio t0 t1
    ∧ (read_args cmd).*1
      = cmd_flags (truthy gf || truthy gt) (truthy lf || truthy lt)
          dual (truthy vocal) (truthy inst) single (truthy audio)
          (has_time t0) (has_time t1).
Proof.
  intros (g & l & w1 & Hg & Hl & Hr)%compose_read; [|apply closed_base].
  rewrite read_prompt in Hr.
  exists g, l, w1. split_and!; [done..|].
  rewrite Hr, !fmap_app, (text_items_flags _ _ _ _ _ _ Hg),
    (text_items_flags _ _ _ _ _ _ Hl), prompt_items_flags.
  reflexivity.
Qed.

(** Which flags a command has, as functions of the nine conditions. *)
Lemma flag_table genre lyrics dual vocal inst single audio t0 t1 :
  let fl := cmd_flags genre lyrics dual vocal inst single audio t0 t1 in
  mem dual_flag fl = dual
  ∧ mem single_flag fl = negb dual && single
  ∧ mem "--vocal_track_prompt_path" fl = dual && vocal
  ∧ mem "--instrumental_track_prompt_path" fl = dual && inst
  ∧ mem "--audio_prompt_path" fl = negb dual && single && audio
  ∧ mem "--genre_txt" fl = genre
  ∧ mem "--lyrics_txt" fl = lyrics
  ∧ mem "--prompt_start_time" fl = (dual || single) && t0
  ∧ mem "--prompt_end_time" fl = (dual || single) && t1.
Proof.
  destruct genre, lyrics, dual, vocal, inst, single, audio, t0, t1;
    vm_compute; done.
Qed.

Lemma has_flag_mem flag cmd : has_flag flag cmd ↔ mem flag (read_args cmd).*1 = true.
Proof. apply mem_elem_of. Qed.

Lemma no_flag_mem flag cmd : ¬ has_flag flag cmd ↔ mem flag (read_args cmd).*1 = false.
Proof. rewrite has_flag_mem. by destruct (mem _ _). Qed.

(** ** Statements about the prompt block *)

Lemma compose_exclusive float_repr c s1 s2 n b o t p gf gt lf lt
    dual vocal inst single audio t0 t1 w cmd w' :
  compose (base_cmd float_repr c s1 s2 n b o t p) gf gt lf lt
    (audio_prompt_args float_repr dual vocal inst single audio t0 t1) w
  = (Ok cmd, w') →
  exclusive_modes dual single cmd.
Proof.
  intros (g & l & w1 & _ & _ & _ & Hf)%compose_items.
  unfold exclusive_modes. rewrite !has_flag_mem, Hf.
  destruct (flag_table (truthy gf || truthy gt) (truthy lf || truthy lt)
              dual (truthy vocal) (truthy inst) single (truthy audio)
              (has_time t0) (has_time t1)) as (-> & -> & _).
  split.
  - intros [-> H]. discriminate H.
  - intros -> ->. split; [done|]. intros H. discriminate H.
Qed.

Lemma path_item_in flag v : truthy v = true →
  (flag, Some (default "" v)) ∈ path_item flag v.
Proof. intros H. unfold path_item. rewrite H. apply list_elem_of_here. Qed.

Lemma time_item_in float_repr flag x :
  (flag, Some (str_num float_repr x)) ∈ time_item float_repr flag (Some x).
Proof. apply list_elem_of_here. Qed.

Lemma path_flag_intro flag v cmd :
  (truthy v = true → has_pair flag (default "" v) cmd) →
  mem flag (read_args cmd).*1 = truthy v →
  path_flag flag v cmd.
Proof.
  intros Hp Hm. unfold path_flag. destruct (truthy v); [by apply Hp|].
  by apply no_flag_mem.
Qed.

Lemma time_flag_intro float_repr flag t cmd :
  (∀ x, t = Some x → has_pair flag (str_num float_repr x) cmd) →
  mem flag (read_args cmd).*1 = has_time t →
  time_flag float_repr flag t cmd.
Proof.
  intros Hp Hm. unfold time_flag. destruct t as [x|]; [by apply Hp|].
  by apply no_flag_mem.
Qed.

Lemma prompt_items_dual float_repr vocal inst single audio t0 t1 :
  prompt_items float_repr true vocal inst single audio t0 t1
  = [(dual_flag, None)]
      ++ path_item "--vocal_track_prompt_path" vocal
      ++ path_item "--instrumental_track_prompt_path" inst
      ++ time_item float_repr "--prompt_start_time" t0
      ++ time_item float_repr "--prompt_end_time" t1.
Proof. reflexivity. Qed.

Lemma prompt_items_single float_repr vocal inst audio t0 t1 :
  prompt_items float_repr false vocal inst true audio t0 t1
  = [(single_flag, None)]
      ++ path_item "--audio_prompt_path" audio
      ++ time_item float_repr "--prompt_start_time" t0
      ++ time_item float_repr "--prompt_end_time" t1.
Proof. reflexivity. Qed.

Lemma compose_prompt float_repr c s1 s2 n b o t p gf gt lf lt
    dual vocal inst single audio t0 t1 w cmd w' :
  compose (base_cmd float_repr c s1 s2 n b o t p) gf gt lf lt
    (audio_prompt_args float_repr dual vocal inst single audio t0 t1) w
  = (Ok cmd, w') →
  prompt_follows float_repr dual vocal inst single audio t0 t1 cmd.
Proof.
  intros (g & l & w1 & _ & _ & Hr & Hf)%compose_items.
  destruct (flag_table (truthy gf || truthy gt) (truthy lf || truthy lt)
              dual (truthy vocal) (truthy inst) single (truthy audio)
              (has_time t0) (has_time t1))
    as (Hd & Hs & Hv & Hi & Ha & _ & _ & H0 & H1).
  rewrite <- Hf in Hd, Hs, Hv, Hi, Ha, H0, H1. clear Hf.
  split.
  - intros ->. rewrite prompt_items_dual in Hr.
    cbn [andb orb negb] in *. split_and!.
    + apply has_flag_mem; assumption.
    + apply path_flag_intro; [|assumption]. intros Hy. unfold has_pair.
      rewrite Hr, !elem_of_app. do 3 right. right; left. apply path_item_in; assumption.
    + apply path_flag_intro; [|assumption]. intros Hy. unfold has_pair.
      rewrite Hr, !elem_of_app. do 3 right. do 2 right; left. apply path_item_in; assumption.
    + apply no_flag_mem; assumption.
    + apply time_flag_intro; [|assumption]. intros x ->. unfold has_pair.
      rewrite Hr, !elem_of_app. do 3 right. do 3 right; left. apply time_item_in.
    + apply time_flag_intro; [|assumption]. intros x ->. unfold has_pair.
      rewrite Hr, !elem_of_app. do 3 right. do 4 right. apply time_item_in.
  - intros -> ->. rewrite prompt_items_single in Hr.
    cbn [andb orb negb] in *. split_and!.
    + apply has_flag_mem; assumption.
    + apply path_flag_intro; [|assumption]. intros Hy. unfold has_pair.
      rewrite Hr, !elem_of_app. do 3 right. right; left. apply path_item_in; assumption.
    + apply no_flag_mem; assumption.
    + apply no_flag_mem; assumption.
    + apply time_flag_intro; [|assumption]. intros x ->. unfold has_pair.
      rewrite Hr, !elem_of_app. do 3 right. do 2 right; left. apply time_item_in.
    + apply time_flag_intro; [|assumption]. intros x ->. unfold has_pair.
      rewrite Hr, !elem_of_app. do 3 right. do 3 right. apply time_item_in.
Qed.

(** ** C1 *)

(** C1. For every request, a command built by [generate_music] or by
    [run_inference] has at most one of the flags [--use_dual_tracks_prompt]
    and [--use_audio_prompt]; when both modes are asked for it has the
    dual-track flag and not the single-track one. A command is built
    whenever the temporary directory is ready. *)
Theorem prompt_modes_exclusive (environ : gmap string string)
    (float_repr : float → string) :
  (∀ (r : api_server.InferenceRequest) (w : World),
     (tmp_ready w = true →
      ∃ cmd w', api_server.build_cmd environ float_repr r w = (Ok cmd, w'))
     ∧ ∀ cmd w',
         api_server.build_cmd environ float_repr r w = (Ok cmd, w') →
         exclusive_modes (api_server.use_dual_tracks_prompt r)
           (api_server.use_audio_prompt r) cmd)
  ∧ (∀ (a : gradio_ui.params) (w : World),
       (tmp_ready w = true →
        ∃ cmd w', gradio_ui.build_cmd environ float_repr a w = (Ok cmd, w'))
       ∧ ∀ cmd w',
           gradio_ui.build_cmd environ float_repr a w = (Ok cmd, w') →
           exclusive_modes (gradio_ui.use_dual_tracks_prompt a)
             (gradio_ui.use_audio_prompt a) cmd).
Proof.
  split.
  - intros r w. rewrite api_build_cmd_compose. split.
    + apply compose_total.
    + intros cmd w'. apply compose_exclusive.
  - intros a w. rewrite ui_build_cmd_compose. split.
    + apply compose_total.
    + intros cmd w'. apply compose_exclusive.
Qed.

(** ** C3 *)

Lemma prompt_follows_scenario_B_built float_repr single audio cmd :
  prompt_follows float_repr true (Some "/a.wav") None single audio
    (Some (PyFloat 5)) (Some (PyFloat 20)) cmd →
  scenario_B_built float_repr cmd.
Proof. intros [H _]. destruct (H eq_refl) as (? & ? & ? & _ & ? & ?). by repeat split. Qed.

(** Scenario B filled in on the page, as [generate_wrapper] passes it on. *)
Lemma wrapper_args_scenario_B (u : gradio_page.inputs) (a : gradio_ui.params) :
  gradio_page.wrapper_args u = Ok a →
  gradio_page.use_dual u = true →
  gradio_page.vocal_path u = gradio_page.AudioPath (Some "/a.wav") →
  gradio_page.inst_path u = gradio_page.AudioPath None →
  gradio_page.start_time u = Some (PyInt 5) →
  gradio_page.end_time u = Some (PyInt 20) →
  gradio_ui.use_dual_tracks_prompt a = true
  ∧ gradio_ui.vocal_track_prompt_path a = Some "/a.wav"
  ∧ gradio_ui.instrumental_track_prompt_path a = None
  ∧ gradio_ui.prompt_start_time a = Some (PyFloat 5)
  ∧ gradio_ui.prompt_end_time a = Some (PyFloat 20).
Proof.
  intros Ha Hd Hv Hi H0 H1. revert Ha.
  unfold gradio_page.wrapper_args, gradio_page.res_bind.
  rewrite Hd, Hv, Hi, H0, H1.
  destruct (gradio_page.file_path_of _ (gradio_page.audio_path u)) as [audio|];
    [|intros [=]].
  cbn [gradio_page.file_path_of andb truthy String.eqb Ascii.eqb Bool.eqb negb].
  destruct (gradio_page.py_int (gradio_page.segments u)) as [n|]; [|intros [=]].
  destruct (gradio_page.py_int (gradio_page.batch_size u)) as [b|]; [|intros [=]].
  destruct (gradio_page.py_int (gradio_page.max_tokens u)) as [t|]; [|intros [=]].
  destruct (gradio_page.py_float (gradio_page.rep_penalty u)) as [p|]; [|intros [=]].
  assert (gradio_page.time_or (Some (PyInt 5)) 0 = Ok 5%float) as ->
    by (vm_compute; reflexivity).
  assert (gradio_page.time_or (Some (PyInt 20)) 30 = Ok 20%float) as ->
    by (vm_compute; reflexivity).
  intros [= <-]. by repeat split.
Qed.

(** C3, as the code has it. In a command built by either handler the
    mode flag is emitted whatever the paths are, each audio-path flag is
    there with its path when the path is set and absent when it is not,
    and the two time flags carry [str] of the times. The times of a
    request, and those the page passes on, are floats: in scenario B
    (dual-track, vocal track ["/a.wav"], no instrumental track, times 5
    and 20) the command has the dual-track flag,
    [--vocal_track_prompt_path /a.wav], no instrumental-track flag, and
    the two time flags with [str(5.0)] and [str(20.0)]. *)
Theorem audio_paths_follow_mode (environ : gmap string string)
    (float_repr : float → string) :
  (∀ (r : api_server.InferenceRequest) (w : World),
     (tmp_ready w = true →
      ∃ cmd w', api_server.build_cmd environ float_repr r w = (Ok cmd, w'))
     ∧ ∀ cmd w',
         api_server.build_cmd environ float_repr r w = (Ok cmd, w') →
         prompt_follows float_repr
           (api_server.use_dual_tracks_prompt r)
           (api_server.vocal_track_prompt_path r)
           (api_server.instrumental_track_prompt_path r)
           (api_server.use_audio_prompt r)
           (api_server.audio_prompt_path r)
           (Some (api_server.prompt_start_time r))
           (Some (api_server.prompt_end_time r)) cmd
         ∧ (∀ raw,
              r = api_server.InferenceRequest_init raw →
              api_server.f_use_dual_tracks_prompt raw = Some true →
              api_server.f_vocal_track_prompt_path raw = Some "/a.wav" →
              api_server.f_instrumental_track_prompt_path raw = None →
              api_server.f_prompt_start_time raw = Some 5%float →
              api_server.f_prompt_end_time raw = Some 20%float →
              scenario_B_built float_repr cmd))
  ∧ (∀ (a : gradio_ui.params) (w : World),
       (tmp_ready w = true →
        ∃ cmd w', gradio_ui.build_cmd environ float_repr a w = (Ok cmd, w'))
       ∧ ∀ cmd w',
           gradio_ui.build_cmd environ float_repr a w = (Ok cmd, w') →
           prompt_follows float_repr
             (gradio_ui.use_dual_tracks_prompt a)
             (gradio_ui.vocal_track_prompt_path a)
             (gradio_ui.instrumental_track_prompt_path a)
             (gradio_ui.use_audio_prompt a)
             (gradio_ui.audio_prompt_path a)
             (gradio_ui.prompt_start_time a)
             (gradio_ui.prompt_end_time a) cmd
           ∧ (∀ u,
                gradio_page.wrapper_args u = Ok a →
                gradio_page.use_dual u = true →
                gradio_page.vocal_path u = gradio_page.AudioPath (Some "/a.wav") →
                gradio_page.inst_path u = gradio_page.AudioPath None →
                gradio_page.start_time u = Some (PyInt 5) →
                gradio_page.end_time u = Some (PyInt 20) →
                scenario_B_built float_repr cmd)).
Proof.
  split.
  - intros r w. rewrite api_build_cmd_compose. split; [apply compose_total|].
    intros cmd w' H%compose_prompt. split; [exact H|].
    intros raw -> Hd Hv Hi H0 H1. revert H.
    cbn [api_server.InferenceRequest_init api_server.use_dual_tracks_prompt
         api_server.vocal_track_prompt_path api_server.instrumental_track_prompt_path
         api_server.use_audio_prompt api_server.audio_prompt_path
         api_server.prompt_start_time api_server.prompt_end_time].
    rewrite Hd, Hv, Hi, H0, H1. cbn [default api_server.supplied option.from_option].
    apply prompt_follows_scenario_B_built.
  - intros a w. rewrite ui_build_cmd_compose. split; [apply compose_total|].
    intros cmd w' H%compose_prompt. split; [exact H|].
    intros u Ha Hd Hv Hi H0 H1.
    destruct (wrapper_args_scenario_B u a Ha Hd Hv Hi H0 H1)
      as (E1 & E2 & E3 & E4 & E5).
    rewrite E1, E2, E3, E4, E5 in H.
    by eapply prompt_follows_scenario_B_built.
Qed.

Lemma audio_paths_follow_mode_witness :
  scenario_B_built sample_repr
    [ "python"; "/app/inference/infer.py"; "--cuda_idx"; "0";
      "--stage1_model"; "m-a-p/YuE-s1-7B-anneal-en-icl";
      "--stage2_model"; "m-a-p/YuE-s2-1B-general";
      "--run_n_segments"; "2"; "--stage2_batch_size"; "4";
      "--output_dir"; "/app/output"; "--max_new_tokens"; "3000";
      "--repetition_penalty"; "1.1"; "--use_dual_tracks_prompt";
      "--vocal_track_prompt_path"; "/a.wav";
      "--prompt_start_time"; "5.0"; "--prompt_end_time"; "20.0" ].
Proof.
  exact (proj2 (proj2 (proj1 (audio_paths_follow_mode ∅ sample_repr)
                         (api_server.InferenceRequest_init scenario_B_fields) world0)
                  _ world0 eq_refl)
           scenario_B_fields eq_refl eq_refl eq_refl eq_refl eq_refl eq_refl).
Defined.

(** Against C3 as stated: scenario B sent as a request, and filled in on
    the page; both commands carry the times as [5.0] and [20.0], and
    neither has the pair [--prompt_start_time 5]. *)
Lemma scenario_B_times_are_floats :
  (api_server.build_cmd ∅ sample_repr
     (api_server.InferenceRequest_init scenario_B_fields) world0).1
  = Ok [ "python"; "/app/inference/infer.py"; "--cuda_idx"; "0";
         "--stage1_model"; "m-a-p/YuE-s1-7B-anneal-en-icl";
         "--stage2_model"; "m-a-p/YuE-s2-1B-general";
         "--run_n_segments"; "2"; "--stage2_batch_size"; "4";
         "--output_dir"; "/app/output"; "--max_new_tokens"; "3000";
         "--repetition_penalty"; "1.1"; "--use_dual_tracks_prompt";
         "--vocal_track_prompt_path"; "/a.wav";
         "--prompt_start_time"; "5.0"; "--prompt_end_time"; "20.0" ]
  ∧ (∃ a, gradio_page.wrapper_args scenario_B_inputs = Ok a
          ∧ (gradio_ui.build_cmd ∅ sample_repr a world0).1
            = Ok [ "python"; "/app/inference/infer.py"; "--cuda_idx"; "0";
                   "--stage1_model"; "m-a-p/YuE-s1-7B-anneal-en-icl";
                   "--stage2_model"; "m-a-p/YuE-s2-1B-general";
                   "--run_n_segments"; "2"; "--stage2_batch_size"; "4";
                   "--output_dir"; "/app/output"; "--max_new_tokens"; "3000";
                   "--repetition_penalty"; "1.1"; "--use_dual_tracks_prompt";
                   "--vocal_track_prompt_path"; "/a.wav";
                   "--prompt_start_time"; "5.0"; "--prompt_end_time"; "20.0" ])
  ∧ ¬ scenario_B
        [ "python"; "/app/inference/infer.py"; "--cuda_idx"; "0";
          "--stage1_model"; "m-a-p/YuE-s1-7B-anneal-en-icl";
          "--stage2_model"; "m-a-p/YuE-s2-1B-general";
          "--run_n_segments"; "2"; "--stage2_batch_size"; "4";
          "--output_dir"; "/app/output"; "--max_new_tokens"; "3000";
          "--repetition_penalty"; "1.1"; "--use_dual_tracks_prompt";
          "--vocal_track_prompt_path"; "/a.wav";
          "--prompt_start_time"; "5.0"; "--prompt_end_time"; "20.0" ].
Proof.
  split_and!.
  - vm_compute. reflexivity.
  - exists (gradio_ui.mkParams "" "" 2 4 3000 (PyFloat 0x1.199999999999ap+0)
              false None (Some (PyFloat 5)) (Some (PyFloat 20))
              true (Some "/a.wav") None
              "m-a-p/YuE-s1-7B-anneal-en-icl" "m-a-p/YuE-s2-1B-general").
    split; vm_compute; reflexivity.
  - intros (_ & _ & _ & H & _). unfold has_pair in H. vm_compute in H.
    repeat (apply elem_of_cons in H as [H|H]; [discriminate H|]).
    by apply elem_of_nil in H.
Qed.

(** ** C2 *)

Lemma text_outcome_keeps flag file text w g w' k n :
  text_outcome flag file text w g w' →
  node_at (fs w) k = Some n → node_at (fs w') k = Some n.
Proof.
  intros [(_ & _ & ->)|[(_ & _ & path & _ & H)|(_ & _ & _ & ->)]] Hk;
    [assumption| |assumption].
  apply NamedTemporaryFile_write_ok in H as (dir & name & _ & Hfree & _ & Hf & _).
  rewrite Hf. by apply node_at_snoc_old.
Qed.

Lemma text_outcome_staged flag file text w g w' :
  text_outcome flag file text w g w' →
  ∃ staged, trace w' = trace w ++ staged ∧
    if truthy file then g = [flag; default "" file] ∧ staged = []
    else if truthy text then
      ∃ path k, g = [flag; path] ∧ staged = [Created path k]
                ∧ node_at (fs w') k = Some (File (now w) (default "" text))
    else g = [] ∧ staged = [].
Proof.
  intros [(-> & -> & ->)|[(-> & -> & path & -> & H)|(-> & -> & -> & ->)]].
  - exists []. by rewrite app_nil_r.
  - apply NamedTemporaryFile_write_ok in H
      as (dir & name & _ & Hfree & _ & Hf & Htr & _).
    exists [Created path (dir ++ [name])]. split; [exact Htr|].
    exists path, (dir ++ [name]). split_and!; [reflexivity..|].
    rewrite Hf. by apply node_at_snoc_new.
  - exists []. by rewrite app_nil_r.
Qed.

Lemma text_item_in flag v : (flag, Some v) ∈ text_items [flag; v].
Proof. apply list_elem_of_here. Qed.

(** C2. In a command built by [generate_music], for genre and for lyrics
    alike: with a file path supplied (with or without free text) the path
    is the value of the flag and no temporary file is created for the
    field; with only non-empty free text one temporary file is created,
    holds the text, and its path is the value of the flag; with neither the
    flag is left out. A command is built whenever the temporary directory
    is ready. *)
Theorem text_fields_rule (environ : gmap string string)
    (float_repr : float → string) (r : api_server.InferenceRequest) (w : World) :
  (tmp_ready w = true →
   ∃ cmd w', api_server.build_cmd environ float_repr r w = (Ok cmd, w'))
  ∧ ∀ cmd w',
      api_server.build_cmd environ float_repr r w = (Ok cmd, w') →
      ∃ genre_staged lyrics_staged,
        trace w' = trace w ++ genre_staged ++ lyrics_staged
        ∧ field_rule "--genre_txt" (api_server.genre_file r)
            (api_server.genre_txt r) cmd w' genre_staged
        ∧ field_rule "--lyrics_txt" (api_server.lyrics_file r)
            (api_server.lyrics_txt r) cmd w' lyrics_staged.
Proof.
  rewrite api_build_cmd_compose. split; [apply compose_total|].
  intros cmd w' (g & l & w1 & Hg & Hl & Hr & Hf)%compose_items.
  destruct (flag_table
              (truthy (api_server.genre_file r) || truthy (api_server.genre_txt r))
              (truthy (api_server.lyrics_file r) || truthy (api_server.lyrics_txt r))
              (api_server.use_dual_tracks_prompt r)
              (truthy (api_server.vocal_track_prompt_path r))
              (truthy (api_server.instrumental_track_prompt_path r))
              (api_server.use_audio_prompt r)
              (truthy (api_server.audio_prompt_path r))
              (has_time (Some (api_server.prompt_start_time r)))
              (has_time (Some (api_server.prompt_end_time r))))
    as (_ & _ & _ & _ & _ & Hmg & Hml & _).
  rewrite <- Hf in Hmg, Hml. clear Hf.
  pose proof (λ k n, text_outcome_keeps _ _ _ _ _ _ k n Hl) as Hkeep.
  destruct (text_outcome_staged _ _ _ _ _ _ Hg) as (sg & Htg & Hsg).
  destruct (text_outcome_staged _ _ _ _ _ _ Hl) as (sl & Htl & Hsl).
  exists sg, sl. split; [by rewrite Htl, Htg, app_assoc|].
  unfold field_rule, has_pair. rewrite Hr. clear Hr Hg Hl. split.
  - destruct (truthy (api_server.genre_file r)).
    + destruct Hsg as [-> ->]. split; [|reflexivity].
      rewrite !elem_of_app. right; left. apply text_item_in.
    + destruct (truthy (api_server.genre_txt r)).
      * destruct Hsg as (path & k & -> & -> & Hk).
        exists path, k, (now w). split_and!; [|reflexivity|by apply Hkeep].
        rewrite !elem_of_app. right; left. apply text_item_in.
      * destruct Hsg as [_ ->]. split; [|reflexivity].
        apply no_flag_mem. exact Hmg.
  - destruct (truthy (api_server.lyrics_file r)).
    + destruct Hsl as [-> ->]. split; [|reflexivity].
      rewrite !elem_of_app. right; right; left. apply text_item_in.
    + destruct (truthy (api_server.lyrics_txt r)).
      * destruct Hsl as (path & k & -> & -> & Hk).
        exists path, k, (now w1). split_and!; [|reflexivity|exact Hk].
        rewrite !elem_of_app. right; right; left. apply text_item_in.
      * destruct Hsl as [_ ->]. split; [|reflexivity].
        apply no_flag_mem. exact Hml.
Qed.

(** ** Texts *)

Lemma append_assoc (a b c : string) : (a +:+ b) +:+ c = a +:+ b +:+ c.
Proof.
  induction a as [|x a IH]; [reflexivity|].
  change (String x ((a +:+ b) +:+ c) = String x (a +:+ b +:+ c)). by rewrite IH.
Qed.

Lemma append_nil_r (a : string) : a +:+ "" = a.
Proof.
  induction a as [|x a IH]; [reflexivity|].
  change (String x (a +:+ "") = String x a). by rewrite IH.
Qed.

Lemma contains_middle (pre b post : string) : contains (pre +:+ b +:+ post) b.
Proof. by exists pre, post. Qed.

Lemma contains_end (pre b : string) : contains (pre +:+ b) b.
Proof. exists pre, "". by rewrite append_nil_r. Qed.

Lemma contains_length (s b : string) :
  contains s b → (String.length b ≤ String.length s)%nat.
Proof.
  intros (pre & post & ->).
  assert (∀ x y, String.length (x +:+ y) = (String.length x + String.length y)%nat)
    as Hlen.
  { intros x y. induction x as [|c x IH]; [reflexivity|].
    change (S (String.length (x +:+ y)) = S (String.length x + String.length y)).
    by rewrite IH. }
  rewrite !Hlen. lia.
Qed.

(** ** What [subprocess.run] and [run_inference] come to, case by case *)

Lemma subprocess_run_text decode child cmd dir w rc out err f2 o e :
  child cmd dir (fs w) = Exited rc out err f2 →
  decode out = Ok o → decode err = Ok e →
  subprocess_run decode child cmd dir w
  = (Ok (mkCompleted rc (translate_newlines o) (translate_newlines e)),
     after_run cmd f2 w).
Proof.
  intros Hc Ho He. unfold subprocess_run, text_of. by rewrite Hc, Ho, He.
Qed.

Lemma find_output_world environ result w :
  (gradio_ui.find_output environ result w).2 = w.
Proof.
  unfold gradio_ui.find_output, bind, Path_exists, gradio_ui.glob_suffix, ret, lift.
  destruct (negb _); [reflexivity|].
  destruct (_ ++ _) as [|first others]; [reflexivity|].
  by destruct (gradio_ui.py_max _ _ _).
Qed.

Lemma run_inference_unfold environ float_repr decode child a w :
  gradio_ui.run_inference environ float_repr decode child a w
  = match gradio_ui.build_cmd environ float_repr a w with
    | (Raise x, w1) => (Ok (None, "Exception: " +:+ str_exn x), w1)
    | (Ok cmd, w1) =>
        match child cmd "/app" (fs w1) with
        | LaunchFailed msg => (Ok (None, "Exception: " +:+ msg), w1)
        | Exited rc out err f2 =>
            match text_of decode out with
            | Raise x => (Ok (None, "Exception: " +:+ str_exn x), after_run cmd f2 w1)
            | Ok o =>
                match text_of decode err with
                | Raise x =>
                    (Ok (None, "Exception: " +:+ str_exn x), after_run cmd f2 w1)
                | Ok e =>
                    if negb (rc =? 0) then
                      (Ok (None, "Error: " +:+ e +:+ nl +:+ nl
                                   +:+ "Command: " +:+ join " " cmd),
                       after_run cmd f2 w1)
                    else
                      match gradio_ui.find_output environ (mkCompleted rc o e)
                              (after_run cmd f2 w1) with
                      | (Ok x, w2) => (Ok x, w2)
                      | (Raise x, w2) => (Ok (None, "Exception: " +:+ str_exn x), w2)
                      end
                end
            end
        end
    end.
Proof.
  unfold gradio_ui.run_inference, try_except, bind, ret, subprocess_run.
  destruct (gradio_ui.build_cmd environ float_repr a w) as [[cmd|x] w1];
    [|reflexivity].
  destruct (child cmd "/app" (fs w1)) as [msg|rc out err f2]; [reflexivity|].
  fold (after_run cmd f2 w1).
  destruct (text_of decode out) as [o|x]; [|reflexivity].
  destruct (text_of decode err) as [e|x]; [|reflexivity].
  cbn [returncode stderr]. destruct (negb (rc =? 0)); reflexivity.
Qed.

Lemma text_of_ok decode data s :
  decode data = Ok s → text_of decode data = Ok (translate_newlines s).
Proof. unfold text_of. by intros ->. Qed.

Lemma text_of_raise decode data x :
  decode data = Raise x → text_of decode data = Raise x.
Proof. unfold text_of. by intros ->. Qed.

(** The child ran and its output cannot be decoded. *)
Lemma run_inference_garbled environ float_repr decode child a w cmd w1
    rc out err f2 x :
  gradio_ui.build_cmd environ float_repr a w = (Ok cmd, w1) →
  child cmd "/app" (fs w1) = Exited rc out err f2 →
  decode out = Raise x ∨ (∃ o, decode out = Ok o ∧ decode err = Raise x) →
  gradio_ui.run_inference environ float_repr decode child a w
  = (Ok (None, "Exception: " +:+ str_exn x), after_run cmd f2 w1).
Proof.
  intros Hb Hc Hd. rewrite run_inference_unfold, Hb, Hc.
  destruct Hd as [Ho|(o & Ho & He)].
  - by rewrite (text_of_raise _ _ _ Ho).
  - by rewrite (text_of_ok _ _ _ Ho), (text_of_raise _ _ _ He).
Qed.

(** The child ran, its output is text and its exit code is 0. *)
Lemma run_inference_exit0 environ float_repr decode child a w cmd w1 out err f2 o e :
  gradio_ui.build_cmd environ float_repr a w = (Ok cmd, w1) →
  child cmd "/app" (fs w1) = Exited 0 out err f2 →
  decode out = Ok o → decode err = Ok e →
  gradio_ui.run_inference environ float_repr decode child a w
  = match gradio_ui.find_output environ
            (mkCompleted 0 (translate_newlines o) (translate_newlines e))
            (after_run cmd f2 w1) with
    | (Ok x, w2) => (Ok x, w2)
    | (Raise x, w2) => (Ok (None, "Exception: " +:+ str_exn x), w2)
    end.
Proof.
  intros Hb Hc Ho He. rewrite run_inference_unfold, Hb, Hc.
  by rewrite (text_of_ok _ _ _ Ho), (text_of_ok _ _ _ He).
Qed.

(** ** C4 *)

(** C4, as the code has it. When the child process starts, exits with a
    non-zero code and what it wrote to its two streams is text in the
    encoding of the locale, [subprocess.run] returns it as a completed
    process (no exception), and [run_inference] returns no artifact
    ([None]) with a status text in which the captured standard error and
    the whole command, joined by spaces, occur. When one of the two
    streams cannot be decoded, [subprocess.run] raises and the status is
    ["Exception: "] followed by the message of the decoder. *)
Theorem nonzero_exit_reported (environ : gmap string string)
    (float_repr : float → string) (decode : list byte → res string)
    (child : program) (a : gradio_ui.params)
    (w : World) (cmd : list string) (w1 : World)
    (rc : Z) (out err : list byte) (f2 : fsmap) :
  gradio_ui.build_cmd environ float_repr a w = (Ok cmd, w1) →
  child cmd "/app" (fs w1) = Exited rc out err f2 →
  rc ≠ 0 →
  (∀ o e,
     decode out = Ok o → decode err = Ok e →
     subprocess_run decode child cmd "/app" w1
     = (Ok (mkCompleted rc (translate_newlines o) (translate_newlines e)),
        after_run cmd f2 w1)
     ∧ ∃ status,
         gradio_ui.run_inference environ float_repr decode child a w
         = (Ok (None, status), after_run cmd f2 w1)
         ∧ contains status (translate_newlines e)
         ∧ contains status (join " " cmd))
  ∧ (∀ x,
       decode out = Raise x ∨ (∃ o, decode out = Ok o ∧ decode err = Raise x) →
       subprocess_run decode child cmd "/app" w1 = (Raise x, after_run cmd f2 w1)
       ∧ gradio_ui.run_inference environ float_repr decode child a w
         = (Ok (None, "Exception: " +:+ str_exn x), after_run cmd f2 w1)).
Proof.
  intros Hb Hc Hrc. split.
  - intros o e Ho He.
    split; [exact (subprocess_run_text _ _ _ _ _ _ _ _ _ _ _ Hc Ho He)|].
    exists ("Error: " +:+ translate_newlines e +:+ nl +:+ nl
              +:+ "Command: " +:+ join " " cmd).
    split_and!.
    + rewrite run_inference_unfold, Hb, Hc.
      rewrite (text_of_ok _ _ _ Ho), (text_of_ok _ _ _ He).
      apply Z.eqb_neq in Hrc. by rewrite Hrc.
    + apply contains_middle.
    + rewrite <- !append_assoc. apply contains_end.
  - intros x Hd.
    split; [|exact (run_inference_garbled _ _ _ _ _ _ _ _ _ _ _ _ _ Hb Hc Hd)].
    unfold subprocess_run. rewrite Hc. fold (after_run cmd f2 w1).
    destruct Hd as [Ho|(o & Ho & He)].
    + by rewrite (text_of_raise _ _ _ Ho).
    + by rewrite (text_of_ok _ _ _ Ho), (text_of_raise _ _ _ He).
Qed.

Lemma nonzero_exit_reported_witness :
  ∃ status,
    (gradio_ui.run_inference ∅ sample_repr ascii_decode oom_child sample_params world0).1
    = Ok (None, status)
    ∧ contains status "CUDA OOM"
    ∧ contains status
        "python /app/inference/infer.py --cuda_idx 0 --stage1_model m-a-p/YuE-s1-7B-anneal-en-icl --stage2_model m-a-p/YuE-s2-1B-general --run_n_segments 2 --stage2_batch_size 4 --output_dir /app/output --max_new_tokens 3000 --repetition_penalty 1.1 --genre_txt /tmp/tmpaaaaaaaa.txt".
Proof.
  destruct (proj1 (nonzero_exit_reported ∅ sample_repr ascii_decode oom_child
                     sample_params world0 _ _ 1 [] (list_byte_of_string "CUDA OOM") _
                     eq_refl eq_refl ltac:(discriminate))
              "" "CUDA OOM" eq_refl eq_refl)
    as [_ (status & Hr & He & Hc)].
  exists status. rewrite Hr. split_and!; [reflexivity|exact He|exact Hc].
Defined.

(** Against C4 as stated: the child exits with code 1 after writing the
    byte [ff] to its standard error; the status text holds neither what
    was captured nor the command. *)
Lemma nonzero_exit_undecodable :
  (∃ cmd w1,
     gradio_ui.build_cmd ∅ sample_repr sample_params world0 = (Ok cmd, w1)
     ∧ garbled_child cmd "/app" (fs w1) = Exited 1 [] [xff] (fs w1))
  ∧ (gradio_ui.run_inference ∅ sample_repr ascii_decode garbled_child sample_params
       world0).1
    = Ok (None,
          "Exception: 'ascii' codec can't decode byte 0xff in position 0: ordinal not in range(128)")
  ∧ ¬ contains
        "Exception: 'ascii' codec can't decode byte 0xff in position 0: ordinal not in range(128)"
        "python /app/inference/infer.py --cuda_idx 0 --stage1_model m-a-p/YuE-s1-7B-anneal-en-icl --stage2_model m-a-p/YuE-s2-1B-general --run_n_segments 2 --stage2_batch_size 4 --output_dir /app/output --max_new_tokens 3000 --repetition_penalty 1.1 --genre_txt /tmp/tmpaaaaaaaa.txt".
Proof.
  split_and!.
  - eexists _, _. split; vm_compute; reflexivity.
  - vm_compute. reflexivity.
  - intros H%contains_length. vm_compute in H. lia.
Qed.

(** ** C5 *)

Lemma max_by_first {A} (key : A → Z) (l : list A) : ∀ best,
  ∃ before after,
    best :: l = before ++ gradio_ui.max_by key best l :: after
    ∧ (∀ e, e ∈ before → key e < key (gradio_ui.max_by key best l))
    ∧ (∀ e, e ∈ after → key e ≤ key (gradio_ui.max_by key best l)).
Proof.
  induction l as [|x l IH]; intros best; simpl.
  - exists [], []. split_and!; [reflexivity|intros e H; by apply elem_of_nil in H..].
  - destruct (key best <? key x) eqn:E.
    + apply Z.ltb_lt in E.
      destruct (IH x) as (before & after & Heq & Hb & Ha).
      exists (best :: before), after. rewrite Heq. split_and!; [reflexivity| |exact Ha].
      assert (key x ≤ key (gradio_ui.max_by key x l)) as Hx.
      { assert (x ∈ before ++ gradio_ui.max_by key x l :: after) as Hin
          by (rewrite <- Heq; apply list_elem_of_here).
        apply elem_of_app in Hin as [Hin|Hin]; [apply Hb in Hin; lia|].
        apply elem_of_cons in Hin as [Hin|Hin]; [rewrite <- Hin; lia|by apply Ha]. }
      intros e [->|He]%elem_of_cons; [lia|by apply Hb].
    + apply Z.ltb_ge in E.
      destruct (IH best) as (before & after & Heq & Hb & Ha).
      destruct before as [|b0 before].
      * simpl in Heq. injection Heq as Hm Hl.
        exists [], (x :: after).
        split_and!; [simpl; congruence|intros e H; by apply elem_of_nil in H|].
        intros e [->|He]%elem_of_cons; [rewrite <- Hm; lia|by apply Ha].
      * simpl in Heq. injection Heq as Hm Hl.
        exists (best :: x :: before), after.
        split_and!; [simpl; congruence| |exact Ha].
        assert (key best < key (gradio_ui.max_by key best l)) as Hbest
          by (apply Hb; rewrite Hm; apply list_elem_of_here).
        intros e [->|[->|He]%elem_of_cons]%elem_of_cons; [lia|lia|].
        apply Hb. by apply list_elem_of_further.
Qed.

(** With every key there, [max] is the pure one. *)
Lemma max_key_ok {A} (key : A → res Z) (mk : A → Z) (l : list A) : ∀ best,
  (∀ x, x ∈ l → key x = Ok (mk x)) →
  gradio_ui.max_key key best (mk best) l = Ok (gradio_ui.max_by mk best l).
Proof.
  induction l as [|x l IH]; intros best Hk; [reflexivity|].
  cbn [gradio_ui.max_key gradio_ui.max_by].
  rewrite (Hk x) by apply list_elem_of_here.
  assert (∀ y, y ∈ l → key y = Ok (mk y)) as Hl
    by (intros y Hy; apply Hk; by apply list_elem_of_further).
  destruct (mk best <? mk x); by apply IH.
Qed.

Lemma py_max_ok {A} (key : A → res Z) (mk : A → Z) (first : A) (others : list A) :
  (∀ x, x ∈ first :: others → key x = Ok (mk x)) →
  gradio_ui.py_max key first others = Ok (gradio_ui.max_by mk first others).
Proof.
  intros Hk. unfold gradio_ui.py_max.
  rewrite (Hk first) by apply list_elem_of_here.
  apply max_key_ok. intros y Hy. apply Hk. by apply list_elem_of_further.
Qed.

(** A key that raises for one element makes [max] raise. *)
Lemma max_key_raise {A} (key : A → res Z) (l : list A) : ∀ best kbest x,
  x ∈ l → (∃ e, key x = Raise e) → ∃ e, gradio_ui.max_key key best kbest l = Raise e.
Proof.
  induction l as [|y l IH]; intros best kbest x Hin Hx; [by apply elem_of_nil in Hin|].
  cbn [gradio_ui.max_key].
  destruct (key y) as [k|e] eqn:Ey; [|by exists e].
  apply elem_of_cons in Hin as [->|Hin].
  - destruct Hx as [e He]. congruence.
  - destruct (kbest <? k); by eapply IH.
Qed.

Lemma py_max_raise {A} (key : A → res Z) (first : A) (others : list A) x :
  x ∈ first :: others → (∃ e, key x = Raise e) →
  ∃ e, gradio_ui.py_max key first others = Raise e.
Proof.
  intros Hin Hx. unfold gradio_ui.py_max.
  destruct (key first) as [k|e] eqn:Ef; [|by exists e].
  apply elem_of_cons in Hin as [->|Hin].
  - destruct Hx as [e He]. congruence.
  - by eapply max_key_raise.
Qed.

(** What [max] returns is one of the elements. *)
Lemma max_key_in {A} (key : A → res Z) (l : list A) : ∀ best kbest x,
  gradio_ui.max_key key best kbest l = Ok x → x = best ∨ x ∈ l.
Proof.
  induction l as [|y l IH]; intros best kbest x; cbn [gradio_ui.max_key].
  - intros [= ->]. by left.
  - destruct (key y) as [k|e]; [|intros [=]].
    destruct (kbest <? k); intros [->|Hin]%IH.
    + right. apply list_elem_of_here.
    + right. by apply list_elem_of_further.
    + by left.
    + right. by apply list_elem_of_further.
Qed.

Lemma py_max_in {A} (key : A → res Z) (first : A) (others : list A) x :
  gradio_ui.py_max key first others = Ok x → x ∈ first :: others.
Proof.
  unfold gradio_ui.py_max. destruct (key first) as [k|e]; [|intros [=]].
  intros [->|Hin]%max_key_in; [apply list_elem_of_here|by apply list_elem_of_further].
Qed.

Lemma st_mtime_of_ok (e : Path * inode) :
  e.2 ≠ Dangling → gradio_ui.st_mtime_of e = Ok (mtime e.2).
Proof. unfold gradio_ui.st_mtime_of. by destruct (e.2). Qed.

Lemma st_mtime_of_raise (e : Path * inode) :
  e.2 = Dangling → ∃ x, gradio_ui.st_mtime_of e = Raise x.
Proof. unfold gradio_ui.st_mtime_of. intros ->. by eexists. Qed.


Lemma find_output_empty environ result w :
  is_Some (stat w (Path_of (OUTPUT_DIR environ))) →
  audio_files environ w = [] →
  gradio_ui.find_output environ result w
  = (Ok (None, "Generation completed but no audio files found in "
                 +:+ OUTPUT_DIR environ +:+ "." +:+ nl +:+ nl
                 +:+ "Command output: " +:+ stdout result), w).
Proof.
  intros Hex Hf.
  unfold gradio_ui.find_output, bind, Path_exists, gradio_ui.glob_suffix, ret.
  rewrite (bool_decide_eq_true_2 _ Hex). cbn [negb].
  fold (audio_files environ w). by rewrite Hf.
Qed.

Lemma find_output_listed environ result w first others :
  is_Some (stat w (Path_of (OUTPUT_DIR environ))) →
  audio_files environ w = first :: others →
  match gradio_ui.py_max gradio_ui.st_mtime_of first others with
  | Ok latest =>
      ∃ status,
        gradio_ui.find_output environ result w
        = (Ok (Some (Path_str latest.1), status), w)
  | Raise x => gradio_ui.find_output environ result w = (Raise x, w)
  end.
Proof.
  intros Hex Hf.
  unfold gradio_ui.find_output, bind, Path_exists, gradio_ui.glob_suffix, ret, lift.
  rewrite (bool_decide_eq_true_2 _ Hex). cbn [negb].
  fold (audio_files environ w). rewrite Hf.
  destruct (gradio_ui.py_max _ _ _) as [latest|x]; [by eexists|reflexivity].
Qed.

(** A file is handed back only as the [max] of a listing that is not
    empty, where the output directory exists. *)
Lemma find_output_artifact environ result w p status w' :
  gradio_ui.find_output environ result w = (Ok (Some p, status), w') →
  is_Some (stat w (Path_of (OUTPUT_DIR environ)))
  ∧ ∃ first others latest,
      audio_files environ w = first :: others
      ∧ gradio_ui.py_max gradio_ui.st_mtime_of first others = Ok latest
      ∧ p = Path_str latest.1.
Proof.
  unfold gradio_ui.find_output, bind, Path_exists, gradio_ui.glob_suffix, ret, lift.
  destruct (bool_decide (is_Some (stat w (Path_of (OUTPUT_DIR environ))))) eqn:Hex;
    cbn [negb]; [|intros [=]].
  apply bool_decide_eq_true_1 in Hex.
  fold (audio_files environ w).
  destruct (audio_files environ w) as [|first others]; [intros [=]|].
  destruct (gradio_ui.py_max _ _ _) as [latest|x] eqn:Em; [|intros [=]].
  intros [= <- _ _]. split; [exact Hex|]. by exists first, others, latest.
Qed.

(** C5, as the code has it. After a run that exits with code 0 and whose
    output is text in the encoding of the locale, with the output
    directory there, [run_inference] returns the first of the newest among
    the directory's [.mp3] entries followed by its [.wav] entries,
    provided none of them is a link that leads nowhere: every entry listed
    before it is strictly older and none after it is newer, so a tie goes
    to the entry listed first, not to a lexical order. With no such entry
    it returns no artifact and a status of its own; it does not raise.
    With a dangling link among them it returns no artifact and the status
    ["Exception: "] followed by what [stat] reports. *)
Theorem latest_is_first_newest (environ : gmap string string)
    (float_repr : float → string) (decode : list byte → res string)
    (child : program) (a : gradio_ui.params)
    (w : World) (cmd : list string) (w1 : World) (out err : list byte)
    (f2 : fsmap) (o e : string) :
  gradio_ui.build_cmd environ float_repr a w = (Ok cmd, w1) →
  child cmd "/app" (fs w1) = Exited 0 out err f2 →
  decode out = Ok o → decode err = Ok e →
  is_Some (stat (after_run cmd f2 w1) (Path_of (OUTPUT_DIR environ))) →
  (audio_files environ (after_run cmd f2 w1) = [] →
   gradio_ui.run_inference environ float_repr decode child a w
   = (Ok (None, "Generation completed but no audio files found in "
                  +:+ OUTPUT_DIR environ +:+ "." +:+ nl +:+ nl
                  +:+ "Command output: " +:+ translate_newlines o),
      after_run cmd f2 w1))
  ∧ (audio_files environ (after_run cmd f2 w1) ≠ [] →
     (∀ x, x ∈ audio_files environ (after_run cmd f2 w1) → x.2 ≠ Dangling) →
     ∃ latest before after status,
       audio_files environ (after_run cmd f2 w1) = before ++ latest :: after
       ∧ (∀ x, x ∈ before → mtime x.2 < mtime latest.2)
       ∧ (∀ x, x ∈ after → mtime x.2 ≤ mtime latest.2)
       ∧ gradio_ui.run_inference environ float_repr decode child a w
         = (Ok (Some (Path_str latest.1), status), after_run cmd f2 w1))
  ∧ (∀ x, x ∈ audio_files environ (after_run cmd f2 w1) → x.2 = Dangling →
     ∃ msg,
       gradio_ui.run_inference environ float_repr decode child a w
       = (Ok (None, "Exception: " +:+ msg), after_run cmd f2 w1)).
Proof.
  intros Hb Hc Ho He Hex.
  rewrite (run_inference_exit0 _ _ _ _ _ _ _ _ _ _ _ _ _ Hb Hc Ho He).
  split_and!.
  - intros Hf. by rewrite (find_output_empty _ _ _ Hex Hf).
  - intros Hne Hall.
    destruct (audio_files environ (after_run cmd f2 w1)) as [|first others] eqn:Ef;
      [by destruct Hne|].
    pose proof (find_output_listed environ
                  (mkCompleted 0 (translate_newlines o) (translate_newlines e))
                  _ _ _ Hex Ef) as Hfind.
    rewrite (py_max_ok _ (λ x : Path * inode, mtime x.2)) in Hfind
      by (intros x Hx; apply st_mtime_of_ok, Hall, Hx).
    destruct Hfind as [status Hfind].
    destruct (max_by_first (λ x : Path * inode, mtime x.2) others first)
      as (before & after & Heq & Hbef & Haft).
    eexists _, before, after, status.
    split_and!; [exact Heq|exact Hbef|exact Haft|]. by rewrite Hfind.
  - intros x Hin Hx.
    destruct (audio_files environ (after_run cmd f2 w1)) as [|first others] eqn:Ef;
      [by apply elem_of_nil in Hin|].
    pose proof (find_output_listed environ
                  (mkCompleted 0 (translate_newlines o) (translate_newlines e))
                  _ _ _ Hex Ef) as Hfind.
    destruct (py_max_raise gradio_ui.st_mtime_of first others x Hin
                (st_mtime_of_raise x Hx)) as [exc Hexc].
    rewrite Hexc in Hfind. rewrite Hfind. by exists (str_exn exc).
Qed.

Lemma latest_is_first_newest_witness :
  ∃ latest status,
    latest ∈ audio_files ∅
      (gradio_ui.run_inference ∅ sample_repr ascii_decode tie_child sample_params world0).2
    ∧ (gradio_ui.run_inference ∅ sample_repr ascii_decode tie_child sample_params world0).1
      = Ok (Some (Path_str latest.1), status).
Proof.
  destruct (latest_is_first_newest ∅ sample_repr ascii_decode tie_child sample_params
              world0 _ _ (list_byte_of_string "done") [] _ "done" ""
              eq_refl eq_refl eq_refl eq_refl
              ltac:(vm_compute; eexists; reflexivity)) as (_ & H & _).
  destruct H as (latest & before & after & status & Heq & _ & _ & Hr).
  - vm_compute. discriminate.
  - vm_compute. intros x Hx.
    repeat (apply elem_of_cons in Hx as [->|Hx]; [discriminate|]).
    by apply elem_of_nil in Hx.
  - exists latest, status. rewrite Hr. split; [|reflexivity].
    cbn [snd]. rewrite Heq. apply elem_of_app. right. apply list_elem_of_here.
Defined.

Lemma tie_listing :
  audio_files ∅
    (gradio_ui.run_inference ∅ sample_repr ascii_decode tie_child sample_params world0).2
  = [ (mkPath "/" ["app"; "output"; "b.mp3"], File 100 "");
      (mkPath "/" ["app"; "output"; "a.wav"], File 100 "");
      (mkPath "/" ["app"; "output"; "c.wav"], File 100 "") ].
Proof. vm_compute. reflexivity. Qed.

(** Against C5 as stated: three audio files of the same age, [a.wav],
    [b.mp3] and [c.wav]; the code returns [b.mp3], which is neither the
    lexically smallest nor the lexically greatest of the newest. *)
Lemma latest_tie_not_lexical :
  (∃ status,
     (gradio_ui.run_inference ∅ sample_repr ascii_decode tie_child sample_params world0).1
     = Ok (Some "/app/output/b.mp3", status))
  ∧ ¬ newest_lexical true
        (audio_files ∅
           (gradio_ui.run_inference ∅ sample_repr ascii_decode tie_child sample_params world0).2)
        "/app/output/b.mp3"
  ∧ ¬ newest_lexical false
        (audio_files ∅
           (gradio_ui.run_inference ∅ sample_repr ascii_decode tie_child sample_params world0).2)
        "/app/output/b.mp3".
Proof.
  split; [eexists; vm_compute; reflexivity|].
  rewrite tie_listing. split.
  - intros (e & He & _ & _ & Htie).
    specialize (Htie (mkPath "/" ["app"; "output"; "a.wav"], File 100 "")).
    assert (mtime e.2 = 100) as Hm.
    { repeat (apply elem_of_cons in He as [->|He]; [reflexivity|]).
      by apply elem_of_nil in He. }
    rewrite Hm in Htie.
    discriminate (Htie ltac:(is_in) eq_refl).
  - intros (e & He & _ & _ & Htie).
    specialize (Htie (mkPath "/" ["app"; "output"; "c.wav"], File 100 "")).
    assert (mtime e.2 = 100) as Hm.
    { repeat (apply elem_of_cons in He as [->|He]; [reflexivity|]).
      by apply elem_of_nil in He. }
    rewrite Hm in Htie.
    discriminate (Htie ltac:(is_in) eq_refl).
Qed.

(** ** C6 *)

Lemma only_staged_refl w : only_staged w w.
Proof.
  split_and!; [intros k n H; exact H|reflexivity|intros cmd H; exact H|intros H; exact H].
Qed.

Lemma only_staged_trans w1 w2 w3 :
  only_staged w1 w2 → only_staged w2 w3 → only_staged w1 w3.
Proof.
  intros (Hf1 & Ht1 & Hr1 & Ha1) (Hf2 & Ht2 & Hr2 & Ha2). split_and!.
  - intros k n Hk. by apply Hf2, Hf1.
  - by rewrite Ht2.
  - intros cmd Hc. by apply Hr1, Hr2.
  - intros Hw. by apply Ha2, Ha1.
Qed.

Lemma only_staged_same w w' : same_but_drawn w w' → only_staged w w'.
Proof.
  intros Hs. pose proof (temps_alive_same _ _ Hs) as Ha.
  destruct Hs as (Hf & _ & _ & _ & _ & Htr & Hta). split_and!.
  - intros k n. by rewrite Hf.
  - exact Hta.
  - intros cmd. by rewrite Htr.
  - exact Ha.
Qed.

Lemma only_staged_write suffix text w :
  only_staged w (NamedTemporaryFile_write suffix text w).2.
Proof.
  destruct (NamedTemporaryFile_write suffix text w) as [[path|e] w'] eqn:E; simpl.
  - pose proof (temps_alive_staged _ _ _ _ _ E) as Ha.
    apply NamedTemporaryFile_write_ok in E
      as (dir & name & _ & Hfree & _ & Hf & Htr & Hta & _).
    split_and!.
    + intros k n Hk. rewrite Hf. by apply node_at_snoc_old.
    + exact Hta.
    + intros cmd. rewrite Htr, elem_of_app, list_elem_of_singleton.
      intros [H|H]; [exact H|discriminate H].
    + exact Ha.
  - apply only_staged_same. by eapply NamedTemporaryFile_write_raise.
Qed.

Lemma only_staged_text_args flag file text w :
  only_staged w (api_server.text_args flag file text w).2.
Proof.
  unfold api_server.text_args.
  destruct (truthy file); [apply only_staged_refl|].
  destruct (truthy text); [|apply only_staged_refl].
  unfold staged_args, bind, ret.
  pose proof (only_staged_write ".txt" (default "" text) w) as H.
  by destruct (NamedTemporaryFile_write _ _ _) as [[path|e] w'].
Qed.

Lemma only_staged_compose base gf gt lf lt prompt w :
  only_staged w (compose base gf gt lf lt prompt w).2.
Proof.
  unfold compose, bind, ret.
  pose proof (only_staged_text_args "--genre_txt" gf gt w) as H1.
  destruct (api_server.text_args "--genre_txt" _ _ _) as [[g|e] w1]; [|exact H1].
  pose proof (only_staged_text_args "--lyrics_txt" lf lt w1) as H2.
  destruct (api_server.text_args "--lyrics_txt" _ _ _) as [[l|e] w2];
    by eapply only_staged_trans.
Qed.

(** [generate_music] leaves the world as building the command left it. *)
Lemma generate_music_world environ float_repr r w :
  (api_server.generate_music environ float_repr r w).2
  = (api_server.build_cmd environ float_repr r w).2.
Proof.
  unfold api_server.generate_music, try_except, bind, ret, raise.
  by destruct (api_server.build_cmd _ _ _ _) as [[cmd|e] w'].
Qed.

(** [run_inference] leaves the world as the child left it, or as building
    the command left it when no child ran. *)
Lemma run_inference_world environ float_repr decode child a w :
  (gradio_ui.run_inference environ float_repr decode child a w).2
  = match gradio_ui.build_cmd environ float_repr a w with
    | (Ok cmd, w1) =>
        match child cmd "/app" (fs w1) with
        | Exited _ _ _ f2 => after_run cmd f2 w1
        | LaunchFailed _ => w1
        end
    | (Raise _, w1) => w1
    end.
Proof.
  rewrite run_inference_unfold.
  destruct (gradio_ui.build_cmd _ _ _ _) as [[cmd|x] w1]; [|reflexivity].
  destruct (child cmd "/app" (fs w1)) as [msg|rc out err f2]; [reflexivity|].
  destruct (text_of decode out) as [o|x]; [|reflexivity].
  destruct (text_of decode err) as [e|x]; [|reflexivity].
  destruct (negb _); [reflexivity|].
  pose proof (find_output_world environ (mkCompleted rc o e) (after_run cmd f2 w1))
    as Hw.
  destruct (gradio_ui.find_output _ _ _) as [[x|x] w2]; exact Hw.
Qed.

Lemma temps_alive_after_run child cmd dir rc out err f2 w1 :
  keeps_files child → child cmd dir (fs w1) = Exited rc out err f2 →
  temps_alive w1 → temps_alive (after_run cmd f2 w1).
Proof.
  intros Hk Hc Hw name k. simpl.
  rewrite elem_of_app, list_elem_of_singleton.
  intros [Hin|Hin]; [|discriminate Hin].
  destruct (Hw _ _ Hin) as (t & d & Hn). exists t, d.
  by eapply Hk.
Qed.

(** C6, as the code has it. No handler removes a temporary file: whatever
    way [generate_music] ends, everything that was in the file system is
    still there unchanged and every temporary file created so far is
    still a file; the same holds for the temporary files after
    [run_inference], on each of its ways out, as long as the child process
    itself removes nothing. *)
Theorem temps_never_removed (environ : gmap string string)
    (float_repr : float → string) (decode : list byte → res string)
    (child : program) :
  (∀ (r : api_server.InferenceRequest) (w : World),
     fs_kept w (api_server.generate_music environ float_repr r w).2
     ∧ (temps_alive w →
        temps_alive (api_server.generate_music environ float_repr r w).2))
  ∧ (keeps_files child →
     ∀ (a : gradio_ui.params) (w : World),
       temps_alive w →
       temps_alive (gradio_ui.run_inference environ float_repr decode child a w).2).
Proof.
  split.
  - intros r w. rewrite generate_music_world, api_build_cmd_compose.
    destruct (only_staged_compose
                (base_cmd float_repr (CUDA_IDX environ) (STAGE1_MODEL environ)
                   (STAGE2_MODEL environ) (api_server.run_n_segments r)
                   (api_server.stage2_batch_size r) (OUTPUT_DIR environ)
                   (api_server.max_new_tokens r) (api_server.repetition_penalty r))
                (api_server.genre_file r) (api_server.genre_txt r)
                (api_server.lyrics_file r) (api_server.lyrics_txt r)
                (audio_prompt_args float_repr
                   (api_server.use_dual_tracks_prompt r)
                   (api_server.vocal_track_prompt_path r)
                   (api_server.instrumental_track_prompt_path r)
                   (api_server.use_audio_prompt r)
                   (api_server.audio_prompt_path r)
                   (Some (api_server.prompt_start_time r))
                   (Some (api_server.prompt_end_time r))) w)
      as (Hf & _ & _ & Ha).
    by split.
  - intros Hk a w Hw. rewrite run_inference_world.
    pose proof (compose_alive
                  (base_cmd float_repr (CUDA_IDX environ) (gradio_ui.stage1_model a)
                     (gradio_ui.stage2_model a) (gradio_ui.run_n_segments a)
                     (gradio_ui.stage2_batch_size a) (OUTPUT_DIR environ)
                     (gradio_ui.max_new_tokens a) (gradio_ui.repetition_penalty a))
                  None (Some (gradio_ui.genre_txt a))
                  None (Some (gradio_ui.lyrics_txt a))
                  (audio_prompt_args float_repr
                     (gradio_ui.use_dual_tracks_prompt a)
                     (gradio_ui.vocal_track_prompt_path a)
                     (gradio_ui.instrumental_track_prompt_path a)
                     (gradio_ui.use_audio_prompt a)
                     (gradio_ui.audio_prompt_path a)
                     (gradio_ui.prompt_start_time a)
                     (gradio_ui.prompt_end_time a)) w Hw) as H1.
    rewrite <- ui_build_cmd_compose in H1.
    destruct (gradio_ui.build_cmd _ _ _ _) as [[cmd|e] w1]; [|exact H1].
    simpl in H1.
    destruct (child cmd "/app" (fs w1)) as [msg|rc out err f2] eqn:Hc; [exact H1|].
    by eapply temps_alive_after_run.
Qed.

Lemma temps_never_removed_witness :
  temps_alive (api_server.generate_music ∅ sample_repr pop_request world0).2.
Proof.
  apply (proj1 (temps_never_removed ∅ sample_repr ascii_decode oom_child) pop_request world0).
  intros name k H. by apply elem_of_nil in H.
Defined.

(** Against C6 as stated: [generate_music] has answered, the temporary
    file it staged for the genre text was not there before, and is still
    there. *)
Lemma staged_file_left_behind :
  (∃ d, (api_server.generate_music ∅ sample_repr pop_request world0).1
        = Ok (api_server.Json d))
  ∧ trace (api_server.generate_music ∅ sample_repr pop_request world0).2
    = [Created "/tmp/tmpaaaaaaaa.txt" ["tmp"; "tmpaaaaaaaa.txt"]]
  ∧ stat world0 (Path_of "/tmp/tmpaaaaaaaa.txt") = None
  ∧ stat (api_server.generate_music ∅ sample_repr pop_request world0).2
      (Path_of "/tmp/tmpaaaaaaaa.txt")
    = Some (File 1000 "pop").
Proof.
  split_and!; [eexists|..]; vm_compute; reflexivity.
Qed.

(** ** C7 *)

Lemma text_items_agree flag file text wa ga wa' wb gb wb' f v :
  text_outcome flag file text wa ga wa' →
  text_outcome flag file text wb gb wb' →
  (f = flag → staged file text = false) →
  ((f, Some v) ∈ text_items ga ↔ (f, Some v) ∈ text_items gb).
Proof.
  unfold staged.
  intros [(Hf1 & -> & _)|[(Hf1 & Ht1 & p1 & -> & _)|(Hf1 & Ht1 & -> & _)]]
         [(Hf2 & -> & _)|[(Hf2 & Ht2 & p2 & -> & _)|(Hf2 & Ht2 & -> & _)]] Hst;
    try reflexivity; try congruence.
  rewrite Hf1, Ht1 in Hst. simpl.
  rewrite !list_elem_of_singleton.
  split; intros [= -> _]; by specialize (Hst eq_refl).
Qed.

Lemma compose_twice float_repr c s1 s2 n b o t p gf gt lf lt
    dual vocal inst single audio t0 t1 wa wb c1 c2 wa' wb' :
  compose (base_cmd float_repr c s1 s2 n b o t p) gf gt lf lt
    (audio_prompt_args float_repr dual vocal inst single audio t0 t1) wa
  = (Ok c1, wa') →
  compose (base_cmd float_repr c s1 s2 n b o t p) gf gt lf lt
    (audio_prompt_args float_repr dual vocal inst single audio t0 t1) wb
  = (Ok c2, wb') →
  same_but_staged (staged gf gt) (staged lf lt) c1 c2
  ∧ (staged gf gt = false → staged lf lt = false → c1 = c2).
Proof.
  intros H1 H2. split.
  - apply compose_items in H1 as (ga & la & wa1 & Hga & Hla & Hra & Hfa).
    apply compose_items in H2 as (gb & lb & wb1 & Hgb & Hlb & Hrb & Hfb).
    split; [by rewrite Hfa, Hfb|].
    intros f v Hg Hl. unfold has_pair. rewrite Hra, Hrb, !elem_of_app.
    rewrite (text_items_agree _ _ _ _ _ _ _ _ _ f v Hga Hgb Hg).
    rewrite (text_items_agree _ _ _ _ _ _ _ _ _ f v Hla Hlb Hl).
    reflexivity.
  - unfold staged. intros Hg Hl.
    assert (truthy gf = true ∨ truthy gt = false) as Hg'
      by (destruct (truthy gf), (truthy gt); auto).
    assert (truthy lf = true ∨ truthy lt = false) as Hl'
      by (destruct (truthy lf), (truthy lt); auto).
    rewrite compose_unstaged in H1, H2 by assumption. congruence.
Qed.

Lemma cmd_flags_NoDup genre lyrics dual vocal inst single audio t0 t1 :
  NoDup (cmd_flags genre lyrics dual vocal inst single audio t0 t1).
Proof.
  destruct genre, lyrics, dual, vocal, inst, single, audio, t0, t1;
    apply (bool_decide_unpack _); vm_compute; reflexivity.
Qed.

Lemma append_inj_r (a b c : string) : a +:+ b = a +:+ c → b = c.
Proof.
  induction a as [|x a IH]; [intros H; exact H|].
  change (String x (a +:+ b) = String x (a +:+ c) → b = c).
  intros [= H]. by apply IH.
Qed.

Lemma os_path_join_inj (a b c : string) :
  os_path_join a b = os_path_join a c → b = c.
Proof.
  unfold os_path_join. destruct (_ || _).
  - apply append_inj_r.
  - intros H%append_inj_r. by apply append_inj_r in H.
Qed.

Lemma pair_unique {A B} (l : list (A * B)) (a : A) (b1 b2 : B) :
  NoDup l.*1 → (a, b1) ∈ l → (a, b2) ∈ l → b1 = b2.
Proof.
  induction l as [|[a' b'] l IH]; [by intros _ ?%elem_of_nil|].
  cbn [fmap list_fmap fst]. intros [Hn Hd]%NoDup_cons H1 H2.
  apply elem_of_cons in H1 as [E1|H1]; apply elem_of_cons in H2 as [E2|H2].
  - congruence.
  - injection E1 as <- _. destruct Hn. by apply (list_elem_of_fmap_2 fst) in H2.
  - injection E2 as <- _. destruct Hn. by apply (list_elem_of_fmap_2 fst) in H1.
  - by apply IH.
Qed.

Lemma resolve_kept (f f' : fsmap) :
  (∀ k n, node_at f k = Some n → node_at f' k = Some n) →
  ∀ ps cur d, resolve f cur ps = Some d → resolve f' cur ps = Some d.
Proof.
  intros Hk. induction ps as [|p ps IH]; intros cur d; cbn [resolve]; [done|].
  destruct (is_dir f cur) eqn:Hd; [|intros [=]].
  assert (is_dir f' cur = true) as ->.
  { unfold is_dir in *.
    destruct (node_at f cur) as [[| |]|] eqn:E; try discriminate Hd.
    by rewrite (Hk _ _ E). }
  destruct (String.eqb p ".."); apply IH.
Qed.

Lemma text_outcome_surroundings flag file text w g w' :
  text_outcome flag file text w g w' → tempdir w' = tempdir w ∧ cwd w' = cwd w.
Proof.
  intros [(_ & _ & ->)|[(_ & _ & path & _ & H)|(_ & _ & _ & ->)]]; [done| |done].
  by apply NamedTemporaryFile_write_ok in H as (dir & name & _ & _ & _ & _ & _ & _ & ? & ? & _).
Qed.

(** A field staged in two compositions, the second made where the file
    of the first is still there: two files, two names. *)
Lemma staged_values_differ flag file text wa ga wa' wb gb wb' :
  text_outcome flag file text wa ga wa' →
  text_outcome flag file text wb gb wb' →
  staged file text = true →
  tempdir wb = tempdir wa → cwd wb = cwd wa → fs_kept wa' wb →
  ∃ pa pb ka kb,
    ga = [flag; pa] ∧ gb = [flag; pb] ∧ pa ≠ pb
    ∧ node_at (fs wa) ka = None ∧ trace wa' = trace wa ++ [Created pa ka]
    ∧ node_at (fs wb) kb = None ∧ trace wb' = trace wb ++ [Created pb kb].
Proof.
  unfold staged. intros Ha Hb [Sf St]%andb_true_iff Htmp Hcwd Hkept.
  apply negb_true_iff in Sf.
  destruct Ha as [(Hc & _)|[(_ & _ & pa & -> & Ha)|(_ & Hc & _)]];
    [congruence| |congruence].
  destruct Hb as [(Hc & _)|[(_ & _ & pb & -> & Hb)|(_ & Hc & _)]];
    [congruence| |congruence].
  apply NamedTemporaryFile_write_ok in Ha
    as (da & na & Hla & Hfa & -> & Hfsa & Htra & _).
  apply NamedTemporaryFile_write_ok in Hb
    as (db & nb & Hlb & Hfb & -> & Hfsb & Htrb & _).
  assert (db = da) as ->.
  { unfold locate in Hla, Hlb. rewrite Htmp, Hcwd in Hlb.
    apply (resolve_kept (fs wa) (fs wb)) in Hla; [congruence|].
    intros k n Hk. apply Hkept. rewrite Hfsa. by apply node_at_snoc_old. }
  assert (na ≠ nb) as Hn.
  { intros ->. rewrite (Hkept (da ++ [nb]) (File (now wa) (default "" text))) in Hfb;
      [discriminate Hfb|].
    rewrite Hfsa. by apply node_at_snoc_new. }
  exists (os_path_join (tempdir wa) na), (os_path_join (tempdir wb) nb),
    (da ++ [na]), (da ++ [nb]).
  split_and!; [reflexivity|reflexivity| |exact Hfa|exact Htra|exact Hfb|exact Htrb].
  rewrite Htmp. intros Heq%os_path_join_inj. by apply Hn.
Qed.

Lemma compose_again float_repr c s1 s2 n b o t p gf gt lf lt
    dual vocal inst single audio t0 t1 wa wb c1 c2 wa' wb' :
  compose (base_cmd float_repr c s1 s2 n b o t p) gf gt lf lt
    (audio_prompt_args float_repr dual vocal inst single audio t0 t1) wa
  = (Ok c1, wa') →
  compose (base_cmd float_repr c s1 s2 n b o t p) gf gt lf lt
    (audio_prompt_args float_repr dual vocal inst single audio t0 t1) wb
  = (Ok c2, wb') →
  tempdir wb = tempdir wa → cwd wb = cwd wa → fs_kept wa' wb →
  (staged gf gt = true → staged_afresh "--genre_txt" wa wa' wb wb' c1 c2)
  ∧ (staged lf lt = true → staged_afresh "--lyrics_txt" wa wa' wb wb' c1 c2)
  ∧ (staged gf gt = true ∨ staged lf lt = true → c1 ≠ c2).
Proof.
  intros H1 H2 Htmp Hcwd Hkept.
  apply compose_items in H1 as (ga & la & wa1 & Hga & Hla & Hra & Hfa).
  apply compose_items in H2 as (gb & lb & wb1 & Hgb & Hlb & Hrb & Hfb).
  destruct (text_outcome_surroundings _ _ _ _ _ _ Hga) as [Hta Hca].
  destruct (text_outcome_surroundings _ _ _ _ _ _ Hgb) as [Htb Hcb].
  pose proof (text_outcome_staged _ _ _ _ _ _ Hla) as (sla & Htla & _).
  pose proof (text_outcome_staged _ _ _ _ _ _ Hlb) as (slb & Htlb & _).
  pose proof (text_outcome_staged _ _ _ _ _ _ Hga) as (sga & Htga & _).
  pose proof (text_outcome_staged _ _ _ _ _ _ Hgb) as (sgb & Htgb & _).
  assert (staged gf gt = true → staged_afresh "--genre_txt" wa wa' wb wb' c1 c2)
    as Hgenre.
  { intros Sg.
    destruct (staged_values_differ _ _ _ _ _ _ _ _ _ Hga Hgb Sg Htmp Hcwd)
      as (pa & pb & ka & kb & -> & -> & Hne & Hfa' & Htra & Hfb' & Htrb).
    { intros k x Hk. apply Hkept. by eapply text_outcome_keeps. }
    exists pa, pb, ka, kb. split_and!; [| |exact Hne|exact Hfa'| |exact Hfb'|].
    - unfold has_pair. rewrite Hra, !elem_of_app. right; left. apply list_elem_of_here.
    - unfold has_pair. rewrite Hrb, !elem_of_app. right; left. apply list_elem_of_here.
    - rewrite Htla, Htra, !elem_of_app. left; right. apply list_elem_of_here.
    - rewrite Htlb, Htrb, !elem_of_app. left; right. apply list_elem_of_here. }
  assert (staged lf lt = true → staged_afresh "--lyrics_txt" wa wa' wb wb' c1 c2)
    as Hlyrics.
  { intros Sl.
    destruct (staged_values_differ _ _ _ _ _ _ _ _ _ Hla Hlb Sl)
      as (pa & pb & ka & kb & -> & -> & Hne & Hfa' & Htra & Hfb' & Htrb).
    { congruence. }
    { congruence. }
    { intros k x Hk. eapply text_outcome_keeps; [exact Hgb|]. by apply Hkept. }
    exists pa, pb, ka, kb. split_and!; [| |exact Hne| | | |].
    - unfold has_pair. rewrite Hra, !elem_of_app. do 2 right; left.
      apply list_elem_of_here.
    - unfold has_pair. rewrite Hrb, !elem_of_app. do 2 right; left.
      apply list_elem_of_here.
    - destruct (node_at (fs wa) ka) as [x|] eqn:E; [|reflexivity].
      by rewrite (text_outcome_keeps _ _ _ _ _ _ _ _ Hga E) in Hfa'.
    - rewrite Htra, elem_of_app. right. apply list_elem_of_here.
    - destruct (node_at (fs wb) kb) as [x|] eqn:E; [|reflexivity].
      by rewrite (text_outcome_keeps _ _ _ _ _ _ _ _ Hgb E) in Hfb'.
    - rewrite Htrb, elem_of_app. right. apply list_elem_of_here. }
  split_and!; [exact Hgenre|exact Hlyrics|].
  intros Hst Heq. subst c2.
  assert (NoDup (read_args c1).*1) as Hnd by (rewrite Hfa; apply cmd_flags_NoDup).
  destruct Hst as [Sg|Sl].
  - destruct (Hgenre Sg) as (pa & pb & _ & _ & Hpa & Hpb & Hne & _).
    apply Hne. injection (pair_unique _ _ _ _ Hnd Hpa Hpb) as ->. reflexivity.
  - destruct (Hlyrics Sl) as (pa & pb & _ & _ & Hpa & Hpb & Hne & _).
    apply Hne. injection (pair_unique _ _ _ _ Hnd Hpa Hpb) as ->. reflexivity.
Qed.

(** C7, as the code has it. Two commands built from the same request (in
    whatever surroundings) have the same flags in the same order and the
    same value for every flag, except for the value of [--genre_txt] and
    [--lyrics_txt] where the field is staged from free text. With nothing
    to stage the two commands are equal. Where a field is staged, its
    value is in each command the name of a temporary file that was not
    there before and that this composition created; and when the second
    composition is made with what the first one left still there (as it
    is right after it), the two names differ, so the two commands
    differ. *)
Theorem composition_up_to_staging (environ : gmap string string)
    (float_repr : float → string) :
  (∀ (r : api_server.InferenceRequest) (wa wb : World) c1 c2 wa' wb',
     api_server.build_cmd environ float_repr r wa = (Ok c1, wa') →
     api_server.build_cmd environ float_repr r wb = (Ok c2, wb') →
     same_but_staged
       (staged (api_server.genre_file r) (api_server.genre_txt r))
       (staged (api_server.lyrics_file r) (api_server.lyrics_txt r)) c1 c2
     ∧ (staged (api_server.genre_file r) (api_server.genre_txt r) = false →
        staged (api_server.lyrics_file r) (api_server.lyrics_txt r) = false →
        c1 = c2)
     ∧ (tempdir wb = tempdir wa → cwd wb = cwd wa → fs_kept wa' wb →
        (staged (api_server.genre_file r) (api_server.genre_txt r) = true →
         staged_afresh "--genre_txt" wa wa' wb wb' c1 c2)
        ∧ (staged (api_server.lyrics_file r) (api_server.lyrics_txt r) = true →
           staged_afresh "--lyrics_txt" wa wa' wb wb' c1 c2)
        ∧ (staged (api_server.genre_file r) (api_server.genre_txt r) = true
           ∨ staged (api_server.lyrics_file r) (api_server.lyrics_txt r) = true →
           c1 ≠ c2)))
  ∧ (∀ (a : gradio_ui.params) (wa wb : World) c1 c2 wa' wb',
       gradio_ui.build_cmd environ float_repr a wa = (Ok c1, wa') →
       gradio_ui.build_cmd environ float_repr a wb = (Ok c2, wb') →
       same_but_staged
         (staged None (Some (gradio_ui.genre_txt a)))
         (staged None (Some (gradio_ui.lyrics_txt a))) c1 c2
       ∧ (gradio_ui.genre_txt a = "" → gradio_ui.lyrics_txt a = "" → c1 = c2)
       ∧ (tempdir wb = tempdir wa → cwd wb = cwd wa → fs_kept wa' wb →
          (gradio_ui.genre_txt a ≠ "" →
           staged_afresh "--genre_txt" wa wa' wb wb' c1 c2)
          ∧ (gradio_ui.lyrics_txt a ≠ "" →
             staged_afresh "--lyrics_txt" wa wa' wb wb' c1 c2)
          ∧ (gradio_ui.genre_txt a ≠ "" ∨ gradio_ui.lyrics_txt a ≠ "" →
             c1 ≠ c2))).
Proof.
  split.
  - intros r wa wb c1 c2 wa' wb'. rewrite api_build_cmd_compose.
    intros H1 H2.
    destruct (compose_twice _ _ _ _ _ _ _ _ _ _ _ _ _ _ _ _ _ _ _ _
                _ _ _ _ _ _ H1 H2) as [Hs He].
    split_and!; [exact Hs|exact He|].
    intros Htmp Hcwd Hkept.
    exact (compose_again _ _ _ _ _ _ _ _ _ _ _ _ _ _ _ _ _ _ _ _
             _ _ _ _ _ _ H1 H2 Htmp Hcwd Hkept).
  - intros a wa wb c1 c2 wa' wb'. rewrite ui_build_cmd_compose.
    intros H1 H2.
    destruct (compose_twice _ _ _ _ _ _ _ _ _ _ _ _ _ _ _ _ _ _ _ _
                _ _ _ _ _ _ H1 H2) as [Hs He].
    split_and!; [exact Hs| |].
    + intros Hg Hl. apply He; [by rewrite Hg|by rewrite Hl].
    + intros Htmp Hcwd Hkept.
      destruct (compose_again _ _ _ _ _ _ _ _ _ _ _ _ _ _ _ _ _ _ _ _
                  _ _ _ _ _ _ H1 H2 Htmp Hcwd Hkept) as (Hg & Hl & Hne).
      assert (∀ s, s ≠ "" → staged None (Some s) = true) as Hst.
      { intros s Hs'. unfold staged. cbn [truthy negb andb].
        apply negb_true_iff, String.eqb_neq, Hs'. }
      split_and!.
      * intros Hx. apply Hg, Hst, Hx.
      * intros Hx. apply Hl, Hst, Hx.
      * intros [Hx|Hx]; apply Hne; [left|right]; apply Hst, Hx.
Qed.

Lemma composition_up_to_staging_witness :
  same_but_staged true false
    [ "python"; "/app/inference/infer.py"; "--cuda_idx"; "0";
      "--stage1_model"; "m-a-p/YuE-s1-7B-anneal-en-icl";
      "--stage2_model"; "m-a-p/YuE-s2-1B-general";
      "--run_n_segments"; "2"; "--stage2_batch_size"; "4";
      "--output_dir"; "/app/output"; "--max_new_tokens"; "3000";
      "--repetition_penalty"; "1.1"; "--genre_txt"; "/tmp/tmpaaaaaaaa.txt" ]
    [ "python"; "/app/inference/infer.py"; "--cuda_idx"; "0";
      "--stage1_model"; "m-a-p/YuE-s1-7B-anneal-en-icl";
      "--stage2_model"; "m-a-p/YuE-s2-1B-general";
      "--run_n_segments"; "2"; "--stage2_batch_size"; "4";
      "--output_dir"; "/app/output"; "--max_new_tokens"; "3000";
      "--repetition_penalty"; "1.1"; "--genre_txt"; "/tmp/tmpbbbbbbbb.txt" ]
  ∧ staged_afresh "--genre_txt" world_rep
      (api_server.build_cmd ∅ sample_repr pop_request world_rep).2
      (api_server.build_cmd ∅ sample_repr pop_request world_rep).2
      (api_server.build_cmd ∅ sample_repr pop_request
         (api_server.build_cmd ∅ sample_repr pop_request world_rep).2).2
      [ "python"; "/app/inference/infer.py"; "--cuda_idx"; "0";
        "--stage1_model"; "m-a-p/YuE-s1-7B-anneal-en-icl";
        "--stage2_model"; "m-a-p/YuE-s2-1B-general";
        "--run_n_segments"; "2"; "--stage2_batch_size"; "4";
        "--output_dir"; "/app/output"; "--max_new_tokens"; "3000";
        "--repetition_penalty"; "1.1"; "--genre_txt"; "/tmp/tmpaaaaaaaa.txt" ]
      [ "python"; "/app/inference/infer.py"; "--cuda_idx"; "0";
        "--stage1_model"; "m-a-p/YuE-s1-7B-anneal-en-icl";
        "--stage2_model"; "m-a-p/YuE-s2-1B-general";
        "--run_n_segments"; "2"; "--stage2_batch_size"; "4";
        "--output_dir"; "/app/output"; "--max_new_tokens"; "3000";
        "--repetition_penalty"; "1.1"; "--genre_txt"; "/tmp/tmpbbbbbbbb.txt" ].
Proof.
  pose proof (proj1 (composition_up_to_staging ∅ sample_repr) pop_request
                world_rep
                (api_server.build_cmd ∅ sample_repr pop_request world_rep).2
                _ _ _ _ eq_refl eq_refl) as (Hsame & _ & Hfresh).
  split; [exact Hsame|].
  exact (proj1 (Hfresh eq_refl eq_refl (λ k n H, H)) eq_refl).
Defined.

(** Against C7 as stated: the same request composed twice, one call after
    the other; the temporary file of the first call is still there, so the
    second call names another one and the two argument lists differ. *)
Lemma composition_not_repeatable :
  (api_server.build_cmd ∅ sample_repr pop_request world_rep).1
  = Ok [ "python"; "/app/inference/infer.py"; "--cuda_idx"; "0";
         "--stage1_model"; "m-a-p/YuE-s1-7B-anneal-en-icl";
         "--stage2_model"; "m-a-p/YuE-s2-1B-general";
         "--run_n_segments"; "2"; "--stage2_batch_size"; "4";
         "--output_dir"; "/app/output"; "--max_new_tokens"; "3000";
         "--repetition_penalty"; "1.1"; "--genre_txt"; "/tmp/tmpaaaaaaaa.txt" ]
  ∧ (api_server.build_cmd ∅ sample_repr pop_request
       (api_server.build_cmd ∅ sample_repr pop_request world_rep).2).1
    = Ok [ "python"; "/app/inference/infer.py"; "--cuda_idx"; "0";
           "--stage1_model"; "m-a-p/YuE-s1-7B-anneal-en-icl";
           "--stage2_model"; "m-a-p/YuE-s2-1B-general";
           "--run_n_segments"; "2"; "--stage2_batch_size"; "4";
           "--output_dir"; "/app/output"; "--max_new_tokens"; "3000";
           "--repetition_penalty"; "1.1"; "--genre_txt"; "/tmp/tmpbbbbbbbb.txt" ]
  ∧ (api_server.build_cmd ∅ sample_repr pop_request world_rep).1
    ≠ (api_server.build_cmd ∅ sample_repr pop_request
         (api_server.build_cmd ∅ sample_repr pop_request world_rep).2).1.
Proof.
  assert ((api_server.build_cmd ∅ sample_repr pop_request world_rep).1
          = Ok [ "python"; "/app/inference/infer.py"; "--cuda_idx"; "0";
                 "--stage1_model"; "m-a-p/YuE-s1-7B-anneal-en-icl";
                 "--stage2_model"; "m-a-p/YuE-s2-1B-general";
                 "--run_n_segments"; "2"; "--stage2_batch_size"; "4";
                 "--output_dir"; "/app/output"; "--max_new_tokens"; "3000";
                 "--repetition_penalty"; "1.1";
                 "--genre_txt"; "/tmp/tmpaaaaaaaa.txt" ]) as H1
    by (vm_compute; reflexivity).
  assert ((api_server.build_cmd ∅ sample_repr pop_request
             (api_server.build_cmd ∅ sample_repr pop_request world_rep).2).1
          = Ok [ "python"; "/app/inference/infer.py"; "--cuda_idx"; "0";
                 "--stage1_model"; "m-a-p/YuE-s1-7B-anneal-en-icl";
                 "--stage2_model"; "m-a-p/YuE-s2-1B-general";
                 "--run_n_segments"; "2"; "--stage2_batch_size"; "4";
                 "--output_dir"; "/app/output"; "--max_new_tokens"; "3000";
                 "--repetition_penalty"; "1.1";
                 "--genre_txt"; "/tmp/tmpbbbbbbbb.txt" ]) as H2
    by (vm_compute; reflexivity).
  split_and!; [exact H1|exact H2|].
  rewrite H1, H2. intros H. discriminate H.
Qed.

(** ** C8 *)

Lemma generate_music_ok environ float_repr r w cmd w' :
  api_server.build_cmd environ float_repr r w = (Ok cmd, w') →
  ∃ d, api_server.generate_music environ float_repr r w = (Ok (api_server.Json d), w')
       ∧ d !! "status" = Some "accepted"
       ∧ d !! "output_dir" = Some (OUTPUT_DIR environ).
Proof.
  intros H. unfold api_server.generate_music, try_except, bind, ret.
  rewrite H. eexists. split_and!; [reflexivity|apply lookup_insert_eq|].
  rewrite lookup_insert_ne by discriminate.
  rewrite lookup_insert_ne by discriminate.
  apply lookup_insert_eq.
Qed.

Lemma fastapi_ok handler w d w' :
  handler w = (Ok (api_server.Json d), w') →
  api_server.fastapi handler w = (api_server.mkHttp 200 (api_server.JsonBody d), w').
Proof. intros H. unfold api_server.fastapi. by rewrite H. Qed.

Lemma compose_numbers float_repr c s1 s2 n b o t p gf gt lf lt prompt w cmd w' :
  compose (base_cmd float_repr c s1 s2 n b o t p) gf gt lf lt prompt w
  = (Ok cmd, w') →
  has_pair "--run_n_segments" (str_int n) cmd
  ∧ has_pair "--stage2_batch_size" (str_int b) cmd
  ∧ has_pair "--max_new_tokens" (str_int t) cmd
  ∧ has_pair "--repetition_penalty" (str_num float_repr p) cmd.
Proof.
  intros (g & l & w1 & _ & _ & Hr)%compose_read; [|apply closed_base].
  unfold has_pair. rewrite Hr, read_base.
  split_and!; apply elem_of_app; left; is_in.
Qed.

(** C8, as the code has it. The model declares types and defaults and no
    validator: fields of the declared types always make a request, with
    the defaults for what is left out, and whatever the numbers are the
    endpoint accepts the request (where the temporary directory is ready)
    and the command carries them as they are. *)
Theorem fields_taken_as_given (environ : gmap string string)
    (float_repr : float → string) (raw : api_server.fields) (w : World) :
  (tmp_ready w = true →
   ∃ d w',
     api_server.fastapi
       (api_server.generate_music environ float_repr
          (api_server.InferenceRequest_init raw)) w
     = (api_server.mkHttp 200 (api_server.JsonBody d), w')
     ∧ d !! "status" = Some "accepted")
  ∧ ∀ cmd w',
      api_server.build_cmd environ float_repr
        (api_server.InferenceRequest_init raw) w = (Ok cmd, w') →
      has_pair "--run_n_segments"
        (str_int (default 2 (api_server.f_run_n_segments raw))) cmd
      ∧ has_pair "--stage2_batch_size"
          (str_int (default 4 (api_server.f_stage2_batch_size raw))) cmd
      ∧ has_pair "--max_new_tokens"
          (str_int (default 3000 (api_server.f_max_new_tokens raw))) cmd
      ∧ has_pair "--repetition_penalty"
          (str_num float_repr
             (api_server.supplied (PyFloat 0x1.199999999999ap+0)
                (api_server.f_repetition_penalty raw))) cmd
      ∧ (default false (api_server.f_use_dual_tracks_prompt raw) = true
         ∨ default false (api_server.f_use_audio_prompt raw) = true →
         has_pair "--prompt_start_time"
           (str_num float_repr
              (api_server.supplied (PyInt 0) (api_server.f_prompt_start_time raw)))
           cmd
         ∧ has_pair "--prompt_end_time"
             (str_num float_repr
                (api_server.supplied (PyInt 30) (api_server.f_prompt_end_time raw)))
             cmd).
Proof.
  split.
  - intros Hr.
    destruct (compose_total
                (base_cmd float_repr (CUDA_IDX environ) (STAGE1_MODEL environ)
                   (STAGE2_MODEL environ)
                   (api_server.run_n_segments (api_server.InferenceRequest_init raw))
                   (api_server.stage2_batch_size (api_server.InferenceRequest_init raw))
                   (OUTPUT_DIR environ)
                   (api_server.max_new_tokens (api_server.InferenceRequest_init raw))
                   (api_server.repetition_penalty (api_server.InferenceRequest_init raw)))
                (api_server.genre_file (api_server.InferenceRequest_init raw))
                (api_server.genre_txt (api_server.InferenceRequest_init raw))
                (api_server.lyrics_file (api_server.InferenceRequest_init raw))
                (api_server.lyrics_txt (api_server.InferenceRequest_init raw))
                (audio_prompt_args float_repr
                   (api_server.use_dual_tracks_prompt (api_server.InferenceRequest_init raw))
                   (api_server.vocal_track_prompt_path (api_server.InferenceRequest_init raw))
                   (api_server.instrumental_track_prompt_path (api_server.InferenceRequest_init raw))
                   (api_server.use_audio_prompt (api_server.InferenceRequest_init raw))
                   (api_server.audio_prompt_path (api_server.InferenceRequest_init raw))
                   (Some (api_server.prompt_start_time (api_server.InferenceRequest_init raw)))
                   (Some (api_server.prompt_end_time (api_server.InferenceRequest_init raw))))
                w Hr) as (cmd & w' & Hb).
    rewrite <- api_build_cmd_compose in Hb.
    destruct (generate_music_ok _ _ _ _ _ _ Hb) as (d & Hg & Hs & _).
    exists d, w'. split; [by apply fastapi_ok|exact Hs].
  - intros cmd w' Hb. rewrite api_build_cmd_compose in Hb.
    destruct (compose_numbers _ _ _ _ _ _ _ _ _ _ _ _ _ _ _ _ _ Hb)
      as (H1 & H2 & H3 & H4).
    split_and!; [exact H1|exact H2|exact H3|exact H4|].
    apply compose_prompt in Hb as [Hd Hs].
    cbn [api_server.use_dual_tracks_prompt api_server.use_audio_prompt
         api_server.InferenceRequest_init] in Hd, Hs.
    destruct (default false (api_server.f_use_dual_tracks_prompt raw)).
    + intros _. destruct (Hd eq_refl) as (_ & _ & _ & _ & H0 & H1'). by split.
    + intros [Hc|Hc]; [discriminate Hc|].
      destruct (Hs eq_refl Hc) as (_ & _ & _ & _ & H0 & H1'). by split.
Qed.

(** Against C8 as stated: fields with segment count 0, batch size 0, token
    budget 0, repetition penalty 0.5, start time -1 and end time -2 break
    every bound, yet the endpoint answers 200 "accepted" and the command
    carries the numbers. *)
Lemma unbounded_fields_accepted :
  in_bounds unbounded_fields = false
  ∧ (∃ d, (api_server.fastapi
             (api_server.generate_music ∅ sample_repr
                (api_server.InferenceRequest_init unbounded_fields)) world0).1
          = api_server.mkHttp 200 (api_server.JsonBody d)
          ∧ d !! "status" = Some "accepted")
  ∧ (api_server.build_cmd ∅ sample_repr
       (api_server.InferenceRequest_init unbounded_fields) world0).1
    = Ok [ "python"; "/app/inference/infer.py"; "--cuda_idx"; "0";
           "--stage1_model"; "m-a-p/YuE-s1-7B-anneal-en-icl";
           "--stage2_model"; "m-a-p/YuE-s2-1B-general";
           "--run_n_segments"; "0"; "--stage2_batch_size"; "0";
           "--output_dir"; "/app/output"; "--max_new_tokens"; "0";
           "--repetition_penalty"; "0.5"; "--use_audio_prompt";
           "--prompt_start_time"; "-1.0"; "--prompt_end_time"; "-2.0" ].
Proof.
  split_and!.
  - vm_compute. reflexivity.
  - eexists. split; vm_compute; reflexivity.
  - vm_compute. reflexivity.
Qed.

(** ** C9 *)

(** C9, what the code does. [generate_music] answers 200 with status
    "accepted" and the output directory as a hint (where the temporary
    directory is ready), but whatever the request it queues nothing on the
    background tasks and runs no child process: the work is not done. *)
Theorem generate_music_runs_nothing (environ : gmap string string)
    (float_repr : float → string) (r : api_server.InferenceRequest) (w : World) :
  tasks (api_server.generate_music environ float_repr r w).2 = tasks w
  ∧ (∀ cmd, Ran cmd ∈ trace (api_server.generate_music environ float_repr r w).2 →
            Ran cmd ∈ trace w)
  ∧ (tmp_ready w = true →
     ∃ d,
       (api_server.fastapi (api_server.generate_music environ float_repr r) w).1
       = api_server.mkHttp 200 (api_server.JsonBody d)
       ∧ d !! "status" = Some "accepted"
       ∧ d !! "output_dir" = Some (OUTPUT_DIR environ)).
Proof.
  rewrite generate_music_world, api_build_cmd_compose.
  destruct (only_staged_compose
              (base_cmd float_repr (CUDA_IDX environ) (STAGE1_MODEL environ)
                 (STAGE2_MODEL environ) (api_server.run_n_segments r)
                 (api_server.stage2_batch_size r) (OUTPUT_DIR environ)
                 (api_server.max_new_tokens r) (api_server.repetition_penalty r))
              (api_server.genre_file r) (api_server.genre_txt r)
              (api_server.lyrics_file r) (api_server.lyrics_txt r)
              (audio_prompt_args float_repr
                 (api_server.use_dual_tracks_prompt r)
                 (api_server.vocal_track_prompt_path r)
                 (api_server.instrumental_track_prompt_path r)
                 (api_server.use_audio_prompt r)
                 (api_server.audio_prompt_path r)
                 (Some (api_server.prompt_start_time r))
                 (Some (api_server.prompt_end_time r))) w)
    as (_ & Ht & Hr & _).
  split_and!; [exact Ht|exact Hr|].
  intros Hready.
  destruct (compose_total
              (base_cmd float_repr (CUDA_IDX environ) (STAGE1_MODEL environ)
                 (STAGE2_MODEL environ) (api_server.run_n_segments r)
                 (api_server.stage2_batch_size r) (OUTPUT_DIR environ)
                 (api_server.max_new_tokens r) (api_server.repetition_penalty r))
              (api_server.genre_file r) (api_server.genre_txt r)
              (api_server.lyrics_file r) (api_server.lyrics_txt r)
              (audio_prompt_args float_repr
                 (api_server.use_dual_tracks_prompt r)
                 (api_server.vocal_track_prompt_path r)
                 (api_server.instrumental_track_prompt_path r)
                 (api_server.use_audio_prompt r)
                 (api_server.audio_prompt_path r)
                 (Some (api_server.prompt_start_time r))
                 (Some (api_server.prompt_end_time r))) w Hready)
    as (cmd & w' & Hb).
  rewrite <- api_build_cmd_compose in Hb.
  destruct (generate_music_ok _ _ _ _ _ _ Hb) as (d & Hg & Hs & Ho).
  exists d. by rewrite (fastapi_ok _ _ _ _ Hg).
Qed.

(** The request of every default, in the fresh server: accepted, and
    nothing was run or queued. *)
Lemma default_request_runs_nothing :
  (∃ d,
     (api_server.fastapi
        (api_server.generate_music ∅ sample_repr
           (api_server.InferenceRequest_init
              (api_server.mkFields None None None None None None None None
                 None None None None None None None))) world0).1
     = api_server.mkHttp 200 (api_server.JsonBody d)
     ∧ d !! "status" = Some "accepted")
  ∧ trace (api_server.generate_music ∅ sample_repr
             (api_server.InferenceRequest_init
                (api_server.mkFields None None None None None None None None
                   None None None None None None None)) world0).2 = []
  ∧ tasks (api_server.generate_music ∅ sample_repr
             (api_server.InferenceRequest_init
                (api_server.mkFields None None None None None None None None
                   None None None None None None None)) world0).2 = [].
Proof.
  split_and!; [eexists; split|..]; vm_compute; reflexivity.
Qed.

(** ** C10 *)

Lemma resolve_app (f : fsmap) ps qs : ∀ cur,
  resolve f cur (ps ++ qs)
  = match resolve f cur ps with
    | Some c => resolve f c qs
    | None => None
    end.
Proof.
  induction ps as [|p ps IH]; intros cur; simpl; [reflexivity|].
  destruct (is_dir f cur); [|reflexivity].
  destruct (String.eqb p ".."); apply IH.
Qed.


Lemma split_slash_plain (s : string) : ∀ cur,
  existsb (Ascii.eqb "/"%char) (list_ascii_of_string s) = false →
  split_slash s cur = [cur +:+ s].
Proof.
  induction s as [|c s IH]; intros cur H; cbn [split_slash].
  - by rewrite append_nil_r.
  - cbn [list_ascii_of_string existsb] in H. apply orb_false_iff in H as [Hc Hs].
    rewrite Ascii.eqb_sym, Hc. rewrite (IH _ Hs), append_assoc. reflexivity.
Qed.

Lemma Path_of_plain (name : string) :
  plain_name name = true → Path_of name = mkPath "" [name].
Proof.
  unfold plain_name.
  intros [[Hs%negb_true_iff Hc]%andb_true_iff _]%andb_true_iff.
  unfold Path_of. rewrite (split_slash_plain _ _ Hs).
  change ("" +:+ name) with name.
  rewrite filter_cons_True, filter_nil by exact Hc.
  f_equal. destruct name as [|c name]; [reflexivity|].
  cbn [list_ascii_of_string existsb] in Hs. apply orb_false_iff in Hs as [Hc' _].
  rewrite Ascii.eqb_sym in Hc'. apply Ascii.eqb_neq in Hc'.
  unfold parse_root.
  destruct c as [[] [] [] [] [] [] [] []]; try reflexivity. by destruct Hc'.
Qed.

Lemma locate_plain_join (environ : gmap string string) (w : World)
    (d : list string) (name : string) :
  plain_name name = true →
  locate w (Path_of (OUTPUT_DIR environ)) = Some d →
  is_dir (fs w) d = true →
  locate w (Path_div (Path_of (OUTPUT_DIR environ)) name) = Some (d ++ [name]).
Proof.
  intros Hp Hloc Hd.
  unfold Path_div. rewrite (Path_of_plain _ Hp). cbn [root parts String.eqb].
  unfold locate in *. cbn [root parts].
  rewrite resolve_app, Hloc. cbn [resolve]. rewrite Hd.
  unfold plain_name in Hp. apply andb_true_iff in Hp as [_ Hp].
  apply negb_true_iff in Hp. by rewrite Hp.
Qed.

(** The answer of [get_output] follows [stat] of the joined path. *)
Lemma get_output_answer (environ : gmap string string) (filename : string)
    (w : World) :
  api_server.fastapi (api_server.get_output environ filename) w
  = (match stat w (Path_div (Path_of (OUTPUT_DIR environ)) filename) with
     | Some (File _ data) => api_server.mkHttp 200 (api_server.FileBody data)
     | Some _ => api_server.mkHttp 500 (api_server.TextBody "Internal Server Error")
     | None =>
         api_server.mkHttp 404
           (api_server.JsonBody (<["detail" := "File not found"]> ∅))
     end, w).
Proof.
  unfold api_server.fastapi, api_server.get_output, bind, Path_exists, ret, raise.
  destruct (stat w _) as [[t data|t|]|] eqn:Hs.
  - rewrite bool_decide_eq_true_2 by (by eexists). cbn [negb]. by rewrite Hs.
  - rewrite bool_decide_eq_true_2 by (by eexists). cbn [negb]. by rewrite Hs.
  - rewrite bool_decide_eq_true_2 by (by eexists). cbn [negb]. by rewrite Hs.
  - rewrite bool_decide_eq_false_2 by (intros [? H]; discriminate H).
    reflexivity.
Qed.


Lemma strip_prefix_Some (prefix : string) : ∀ s rest,
  api_server.strip_prefix prefix s = Some rest → s = prefix +:+ rest.
Proof.
  induction prefix as [|c prefix IH]; intros s rest.
  - destruct s; intros [= <-]; reflexivity.
  - destruct s as [|b s]; cbn [api_server.strip_prefix]; [intros [=]|].
    destruct (Ascii.eqb c b) eqn:E; [|intros [=]].
    apply Ascii.eqb_eq in E as ->. intros ->%IH. reflexivity.
Qed.

(** What the route hands to [get_output]: the rest of the path, which is
    ["."], [".."] or a plain name. *)
Lemma output_route_Some (path filename : string) :
  api_server.output_route path = Some filename →
  path = "/api/output/" +:+ filename
  ∧ (filename = "." ∨ filename = ".." ∨ plain_name filename = true).
Proof.
  unfold api_server.output_route.
  destruct (api_server.strip_prefix "/api/output/" path) as [rest|] eqn:Hs;
    [|intros [=]].
  apply strip_prefix_Some in Hs.
  destruct (negb (String.eqb rest "")) eqn:He; [|intros [=]].
  destruct (negb (existsb _ _)) eqn:Hn; [|intros [=]].
  intros [= <-]. split; [exact Hs|].
  unfold plain_name, component. rewrite Hn, He. cbn [andb].
  destruct (String.eqb rest ".") eqn:E1; [left; by apply String.eqb_eq|].
  destruct (String.eqb rest "..") eqn:E2; [right; left; by apply String.eqb_eq|].
  by do 2 right.
Qed.



(** The names ["."] and [".."] lead to the output directory and to its
    parent, both directories. *)
Lemma get_output_dot (environ : gmap string string) (w : World) (d : list string) :
  locate w (Path_of (OUTPUT_DIR environ)) = Some d →
  is_dir (fs w) d = true →
  api_server.fastapi (api_server.get_output environ ".") w
  = (api_server.mkHttp 500 (api_server.TextBody "Internal Server Error"), w).
Proof.
  intros Hloc Hd. rewrite get_output_answer.
  assert (Path_div (Path_of (OUTPUT_DIR environ)) "." = Path_of (OUTPUT_DIR environ))
    as ->.
  { change (Path_div (Path_of (OUTPUT_DIR environ)) ".")
      with (mkPath (root (Path_of (OUTPUT_DIR environ)))
              (parts (Path_of (OUTPUT_DIR environ)) ++ [])).
    rewrite app_nil_r. by destruct (Path_of (OUTPUT_DIR environ)). }
  unfold stat. rewrite Hloc. unfold is_dir in Hd.
  by destruct (node_at (fs w) d) as [[| |]|].
Qed.

Lemma get_output_dotdot (environ : gmap string string) (w : World) (d : list string) :
  locate w (Path_of (OUTPUT_DIR environ)) = Some d →
  is_dir (fs w) d = true →
  is_dir (fs w) (removelast d) = true →
  locate w (Path_div (Path_of (OUTPUT_DIR environ)) "..") = Some (removelast d)
  ∧ api_server.fastapi (api_server.get_output environ "..") w
    = (api_server.mkHttp 500 (api_server.TextBody "Internal Server Error"), w).
Proof.
  intros Hloc Hd Hp.
  assert (locate w (Path_div (Path_of (OUTPUT_DIR environ)) "..")
          = Some (removelast d)) as Hjoin.
  { change (Path_div (Path_of (OUTPUT_DIR environ)) "..")
      with (mkPath (root (Path_of (OUTPUT_DIR environ)))
              (parts (Path_of (OUTPUT_DIR environ)) ++ [".."])).
    unfold locate in *. cbn [root parts].
    rewrite resolve_app, Hloc. cbn [resolve]. by rewrite Hd. }
  split; [exact Hjoin|].
  rewrite get_output_answer. unfold stat. rewrite Hjoin. unfold is_dir in Hp.
  by destruct (node_at (fs w) (removelast d)) as [[| |]|].
Qed.




(** ** Examples of the confirmed statements *)

Lemma prompt_modes_exclusive_witness :
  exclusive_modes true true
    [ "python"; "/app/inference/infer.py"; "--cuda_idx"; "0";
      "--stage1_model"; "m-a-p/YuE-s1-7B-anneal-en-icl";
      "--stage2_model"; "m-a-p/YuE-s2-1B-general";
      "--run_n_segments"; "2"; "--stage2_batch_size"; "4";
      "--output_dir"; "/app/output"; "--max_new_tokens"; "3000";
      "--repetition_penalty"; "1.1"; "--use_dual_tracks_prompt";
      "--vocal_track_prompt_path"; "/a.wav";
      "--prompt_start_time"; "0"; "--prompt_end_time"; "30" ].
Proof.
  exact (proj2 (proj1 (prompt_modes_exclusive ∅ sample_repr)
                  both_modes_request world0) _ world0 eq_refl).
Defined.

Lemma text_fields_rule_witness :
  ∃ genre_staged lyrics_staged,
    trace (api_server.build_cmd ∅ sample_repr pop_request world0).2
    = trace world0 ++ genre_staged ++ lyrics_staged
    ∧ field_rule "--genre_txt" None (Some "pop")
        [ "python"; "/app/inference/infer.py"; "--cuda_idx"; "0";
          "--stage1_model"; "m-a-p/YuE-s1-7B-anneal-en-icl";
          "--stage2_model"; "m-a-p/YuE-s2-1B-general";
          "--run_n_segments"; "2"; "--stage2_batch_size"; "4";
          "--output_dir"; "/app/output"; "--max_new_tokens"; "3000";
          "--repetition_penalty"; "1.1"; "--genre_txt"; "/tmp/tmpaaaaaaaa.txt" ]
        (api_server.build_cmd ∅ sample_repr pop_request world0).2 genre_staged
    ∧ field_rule "--lyrics_txt" None None
        [ "python"; "/app/inference/infer.py"; "--cuda_idx"; "0";
          "--stage1_model"; "m-a-p/YuE-s1-7B-anneal-en-icl";
          "--stage2_model"; "m-a-p/YuE-s2-1B-general";
          "--run_n_segments"; "2"; "--stage2_batch_size"; "4";
          "--output_dir"; "/app/output"; "--max_new_tokens"; "3000";
          "--repetition_penalty"; "1.1"; "--genre_txt"; "/tmp/tmpaaaaaaaa.txt" ]
        (api_server.build_cmd ∅ sample_repr pop_request world0).2 lyrics_staged.
Proof.
  exact (proj2 (text_fields_rule ∅ sample_repr pop_request world0) _ _ eq_refl).
Defined.

Lemma fields_taken_as_given_witness :
  ∃ d w',
    api_server.fastapi
      (api_server.generate_music ∅ sample_repr
         (api_server.InferenceRequest_init unbounded_fields)) world0
    = (api_server.mkHttp 200 (api_server.JsonBody d), w')
    ∧ d !! "status" = Some "accepted".
Proof.
  exact (proj1 (fields_taken_as_given ∅ sample_repr unbounded_fields world0) eq_refl).
Defined.

Lemma tmp_ready_world0 : tmp_ready world0 = true.
Proof. reflexivity. Qed.

(** * Further properties of the handlers *)

(** ** The order of the flags *)

(** X1. The arguments at flag position of a built command come in one
    fixed order (the program and script, the eight fixed flags, genre,
    lyrics, the mode flag, its paths, the two times), each present or
    absent by its own condition, and no flag occurs twice. *)
Theorem flags_in_fixed_order (environ : gmap string string)
    (float_repr : float → string) :
  (∀ (r : api_server.InferenceRequest) (w : World) cmd w',
     api_server.build_cmd environ float_repr r w = (Ok cmd, w') →
     (read_args cmd).*1
     = cmd_flags
         (truthy (api_server.genre_file r) || truthy (api_server.genre_txt r))
         (truthy (api_server.lyrics_file r) || truthy (api_server.lyrics_txt r))
         (api_server.use_dual_tracks_prompt r)
         (truthy (api_server.vocal_track_prompt_path r))
         (truthy (api_server.instrumental_track_prompt_path r))
         (api_server.use_audio_prompt r)
         (truthy (api_server.audio_prompt_path r)) true true
     ∧ NoDup (read_args cmd).*1)
  ∧ (∀ (a : gradio_ui.params) (w : World) cmd w',
       gradio_ui.build_cmd environ float_repr a w = (Ok cmd, w') →
       (read_args cmd).*1
       = cmd_flags
           (negb (String.eqb (gradio_ui.genre_txt a) ""))
           (negb (String.eqb (gradio_ui.lyrics_txt a) ""))
           (gradio_ui.use_dual_tracks_prompt a)
           (truthy (gradio_ui.vocal_track_prompt_path a))
           (truthy (gradio_ui.instrumental_track_prompt_path a))
           (gradio_ui.use_audio_prompt a)
           (truthy (gradio_ui.audio_prompt_path a))
           (has_time (gradio_ui.prompt_start_time a))
           (has_time (gradio_ui.prompt_end_time a))
       ∧ NoDup (read_args cmd).*1).
Proof.
  split.
  - intros r w cmd w'. rewrite api_build_cmd_compose.
    intros (g & l & w1 & _ & _ & _ & Hf)%compose_items.
    split; [exact Hf|]. rewrite Hf. apply cmd_flags_NoDup.
  - intros a w cmd w'. rewrite ui_build_cmd_compose.
    intros (g & l & w1 & _ & _ & _ & Hf)%compose_items.
    split; [exact Hf|]. rewrite Hf. apply cmd_flags_NoDup.
Qed.

Lemma flags_in_fixed_order_witness :
  NoDup (read_args
           [ "python"; "/app/inference/infer.py"; "--cuda_idx"; "0";
             "--stage1_model"; "m-a-p/YuE-s1-7B-anneal-en-icl";
             "--stage2_model"; "m-a-p/YuE-s2-1B-general";
             "--run_n_segments"; "2"; "--stage2_batch_size"; "4";
             "--output_dir"; "/app/output"; "--max_new_tokens"; "3000";
             "--repetition_penalty"; "1.1"; "--genre_txt"; "/tmp/tmpaaaaaaaa.txt" ]).*1.
Proof.
  exact (proj2 (proj1 (flags_in_fixed_order ∅ sample_repr) pop_request world0
                  _ _ eq_refl)).
Defined.

(** ** No mode, no prompt argument *)

Lemma compose_no_mode float_repr c s1 s2 n b o t p gf gt lf lt
    vocal inst audio t0 t1 w cmd w' flag :
  compose (base_cmd float_repr c s1 s2 n b o t p) gf gt lf lt
    (audio_prompt_args float_repr false vocal inst false audio t0 t1) w
  = (Ok cmd, w') →
  flag ∈ prompt_flag_names → ¬ has_flag flag cmd.
Proof.
  intros (g & l & w1 & _ & _ & _ & Hf)%compose_items Hin.
  apply no_flag_mem. rewrite Hf.
  destruct (flag_table (truthy gf || truthy gt) (truthy lf || truthy lt)
              false (truthy vocal) (truthy inst) false (truthy audio)
              (has_time t0) (has_time t1))
    as (Hd & Hs & Hv & Hi & Ha & _ & _ & H0 & H1).
  cbn [andb orb negb] in Hs, Hv, Hi, Ha, H0, H1.
  unfold prompt_flag_names in Hin.
  apply elem_of_cons in Hin as [->|Hin]; [exact Hd|].
  apply elem_of_cons in Hin as [->|Hin]; [exact Hs|].
  apply elem_of_cons in Hin as [->|Hin]; [exact Hv|].
  apply elem_of_cons in Hin as [->|Hin]; [exact Hi|].
  apply elem_of_cons in Hin as [->|Hin]; [exact Ha|].
  apply elem_of_cons in Hin as [->|Hin]; [exact H0|].
  apply elem_of_cons in Hin as [->|Hin]; [exact H1|].
  by apply elem_of_nil in Hin.
Qed.

(** X2. With neither prompt mode asked for, a built command has none of
    the seven prompt flags: audio paths and times that were supplied all
    the same are left out without notice. *)
Theorem no_mode_no_prompt_flags (environ : gmap string string)
    (float_repr : float → string) :
  (∀ (r : api_server.InferenceRequest) (w : World) cmd w' flag,
     api_server.use_dual_tracks_prompt r = false →
     api_server.use_audio_prompt r = false →
     api_server.build_cmd environ float_repr r w = (Ok cmd, w') →
     flag ∈ prompt_flag_names → ¬ has_flag flag cmd)
  ∧ (∀ (a : gradio_ui.params) (w : World) cmd w' flag,
       gradio_ui.use_dual_tracks_prompt a = false →
       gradio_ui.use_audio_prompt a = false →
       gradio_ui.build_cmd environ float_repr a w = (Ok cmd, w') →
       flag ∈ prompt_flag_names → ¬ has_flag flag cmd).
Proof.
  split.
  - intros r w cmd w' flag Hd Hs. rewrite api_build_cmd_compose, Hd, Hs.
    apply compose_no_mode.
  - intros a w cmd w' flag Hd Hs. rewrite ui_build_cmd_compose, Hd, Hs.
    apply compose_no_mode.
Qed.

Lemma no_mode_no_prompt_flags_witness :
  ¬ has_flag "--vocal_track_prompt_path"
      [ "python"; "/app/inference/infer.py"; "--cuda_idx"; "0";
        "--stage1_model"; "m-a-p/YuE-s1-7B-anneal-en-icl";
        "--stage2_model"; "m-a-p/YuE-s2-1B-general";
        "--run_n_segments"; "2"; "--stage2_batch_size"; "4";
        "--output_dir"; "/app/output"; "--max_new_tokens"; "3000";
        "--repetition_penalty"; "1.1" ].
Proof.
  apply (proj1 (no_mode_no_prompt_flags ∅ sample_repr) stray_paths_request world0
           _ world0 _ eq_refl eq_refl eq_refl).
  unfold prompt_flag_names. is_in.
Defined.

(** ** Two staged texts, two files *)

Lemma compose_both_staged base gf gt lf lt prompt w cmd w' :
  compose base gf gt lf lt prompt w = (Ok cmd, w') →
  staged gf gt = true → staged lf lt = true →
  ∃ p1 p2 k1 k2 t1 t2,
    cmd = ((base ++ ["--genre_txt"; p1]) ++ ["--lyrics_txt"; p2]) ++ prompt
    ∧ p1 ≠ p2 ∧ k1 ≠ k2
    ∧ trace w' = trace w ++ [Created p1 k1; Created p2 k2]
    ∧ node_at (fs w') k1 = Some (File t1 (default "" gt))
    ∧ node_at (fs w') k2 = Some (File t2 (default "" lt)).
Proof.
  unfold staged. intros (g & l & w1 & Hg & Hl & ->)%compose_ok Sg Sl.
  apply andb_true_iff in Sg as [Sg1 Sg2]. apply negb_true_iff in Sg1.
  apply andb_true_iff in Sl as [Sl1 Sl2]. apply negb_true_iff in Sl1.
  destruct Hg as [(Hc & _)|[(_ & _ & p1 & -> & H1)|(_ & Hc & _)]];
    [congruence| |congruence].
  destruct Hl as [(Hc & _)|[(_ & _ & p2 & -> & H2)|(_ & Hc & _)]];
    [congruence| |congruence].
  apply NamedTemporaryFile_write_ok in H1
    as (d1 & n1 & Hl1 & Hfree1 & -> & Hf1 & Htr1 & _ & Hcwd1 & Htmp1 & _ & _).
  apply NamedTemporaryFile_write_ok in H2
    as (d2 & n2 & Hl2 & Hfree2 & -> & Hf2 & Htr2 & _).
  assert (d2 = d1) as ->.
  { unfold locate in Hl1, Hl2. rewrite Htmp1, Hcwd1, Hf1 in Hl2.
    rewrite resolve_snoc_file in Hl2 by assumption. congruence. }
  assert (d1 ++ [n1] ≠ d1 ++ [n2]) as Hk.
  { intros Heq. rewrite Hf1, <- Heq, node_at_snoc_new in Hfree2 by assumption.
    discriminate Hfree2. }
  exists (os_path_join (tempdir w) n1), (os_path_join (tempdir w1) n2),
    (d1 ++ [n1]), (d1 ++ [n2]), (now w), (now w1).
  split_and!.
  - reflexivity.
  - rewrite Htmp1. intros Heq%os_path_join_inj. apply Hk. by rewrite Heq.
  - exact Hk.
  - rewrite Htr2, Htr1, <- app_assoc. reflexivity.
  - rewrite Hf2. apply node_at_snoc_old; [assumption|].
    rewrite Hf1. by apply node_at_snoc_new.
  - rewrite Hf2. by apply node_at_snoc_new.
Qed.

(** X3. When genre and lyrics are both staged from free text, the command
    names two different temporary files: two files were created, at
    different places, the one holds the genre text and the other the
    lyrics text, so the second staging never overwrites the first. *)
Theorem staged_files_distinct (environ : gmap string string)
    (float_repr : float → string) (r : api_server.InferenceRequest)
    (w : World) (cmd : list string) (w' : World) :
  api_server.build_cmd environ float_repr r w = (Ok cmd, w') →
  staged (api_server.genre_file r) (api_server.genre_txt r) = true →
  staged (api_server.lyrics_file r) (api_server.lyrics_txt r) = true →
  ∃ p1 p2 k1 k2 t1 t2,
    has_pair "--genre_txt" p1 cmd ∧ has_pair "--lyrics_txt" p2 cmd
    ∧ p1 ≠ p2 ∧ k1 ≠ k2
    ∧ trace w' = trace w ++ [Created p1 k1; Created p2 k2]
    ∧ node_at (fs w') k1 = Some (File t1 (default "" (api_server.genre_txt r)))
    ∧ node_at (fs w') k2 = Some (File t2 (default "" (api_server.lyrics_txt r))).
Proof.
  rewrite api_build_cmd_compose. intros Hb Sg Sl.
  destruct (compose_both_staged _ _ _ _ _ _ _ _ _ Hb Sg Sl)
    as (p1 & p2 & k1 & k2 & t1 & t2 & -> & Hp & Hk & Htr & H1 & H2).
  exists p1, p2, k1, k2, t1, t2.
  split_and!; [| |exact Hp|exact Hk|exact Htr|exact H1|exact H2].
  - unfold has_pair. rewrite <- !app_assoc, read_args_app by apply closed_base.
    apply elem_of_app. right. apply list_elem_of_here.
  - unfold has_pair. rewrite <- !app_assoc, read_args_app by apply closed_base.
    apply elem_of_app. right. apply list_elem_of_further, list_elem_of_here.
Qed.

Lemma staged_files_distinct_witness :
  ∃ p1 p2 k1 k2 t1 t2,
    has_pair "--genre_txt" p1
      (default [] (match (api_server.build_cmd ∅ sample_repr two_texts_request world0).1
                   with Ok c => Some c | Raise _ => None end))
    ∧ has_pair "--lyrics_txt" p2
        (default [] (match (api_server.build_cmd ∅ sample_repr two_texts_request world0).1
                     with Ok c => Some c | Raise _ => None end))
    ∧ p1 ≠ p2 ∧ k1 ≠ k2
    ∧ trace (api_server.build_cmd ∅ sample_repr two_texts_request world0).2
      = trace world0 ++ [Created p1 k1; Created p2 k2]
    ∧ node_at (fs (api_server.build_cmd ∅ sample_repr two_texts_request world0).2) k1
      = Some (File t1 "pop upbeat")
    ∧ node_at (fs (api_server.build_cmd ∅ sample_repr two_texts_request world0).2) k2
      = Some (File t2 "[verse] hello").
Proof.
  exact (staged_files_distinct ∅ sample_repr two_texts_request world0 _ _
           eq_refl eq_refl eq_refl).
Defined.

(** ** Failures of [run_inference] are status texts *)

(** X4. [run_inference] never raises: it always returns a pair. When
    staging a text raises, and when the child process cannot be started,
    it returns no artifact and the status ["Exception: "] followed by the
    message of the exception. *)
Theorem run_inference_never_raises (environ : gmap string string)
    (float_repr : float → string) (decode : list byte → res string)
    (child : program) (a : gradio_ui.params)
    (w : World) :
  (∃ artifact status,
     (gradio_ui.run_inference environ float_repr decode child a w).1
     = Ok (artifact, status))
  ∧ (∀ e w1,
       gradio_ui.build_cmd environ float_repr a w = (Raise e, w1) →
       gradio_ui.run_inference environ float_repr decode child a w
       = (Ok (None, "Exception: " +:+ str_exn e), w1))
  ∧ (∀ cmd w1 msg,
       gradio_ui.build_cmd environ float_repr a w = (Ok cmd, w1) →
       child cmd "/app" (fs w1) = LaunchFailed msg →
       gradio_ui.run_inference environ float_repr decode child a w
       = (Ok (None, "Exception: " +:+ msg), w1)).
Proof.
  rewrite run_inference_unfold.
  destruct (gradio_ui.build_cmd environ float_repr a w) as [[cmd|x] w1].
  - destruct (child cmd "/app" (fs w1)) as [msg|rc out err f2] eqn:Hc.
    + split_and!; [by eexists _, _|intros ? ? [=]|].
      intros ? ? ? [= <- <-]. rewrite Hc. by intros [= <-].
    + split_and!; [|intros ? ? [=]|intros ? ? ? [= <- <-]; rewrite Hc; intros [=]].
      destruct (text_of decode out) as [o|x]; [|by eexists _, _].
      destruct (text_of decode err) as [e|x]; [|by eexists _, _].
      destruct (negb _); [by eexists _, _|].
      destruct (gradio_ui.find_output _ _ _) as [[[artifact status]|x] w2];
        by eexists _, _.
  - split_and!; [by eexists _, _| |intros ? ? ? [=]].
    by intros ? ? [= <- <-].
Qed.

(** ** The answers of [generate_music] *)

Lemma generate_music_raise environ float_repr r w e w' :
  api_server.build_cmd environ float_repr r w = (Raise e, w') →
  api_server.generate_music environ float_repr r w
  = (Raise (HTTPException 500 ("Error during inference: " +:+ str_exn e)), w').
Proof.
  intros H. unfold api_server.generate_music, try_except, bind, ret, raise.
  by rewrite H.
Qed.

Lemma text_args_no_tempdir flag file text w :
  staged file text = true →
  tempdir_missing w = true →
  ∃ e, api_server.text_args flag file text w = (Raise e, w).
Proof.
  unfold staged, tempdir_missing.
  intros [Hf Ht]%andb_true_iff Hl. apply negb_true_iff in Hf.
  unfold api_server.text_args, staged_args, bind, NamedTemporaryFile_write.
  rewrite Hf, Ht.
  destruct (locate w (Path_of (tempdir w))) as [dir|]; [|by eexists].
  apply negb_true_iff in Hl. rewrite Hl. by eexists.
Qed.

(** X5. [generate_music] answers 200 "accepted", in any surroundings and
    without touching them, when no text has to be staged; when building
    the command raises it answers 500 with the detail
    ["Error during inference: "] followed by the message of the
    exception, which is what happens for a genre text to stage when the
    temporary directory is missing. *)
Theorem generate_music_answers (environ : gmap string string)
    (float_repr : float → string) (r : api_server.InferenceRequest) (w : World) :
  (staged (api_server.genre_file r) (api_server.genre_txt r) = false →
   staged (api_server.lyrics_file r) (api_server.lyrics_txt r) = false →
   ∃ d,
     api_server.fastapi (api_server.generate_music environ float_repr r) w
     = (api_server.mkHttp 200 (api_server.JsonBody d), w)
     ∧ d !! "status" = Some "accepted")
  ∧ (∀ e w',
       api_server.build_cmd environ float_repr r w = (Raise e, w') →
       api_server.fastapi (api_server.generate_music environ float_repr r) w
       = (api_server.mkHttp 500
            (api_server.JsonBody
               (<["detail" := "Error during inference: " +:+ str_exn e]> ∅)), w'))
  ∧ (staged (api_server.genre_file r) (api_server.genre_txt r) = true →
     tempdir_missing w = true →
     ∃ msg,
       api_server.fastapi (api_server.generate_music environ float_repr r) w
       = (api_server.mkHttp 500
            (api_server.JsonBody
               (<["detail" := "Error during inference: " +:+ msg]> ∅)), w)).
Proof.
  assert (∀ e w',
            api_server.build_cmd environ float_repr r w = (Raise e, w') →
            api_server.fastapi (api_server.generate_music environ float_repr r) w
            = (api_server.mkHttp 500
                 (api_server.JsonBody
                    (<["detail" := "Error during inference: " +:+ str_exn e]> ∅)), w'))
    as Hraise.
  { intros e w' H. unfold api_server.fastapi.
    by rewrite (generate_music_raise _ _ _ _ _ _ H). }
  split_and!; [|exact Hraise|].
  - unfold staged. intros Hg Hl.
    assert (truthy (api_server.genre_file r) = true
            ∨ truthy (api_server.genre_txt r) = false) as Hg'
      by (destruct (truthy (api_server.genre_file r)),
            (truthy (api_server.genre_txt r)); auto).
    assert (truthy (api_server.lyrics_file r) = true
            ∨ truthy (api_server.lyrics_txt r) = false) as Hl'
      by (destruct (truthy (api_server.lyrics_file r)),
            (truthy (api_server.lyrics_txt r)); auto).
    pose proof (api_build_cmd_compose environ float_repr r) as Hb.
    apply (f_equal (λ m, m w)) in Hb.
    rewrite compose_unstaged in Hb by assumption.
    destruct (generate_music_ok _ _ _ _ _ _ Hb) as (d & Hgm & Hs & _).
    exists d. split; [by apply fastapi_ok|exact Hs].
  - intros Sg Hl.
    destruct (text_args_no_tempdir "--genre_txt" _ _ _ Sg Hl) as [e He].
    exists (str_exn e). apply Hraise.
    rewrite api_build_cmd_compose. unfold compose, bind.
    by rewrite He.
Qed.

Lemma generate_music_answers_witness :
  ∃ msg,
    api_server.fastapi (api_server.generate_music ∅ sample_repr pop_request) world_no_tmp
    = (api_server.mkHttp 500
         (api_server.JsonBody
            (<["detail" := "Error during inference: " +:+ msg]> ∅)),
       world_no_tmp).
Proof.
  exact (proj2 (proj2 (generate_music_answers ∅ sample_repr pop_request world_no_tmp))
           eq_refl eq_refl).
Defined.

(** ** One request, at most one run *)

Lemma runs_write suffix text w :
  runs (trace (NamedTemporaryFile_write suffix text w).2) = runs (trace w).
Proof.
  destruct (NamedTemporaryFile_write suffix text w) as [[path|e] w'] eqn:E; simpl.
  - apply NamedTemporaryFile_write_ok in E as (dir & name & _ & _ & _ & _ & Htr & _).
    rewrite Htr. unfold runs. rewrite omap_app. simpl. apply app_nil_r.
  - apply NamedTemporaryFile_write_raise in E as (_ & _ & _ & _ & _ & Htr & _).
    by rewrite Htr.
Qed.

Lemma runs_text_args flag file text w :
  runs (trace (api_server.text_args flag file text w).2) = runs (trace w).
Proof.
  unfold api_server.text_args.
  destruct (truthy file); [reflexivity|].
  destruct (truthy text); [|reflexivity].
  unfold staged_args, bind, ret.
  pose proof (runs_write ".txt" (default "" text) w) as H.
  by destruct (NamedTemporaryFile_write _ _ _) as [[path|e] w'].
Qed.

Lemma runs_compose base gf gt lf lt prompt w :
  runs (trace (compose base gf gt lf lt prompt w).2) = runs (trace w).
Proof.
  unfold compose, bind, ret.
  pose proof (runs_text_args "--genre_txt" gf gt w) as H1.
  destruct (api_server.text_args "--genre_txt" _ _ _) as [[g|e] w1]; [|exact H1].
  pose proof (runs_text_args "--lyrics_txt" lf lt w1) as H2.
  destruct (api_server.text_args "--lyrics_txt" _ _ _) as [[l|e] w2];
    simpl in *; congruence.
Qed.

(** X6. [run_inference] runs the child process at most once and never
    retries: when the command is built and the child starts, exactly that
    command is run, once; when staging raises or the child cannot be
    started, nothing is run. *)
Theorem run_inference_runs_once (environ : gmap string string)
    (float_repr : float → string) (decode : list byte → res string)
    (child : program) (a : gradio_ui.params)
    (w : World) :
  (∀ cmd w1 rc out err f2,
     gradio_ui.build_cmd environ float_repr a w = (Ok cmd, w1) →
     child cmd "/app" (fs w1) = Exited rc out err f2 →
     runs (trace (gradio_ui.run_inference environ float_repr decode child a w).2)
     = runs (trace w) ++ [cmd])
  ∧ (∀ cmd w1 msg,
       gradio_ui.build_cmd environ float_repr a w = (Ok cmd, w1) →
       child cmd "/app" (fs w1) = LaunchFailed msg →
       runs (trace (gradio_ui.run_inference environ float_repr decode child a w).2)
       = runs (trace w))
  ∧ (∀ e w1,
       gradio_ui.build_cmd environ float_repr a w = (Raise e, w1) →
       runs (trace (gradio_ui.run_inference environ float_repr decode child a w).2)
       = runs (trace w)).
Proof.
  rewrite run_inference_world.
  pose proof (runs_compose
                (base_cmd float_repr (CUDA_IDX environ) (gradio_ui.stage1_model a)
                   (gradio_ui.stage2_model a) (gradio_ui.run_n_segments a)
                   (gradio_ui.stage2_batch_size a) (OUTPUT_DIR environ)
                   (gradio_ui.max_new_tokens a) (gradio_ui.repetition_penalty a))
                None (Some (gradio_ui.genre_txt a))
                None (Some (gradio_ui.lyrics_txt a))
                (audio_prompt_args float_repr
                   (gradio_ui.use_dual_tracks_prompt a)
                   (gradio_ui.vocal_track_prompt_path a)
                   (gradio_ui.instrumental_track_prompt_path a)
                   (gradio_ui.use_audio_prompt a)
                   (gradio_ui.audio_prompt_path a)
                   (gradio_ui.prompt_start_time a)
                   (gradio_ui.prompt_end_time a)) w) as Hruns.
  rewrite <- ui_build_cmd_compose in Hruns.
  destruct (gradio_ui.build_cmd environ float_repr a w) as [[cmd|e] w1];
    simpl in Hruns.
  - split_and!; [| |intros ? ? [=]].
    + intros ? ? rc out err f2 [= <- <-] Hc. rewrite Hc. simpl.
      unfold runs in *. rewrite omap_app, Hruns. reflexivity.
    + intros ? ? msg [= <- <-] Hc. rewrite Hc. exact Hruns.
  - split_and!; [intros ? ? ? ? ? ? [=]|intros ? ? ? [=]|].
    intros ? ? [= <- <-]. exact Hruns.
Qed.

Lemma run_inference_runs_once_witness :
  runs (trace (gradio_ui.run_inference ∅ sample_repr ascii_decode oom_child sample_params world0).2)
  = runs (trace world0)
    ++ [[ "python"; "/app/inference/infer.py"; "--cuda_idx"; "0";
          "--stage1_model"; "m-a-p/YuE-s1-7B-anneal-en-icl";
          "--stage2_model"; "m-a-p/YuE-s2-1B-general";
          "--run_n_segments"; "2"; "--stage2_batch_size"; "4";
          "--output_dir"; "/app/output"; "--max_new_tokens"; "3000";
          "--repetition_penalty"; "1.1"; "--genre_txt"; "/tmp/tmpaaaaaaaa.txt" ]].
Proof.
  exact (proj1 (run_inference_runs_once ∅ sample_repr ascii_decode oom_child
                  sample_params world0)
           _ _ 1 [] (list_byte_of_string "CUDA OOM") _ eq_refl eq_refl).
Defined.

(** ** What [run_inference] hands back as artifact *)



Lemma globbed_elem p suffix w e :
  e ∈ gradio_ui.globbed p suffix w →
  ∃ name, e.1 = mkPath (root p) (parts p ++ [name])
          ∧ endswith name suffix = true.
Proof.
  unfold gradio_ui.globbed.
  destruct (locate w p) as [d|]; [|by intros ?%elem_of_nil].
  destruct (is_dir (fs w) d); [|by intros ?%elem_of_nil].
  intros ([name n] & _ & Heq)%list_elem_of_omap. simpl in Heq.
  destruct (endswith name suffix) eqn:E; [|discriminate Heq].
  injection Heq as <-. by exists name.
Qed.

(** X8. An artifact is handed back only after a child that exited with
    code 0, with the output directory there: it is then the path of an
    entry directly inside the output directory whose name ends in [.mp3]
    or [.wav]. No failure path returns a file. *)
Theorem artifact_is_audio_entry (environ : gmap string string)
    (float_repr : float → string) (decode : list byte → res string)
    (child : program) (a : gradio_ui.params)
    (w w' : World) (p status : string) :
  gradio_ui.run_inference environ float_repr decode child a w
  = (Ok (Some p, status), w') →
  ∃ cmd w1 out err f2 e name,
    gradio_ui.build_cmd environ float_repr a w = (Ok cmd, w1)
    ∧ child cmd "/app" (fs w1) = Exited 0 out err f2
    ∧ w' = after_run cmd f2 w1
    ∧ is_Some (stat w' (Path_of (OUTPUT_DIR environ)))
    ∧ e ∈ audio_files environ w'
    ∧ p = Path_str e.1
    ∧ e.1 = mkPath (root (Path_of (OUTPUT_DIR environ)))
              (parts (Path_of (OUTPUT_DIR environ)) ++ [name])
    ∧ (endswith name ".mp3" = true ∨ endswith name ".wav" = true).
Proof.
  rewrite run_inference_unfold.
  destruct (gradio_ui.build_cmd environ float_repr a w) as [[cmd|ex] w1];
    [|intros [=]].
  destruct (child cmd "/app" (fs w1)) as [msg|rc out err f2] eqn:Hc; [intros [=]|].
  destruct (text_of decode out) as [o|ex]; [|intros [=]].
  destruct (text_of decode err) as [e'|ex]; [|intros [=]].
  destruct (rc =? 0) eqn:Hrc; cbn [negb]; [|intros [=]].
  apply Z.eqb_eq in Hrc. subst rc.
  pose proof (find_output_world environ (mkCompleted 0 o e') (after_run cmd f2 w1))
    as Hw.
  destruct (gradio_ui.find_output environ (mkCompleted 0 o e') (after_run cmd f2 w1))
    as [[x|ex] w2] eqn:Hfind; [|intros [=]].
  cbn [snd] in Hw. subst w2. intros [= -> <-].
  apply find_output_artifact in Hfind
    as (Hex & first & others & latest & Ef & Hmax & ->).
  assert (latest ∈ audio_files environ (after_run cmd f2 w1)) as Hin
    by (rewrite Ef; by apply py_max_in in Hmax).
  assert (∃ name,
            latest.1 = mkPath (root (Path_of (OUTPUT_DIR environ)))
                         (parts (Path_of (OUTPUT_DIR environ)) ++ [name])
            ∧ (endswith name ".mp3" = true ∨ endswith name ".wav" = true))
    as (name & Hname & Hsuf).
  { pose proof Hin as Hin'. unfold audio_files in Hin'.
    apply elem_of_app in Hin' as [Hin'|Hin'];
      apply globbed_elem in Hin' as (name & H1 & H2); exists name; auto. }
  exists cmd, w1, out, err, f2, latest, name.
  split_and!; [reflexivity|exact Hc|reflexivity|exact Hex|exact Hin|reflexivity
              |exact Hname|exact Hsuf].
Qed.

Lemma artifact_is_audio_entry_witness :
  ∃ cmd w1 out err f2 e name,
    gradio_ui.build_cmd ∅ sample_repr sample_params world0 = (Ok cmd, w1)
    ∧ tie_child cmd "/app" (fs w1) = Exited 0 out err f2
    ∧ (gradio_ui.run_inference ∅ sample_repr ascii_decode tie_child sample_params world0).2
      = after_run cmd f2 w1
    ∧ is_Some (stat (gradio_ui.run_inference ∅ sample_repr ascii_decode tie_child sample_params
                       world0).2 (Path_of (OUTPUT_DIR ∅)))
    ∧ e ∈ audio_files ∅
            (gradio_ui.run_inference ∅ sample_repr ascii_decode tie_child sample_params world0).2
    ∧ "/app/output/b.mp3" = Path_str e.1
    ∧ e.1 = mkPath (root (Path_of (OUTPUT_DIR ∅)))
              (parts (Path_of (OUTPUT_DIR ∅)) ++ [name])
    ∧ (endswith name ".mp3" = true ∨ endswith name ".wav" = true).
Proof.
  exact (artifact_is_audio_entry ∅ sample_repr ascii_decode tie_child sample_params world0
           _ "/app/output/b.mp3" _ eq_refl).
Defined.

(** ** Which file [get_output] serves *)



(** X9. Through its route the endpoint hands out files of the output
    directory only: where the output directory and its parent are
    directories, every answer of [get_output] that carries content is the
    content of a file that is an entry of the output directory, whatever
    the request path is. *)
Theorem routed_output_confined (environ : gmap string string)
    (elsewhere : string → World → api_server.http * World)
    (path filename : string) (w : World) (d : list string) (data : string) :
  locate w (Path_of (OUTPUT_DIR environ)) = Some d →
  is_dir (fs w) d = true →
  is_dir (fs w) (removelast d) = true →
  api_server.output_route path = Some filename →
  (api_server.app_get environ elsewhere path w).1
  = api_server.mkHttp 200 (api_server.FileBody data) →
  path = "/api/output/" +:+ filename
  ∧ plain_name filename = true
  ∧ ∃ t, node_at (fs w) (d ++ [filename]) = Some (File t data).
Proof.
  intros Hloc Hd Hp Hr. unfold api_server.app_get. rewrite Hr.
  destruct (output_route_Some _ _ Hr) as [Hpath [->|[->|Hplain]]].
  - rewrite (get_output_dot environ w d Hloc Hd). intros [=].
  - destruct (get_output_dotdot environ w d Hloc Hd Hp) as [_ ->]. intros [=].
  - rewrite get_output_answer. unfold stat.
    rewrite (locate_plain_join environ w d filename Hplain Hloc Hd). cbn [fst].
    destruct (node_at (fs w) (d ++ [filename])) as [[t data'|t|]|];
      intros [=]. subst data'. split_and!; [exact Hpath|exact Hplain|by exists t].
Qed.

Lemma routed_output_confined_witness :
  "/api/output/song.mp3" = "/api/output/" +:+ "song.mp3"
  ∧ plain_name "song.mp3" = true
  ∧ ∃ t, node_at (fs world_song) (["app"; "output"] ++ ["song.mp3"])
         = Some (File t "ID3").
Proof.
  exact (routed_output_confined ∅ not_found "/api/output/song.mp3" "song.mp3"
           world_song ["app"; "output"] "ID3" eq_refl eq_refl eq_refl eq_refl eq_refl).
Defined.

(** ** The page: [generate_wrapper], [add_tags], the prompt widgets *)

Lemma wrapper_args_ok (u : gradio_page.inputs) (a : gradio_ui.params) :
  gradio_page.wrapper_args u = Ok a →
  ∃ audio vocal inst n b t p t0 t1,
    gradio_page.time_or (gradio_page.start_time u) 0 = Ok t0
    ∧ gradio_page.time_or (gradio_page.end_time u) 30 = Ok t1
    ∧ a = gradio_ui.mkParams
            (default "" (gradio_page.genre u)) (default "" (gradio_page.lyrics u))
            n b t (PyFloat p)
            (gradio_page.use_audio u) audio
            (Some (PyFloat t0)) (Some (PyFloat t1))
            (gradio_page.use_dual u) vocal inst
            (gradio_page.s1_model u) (gradio_page.s2_model u).
Proof.
  unfold gradio_page.wrapper_args, gradio_page.res_bind.
  destruct (gradio_page.file_path_of _ (gradio_page.audio_path u)) as [audio|];
    [|intros [=]].
  destruct (gradio_page.file_path_of _ (gradio_page.vocal_path u)) as [vocal|];
    [|intros [=]].
  destruct (gradio_page.file_path_of _ (gradio_page.inst_path u)) as [inst|];
    [|intros [=]].
  destruct (gradio_page.py_int (gradio_page.segments u)) as [n|]; [|intros [=]].
  destruct (gradio_page.py_int (gradio_page.batch_size u)) as [b|]; [|intros [=]].
  destruct (gradio_page.py_int (gradio_page.max_tokens u)) as [t|]; [|intros [=]].
  destruct (gradio_page.py_float (gradio_page.rep_penalty u)) as [p|]; [|intros [=]].
  destruct (gradio_page.time_or (gradio_page.start_time u) 0) as [t0|]; [|intros [=]].
  destruct (gradio_page.time_or (gradio_page.end_time u) 30) as [t1|]; [|intros [=]].
  intros [= <-]. by exists audio, vocal, inst, n, b, t, p, t0, t1.
Qed.

Lemma time_or_falsy (t : option PyNum) (d : float) :
  gradio_page.truthy_num t = false → gradio_page.time_or t d = Ok d.
Proof. unfold gradio_page.time_or. by intros ->. Qed.

(** X11. Through [generate_wrapper] the two times are always numbers, so
    with either prompt mode on the command carries both time flags; a
    start time that is unset or zero is sent as 0.0 and an end time that
    is unset or zero is sent as 30.0. *)
Theorem wrapper_times_always_sent (environ : gmap string string)
    (float_repr : float → string) (u : gradio_page.inputs)
    (a : gradio_ui.params) (w w1 : World) (cmd : list string) :
  gradio_page.wrapper_args u = Ok a →
  gradio_ui.build_cmd environ float_repr a w = (Ok cmd, w1) →
  gradio_page.use_dual u = true ∨ gradio_page.use_audio u = true →
  ∃ t0 t1,
    gradio_page.time_or (gradio_page.start_time u) 0 = Ok t0
    ∧ gradio_page.time_or (gradio_page.end_time u) 30 = Ok t1
    ∧ has_pair "--prompt_start_time" (float_repr t0) cmd
    ∧ has_pair "--prompt_end_time" (float_repr t1) cmd
    ∧ (gradio_page.truthy_num (gradio_page.start_time u) = false → t0 = 0%float)
    ∧ (gradio_page.truthy_num (gradio_page.end_time u) = false → t1 = 30%float).
Proof.
  intros (audio & vocal & inst & n & b & t & p & t0 & t1 & H0 & H1 & ->)%wrapper_args_ok
         Hb Hmode.
  rewrite ui_build_cmd_compose in Hb. cbn in Hb.
  apply compose_prompt in Hb as [Hdual Hsingle].
  exists t0, t1.
  assert (time_flag float_repr "--prompt_start_time" (Some (PyFloat t0)) cmd
          ∧ time_flag float_repr "--prompt_end_time" (Some (PyFloat t1)) cmd)
    as [Hs He].
  { destruct (gradio_page.use_dual u) eqn:Ed.
    - destruct (Hdual eq_refl) as (_ & _ & _ & _ & Hs & He). by split.
    - destruct Hmode as [Hm|Hm]; [discriminate Hm|].
      destruct (Hsingle eq_refl Hm) as (_ & _ & _ & _ & Hs & He). by split. }
  split_and!; [exact H0|exact H1|exact Hs|exact He| |].
  - intros Hf. rewrite (time_or_falsy _ _ Hf) in H0. by injection H0 as <-.
  - intros Hf. rewrite (time_or_falsy _ _ Hf) in H1. by injection H1 as <-.
Qed.

Lemma wrapper_times_always_sent_witness :
  ∃ a cmd w1,
    gradio_page.wrapper_args sample_inputs = Ok a
    ∧ gradio_ui.build_cmd ∅ page_repr a world0 = (Ok cmd, w1)
    ∧ has_pair "--prompt_start_time" "5.0" cmd
    ∧ has_pair "--prompt_end_time" "30.0" cmd.
Proof.
  eexists _, _, _. split; [reflexivity|]. split; [vm_compute; reflexivity|].
  destruct (wrapper_times_always_sent ∅ page_repr sample_inputs _ world0 _ _
              eq_refl eq_refl (or_intror eq_refl))
    as (t0 & t1 & H0 & H1 & Hs & He & _ & Hd).
  injection H0 as <-. rewrite (Hd eq_refl) in He. split; [exact Hs|exact He].
Defined.

Lemma length_append_str (a b : string) :
  String.length (a +:+ b) = (String.length a + String.length b)%nat.
Proof.
  induction a as [|x a IH]; [reflexivity|].
  change (S (String.length (a +:+ b)) = S (String.length a + String.length b)).
  by rewrite IH.
Qed.

Lemma join_contains (sep : string) (l : list string) (t : string) :
  t ∈ l → contains (join sep l) t.
Proof.
  induction l as [|x l IH]; [by intros ?%elem_of_nil|].
  intros [->|Hin]%elem_of_cons.
  - destruct l as [|y l]; [exists "", ""; by rewrite append_nil_r|].
    exists "", (sep +:+ join sep (y :: l)). reflexivity.
  - destruct l as [|y l]; [by apply elem_of_nil in Hin|].
    destruct (IH Hin) as (pre & post & Heq).
    exists (x +:+ sep +:+ pre), post.
    change (join sep (x :: y :: l)) with (x +:+ sep +:+ join sep (y :: l)).
    by rewrite Heq, !append_assoc.
Qed.

(** X12. With a selection that is not empty, [add_tags] keeps the text
    that is in the box as the beginning of the new text, puts every
    selected tag into it, and makes a non-empty text strictly longer, so
    a tag that was already in the box is added again. With no selection
    it returns the text as it is. *)
Theorem add_tags_appends (tags : list string) (current_text : option string) :
  (tags ≠ [] →
   ∃ r,
     gradio_page.add_tags (Some tags) current_text = Some r
     ∧ (∃ rest, r = default "" current_text +:+ rest)
     ∧ (∀ t, t ∈ tags → contains r t)
     ∧ (truthy current_text = true →
        (String.length (default "" current_text) < String.length r)%nat))
  ∧ gradio_page.add_tags (Some []) current_text = current_text
  ∧ gradio_page.add_tags None current_text = current_text.
Proof.
  split_and!; [|reflexivity..].
  intros Hne. destruct tags as [|tag tags]; [by destruct Hne|].
  unfold gradio_page.add_tags.
  destruct (truthy current_text) eqn:Ht.
  - eexists. split_and!; [reflexivity|by eexists| |].
    + intros t (pre & post & Heq)%(join_contains " ").
      exists (default "" current_text +:+ " " +:+ pre), post.
      by rewrite Heq, !append_assoc.
    + intros _. rewrite !length_append_str. simpl. lia.
  - eexists. split_and!; [reflexivity| |by apply join_contains|intros [=]].
    exists (join " " (tag :: tags)).
    destruct current_text as [s|]; [|reflexivity].
    simpl in Ht. apply negb_false_iff, String.eqb_eq in Ht. by subst s.
Qed.

Lemma page_ok_on_change (c : gradio_page.change) (g : gradio_page.page) :
  page_ok g → page_ok (gradio_page.on_change c g).
Proof.
  intros _. destruct c as [x|x]; destruct x; unfold page_ok; simpl;
    split_and!; first [done|by intros [? ?]].
Qed.

Lemma page_ok_foldl (cs : list gradio_page.change) : ∀ g,
  page_ok g → page_ok (foldl (λ g c, gradio_page.on_change c g) g cs).
Proof.
  induction cs as [|c cs IH]; intros g Hg; [exact Hg|].
  simpl. apply IH. by apply page_ok_on_change.
Qed.

(** X13. Whatever the user does with the two check boxes, the page never
    shows the reference-audio widget together with the track widgets: the
    two track widgets are shown or hidden together, the two time widgets
    are shown exactly when one of the audio widgets is, and a widget that
    is shown has its check box ticked. *)
Theorem page_shows_one_mode (cs : list gradio_page.change) :
  page_ok (gradio_page.after_changes cs).
Proof.
  apply page_ok_foldl. unfold page_ok. simpl.
  split_and!; first [done|by intros [? ?]].
Qed.

(** ** Settings from the environment *)

(** X14. Every command starts with [python /app/inference/infer.py] and
    carries the device index and the output directory of the environment
    (["0"] and ["/app/output"] when unset). The API takes the two model
    names from the environment too; [run_inference] takes them from its
    arguments, whatever the environment says. *)
Theorem settings_reach_command (environ : gmap string string)
    (float_repr : float → string) :
  (∀ r w cmd w',
     api_server.build_cmd environ float_repr r w = (Ok cmd, w') →
     take 2 cmd = ["python"; "/app/inference/infer.py"]
     ∧ has_pair "--cuda_idx" (default "0" (environ !! "CUDA_IDX")) cmd
     ∧ has_pair "--output_dir" (default "/app/output" (environ !! "OUTPUT_DIR")) cmd
     ∧ has_pair "--stage1_model"
         (default "m-a-p/YuE-s1-7B-anneal-en-icl" (environ !! "STAGE1_MODEL")) cmd
     ∧ has_pair "--stage2_model"
         (default "m-a-p/YuE-s2-1B-general" (environ !! "STAGE2_MODEL")) cmd)
  ∧ (∀ a w cmd w',
       gradio_ui.build_cmd environ float_repr a w = (Ok cmd, w') →
       take 2 cmd = ["python"; "/app/inference/infer.py"]
       ∧ has_pair "--cuda_idx" (default "0" (environ !! "CUDA_IDX")) cmd
       ∧ has_pair "--output_dir" (default "/app/output" (environ !! "OUTPUT_DIR")) cmd
       ∧ has_pair "--stage1_model" (gradio_ui.stage1_model a) cmd
       ∧ has_pair "--stage2_model" (gradio_ui.stage2_model a) cmd).
Proof.
  split.
  - intros r w cmd w' Hb. rewrite api_build_cmd_compose in Hb.
    pose proof Hb as (g & l & w1 & _ & _ & Hcmd)%compose_ok.
    apply compose_read in Hb as (g' & l' & w1' & _ & _ & Hr); [|apply closed_base].
    split; [by rewrite Hcmd|].
    unfold has_pair. rewrite Hr, read_base.
    split_and!; apply elem_of_app; left; is_in.
  - intros a w cmd w' Hb. rewrite ui_build_cmd_compose in Hb.
    pose proof Hb as (g & l & w1 & _ & _ & Hcmd)%compose_ok.
    apply compose_read in Hb as (g' & l' & w1' & _ & _ & Hr); [|apply closed_base].
    split; [by rewrite Hcmd|].
    unfold has_pair. rewrite Hr, read_base.
    split_and!; apply elem_of_app; left; is_in.
Qed.

(** ** From the output directory to the download *)

Lemma fs_get_NoDup (f : fsmap) (k : list string) (n : inode) :
  NoDup f.*1 → (k, n) ∈ f → fs_get f k = Some n.
Proof.
  induction f as [|[k' n'] f IH]; [by intros _ ?%elem_of_nil|].
  cbn [fmap list_fmap fst fs_get]. intros [Hk Hf]%NoDup_cons Hin.
  apply elem_of_cons in Hin as [[= -> ->]|Hin].
  - by rewrite decide_True.
  - rewrite decide_False; [by apply IH|].
    intros ->. apply Hk. by apply (list_elem_of_fmap_2 fst) in Hin.
Qed.

Lemma globbed_entry p suffix w e :
  e ∈ gradio_ui.globbed p suffix w →
  ∃ d name,
    locate w p = Some d ∧ is_dir (fs w) d = true
    ∧ e.1 = mkPath (root p) (parts p ++ [name])
    ∧ (d ++ [name], e.2) ∈ fs w.
Proof.
  unfold gradio_ui.globbed.
  destruct (locate w p) as [d|]; [|by intros ?%elem_of_nil].
  destruct (is_dir (fs w) d) eqn:Hd; [|by intros ?%elem_of_nil].
  intros ([name n] & Hin & Heq)%list_elem_of_omap. cbn [fst snd] in Heq.
  destruct (endswith name suffix); [|discriminate Heq].
  injection Heq as <-. exists d, name.
  split_and!; [reflexivity|exact Hd|reflexivity|].
  apply list_elem_of_omap in Hin as ([k n'] & Hin & Hc).
  unfold child_of in Hc. destruct (decide (removelast k = d)) as [<-|]; [|discriminate Hc].
  destruct (last k) as [x|] eqn:Hl; [|discriminate Hc].
  injection Hc as -> ->. apply last_Some in Hl as [k' ->].
  by rewrite removelast_last.
Qed.

(** X15. With no path listed twice in the file system, every audio file
    that [run_inference] looks at in the output directory (and so every
    artifact it can return) is a file [get_output] serves under its bare
    name: the joined path is the very path that was listed, and the answer
    is 200 with the file's content. *)
Theorem listed_audio_is_served (environ : gmap string string) (w : World)
    (e : Path * inode) (t : Z) (data : string) :
  NoDup (fs w).*1 →
  e ∈ audio_files environ w →
  e.2 = File t data →
  plain_name (Path_name e.1) = true →
  Path_div (Path_of (OUTPUT_DIR environ)) (Path_name e.1) = e.1
  ∧ api_server.fastapi (api_server.get_output environ (Path_name e.1)) w
    = (api_server.mkHttp 200 (api_server.FileBody data), w).
Proof.
  intros Hnd Hin Hfile Hplain.
  assert (∃ d name,
            locate w (Path_of (OUTPUT_DIR environ)) = Some d
            ∧ is_dir (fs w) d = true
            ∧ e.1 = mkPath (root (Path_of (OUTPUT_DIR environ)))
                      (parts (Path_of (OUTPUT_DIR environ)) ++ [name])
            ∧ (d ++ [name], e.2) ∈ fs w)
    as (d & name & Hloc & Hd & He & Hfs).
  { unfold audio_files in Hin.
    apply elem_of_app in Hin as [Hin|Hin]; by apply globbed_entry in Hin. }
  assert (Path_name e.1 = name) as Hname.
  { rewrite He. unfold Path_name. cbn [parts]. apply last_last. }
  rewrite Hname in *.
  split.
  - unfold Path_div. rewrite (Path_of_plain _ Hplain). cbn [root parts String.eqb].
    by rewrite He.
  - pose proof (locate_plain_join environ w d name Hplain Hloc Hd) as Hjoin.
    assert (node_at (fs w) (d ++ [name]) = Some (File t data)) as Hnode.
    { rewrite <- Hfile.
      replace (node_at (fs w) (d ++ [name])) with (fs_get (fs w) (d ++ [name]))
        by (by destruct d).
      by apply fs_get_NoDup. }
    unfold api_server.fastapi, api_server.get_output, bind, Path_exists, ret, stat.
    rewrite Hjoin, Hnode. rewrite bool_decide_eq_true_2 by (by eexists).
    cbn [negb]. unfold stat. by rewrite Hjoin, Hnode.
Qed.

Lemma listed_audio_is_served_witness :
  api_server.fastapi (api_server.get_output ∅ "song.mp3") world_song
  = (api_server.mkHttp 200 (api_server.FileBody "ID3"), world_song).
Proof.
  refine (proj2 (listed_audio_is_served ∅ world_song
                   (mkPath "/" ["app"; "output"; "song.mp3"], File 500 "ID3")
                   500 "ID3" _ _ eq_refl eq_refl)).
  - apply (bool_decide_unpack _). vm_compute. reflexivity.
  - vm_compute. apply list_elem_of_here.
Defined.

(** ** Output that is no text *)

(** X16. When the child has run and what it wrote to one of its two
    streams cannot be decoded, [run_inference] returns no artifact and the
    status ["Exception: "] followed by the message of the decoder,
    whatever the exit code was and whatever audio files the child left;
    the child is not run again. *)
Theorem undecodable_output_reported (environ : gmap string string)
    (float_repr : float → string) (decode : list byte → res string)
    (child : program) (a : gradio_ui.params)
    (w : World) (cmd : list string) (w1 : World)
    (rc : Z) (out err : list byte) (f2 : fsmap) (x : exn) :
  gradio_ui.build_cmd environ float_repr a w = (Ok cmd, w1) →
  child cmd "/app" (fs w1) = Exited rc out err f2 →
  decode out = Raise x ∨ (∃ o, decode out = Ok o ∧ decode err = Raise x) →
  gradio_ui.run_inference environ float_repr decode child a w
  = (Ok (None, "Exception: " +:+ str_exn x), after_run cmd f2 w1)
  ∧ trace (after_run cmd f2 w1) = trace w1 ++ [Ran cmd].
Proof.
  intros Hb Hc Hd. split; [|reflexivity].
  rewrite run_inference_unfold, Hb, Hc.
  destruct Hd as [Ho|(o & Ho & He)].
  - by rewrite (text_of_raise _ _ _ Ho).
  - by rewrite (text_of_ok _ _ _ Ho), (text_of_raise _ _ _ He).
Qed.

Lemma undecodable_output_reported_witness :
  gradio_ui.run_inference ∅ sample_repr ascii_decode noisy_child sample_params world0
  = (Ok (None,
         "Exception: 'ascii' codec can't decode byte 0xff in position 0: ordinal not in range(128)"),
     (gradio_ui.run_inference ∅ sample_repr ascii_decode noisy_child sample_params
        world0).2).
Proof.
  exact (proj1 (undecodable_output_reported ∅ sample_repr ascii_decode noisy_child
                  sample_params world0 _ _ 0 [xff] [] _
                  (Exception "UnicodeDecodeError"
                     "'ascii' codec can't decode byte 0xff in position 0: ordinal not in range(128)")
                  eq_refl eq_refl (or_introl eq_refl))).
Defined.
